(** * kurs2025: a personal finance tracker (Flask + SQLAlchemy), [app.py]

    A shallow embedding of the request handlers of [app.py] and of the
    dashboard aggregation, followed by the properties of the specification
    that are checked against it.

    Modelling conventions.
    - A Python [float] is an exact rational ([Q]): sums, quotients and
      comparisons are the mathematical ones.  Rounding error, overflow and
      the non-finite values [inf] / [nan] are outside the model.
    - A Python [str] is a [string] of bytes (UTF-8); comparison of strings
      is the lexicographic order on bytes, which on UTF-8 text is the order
      of code points that Python uses.  The builtins [int], [float] and
      [str.strip] are modelled on ASCII digits and white space.
    - A table of the database is the list of its rows in insertion order;
      [query.get] finds a row by primary key, [first()] is the first match.
    - A handler is a function from the store, the session and the request
      to a result in the error monad [res]: either a reply (new store,
      flashed messages, redirect or rendered page) or an uncaught exception,
      which leaves the store as it was. *)

From Stdlib Require Import ZArith QArith Qround Qminmax Lia Lqa Bool.
From Stdlib Require Import List String Ascii DecimalString Sorted Permutation.
From Stdlib Require Import Structures.OrderedTypeEx.
From Stdlib Require Floats.PrimFloat.
Import ListNotations.

Local Open Scope string_scope.
Local Open Scope Z_scope.

(** ** Exceptions and the error monad *)

Inductive exn : Type :=
| ValueError
| AttributeError
| KeyError
| BadRequestKeyError.

Inductive res (A : Type) : Type :=
| Ok (a : A)
| Raise (e : exn).

Arguments Ok {A} a.
Arguments Raise {A} e.

Definition bind {A B : Type} (m : res A) (k : A -> res B) : res B :=
  match m with
  | Ok a => k a
  | Raise e => Raise e
  end.

Notation "x <- m ;; k" := (bind m (fun x => k))
  (at level 61, m at next level, right associativity).

(** [try: m except e => h]: the handler [h] runs when [m] raises [e];
    any other exception propagates. *)
Definition exn_eqb (a b : exn) : bool :=
  match a, b with
  | ValueError, ValueError
  | AttributeError, AttributeError
  | KeyError, KeyError
  | BadRequestKeyError, BadRequestKeyError => true
  | _, _ => false
  end.

Definition try_except {A B : Type} (m : res A) (e : exn)
    (h : res B) (k : A -> res B) : res B :=
  match m with
  | Ok a => k a
  | Raise e' => if exn_eqb e' e then h else Raise e'
  end.

(** ** Python strings *)

(** White space as [str.strip] and the numeric builtins see it, within
    ASCII. *)
Definition is_space (c : ascii) : bool :=
  let n := nat_of_ascii c in
  ((9 <=? n) && (n <=? 13) || (28 <=? n) && (n <=? 32))%nat.

Definition is_digit (c : ascii) : bool :=
  let n := nat_of_ascii c in ((48 <=? n) && (n <=? 57))%nat.

Definition digit_val (c : ascii) : Z := Z.of_nat (nat_of_ascii c) - 48.

Fixpoint lstrip (s : string) : string :=
  match s with
  | String c s' => if is_space c then lstrip s' else s
  | EmptyString => EmptyString
  end.

Fixpoint rstrip (s : string) : string :=
  match s with
  | String c s' =>
      match rstrip s' with
      | EmptyString => if is_space c then EmptyString else String c EmptyString
      | r => String c r
      end
  | EmptyString => EmptyString
  end.

(** [s.strip()] *)
Definition strip (s : string) : string := rstrip (lstrip s).

(** [s.replace(",", ".")] *)
Fixpoint replace_comma (s : string) : string :=
  match s with
  | String c s' =>
      String (if Ascii.eqb c "," then "."%char else c) (replace_comma s')
  | EmptyString => EmptyString
  end.

(** [s.startswith(p)] *)
Definition startswith (s p : string) : bool := String.prefix p s.

(** *** Decimal literals: the builtins [int(str)] and [float(str)]

    [read_digits] consumes a run of decimal digits in which single
    underscores may separate digits, and returns the value read, the number
    of digits and the rest of the string. *)
Fixpoint read_digits (acc : Z) (cnt : nat) (s : string) : Z * nat * string :=
  match s with
  | String c s' =>
      if is_digit c then read_digits (10 * acc + digit_val c) (S cnt) s'
      else if Ascii.eqb c "_" then
        match cnt, s' with
        | S _, String d _ =>
            if is_digit d then read_digits acc cnt s' else (acc, cnt, s)
        | _, _ => (acc, cnt, s)
        end
      else (acc, cnt, s)
  | EmptyString => (acc, cnt, s)
  end.

Definition read_sign (s : string) : bool * string :=
  match s with
  | String "-" s' => (true, s')
  | String "+" s' => (false, s')
  | _ => (false, s)
  end.

(** [int(s)] in base 10 on ASCII text; [None] stands for [ValueError].
    The decimal digits of other scripts, which [int] reads as well, are
    outside the model. *)
Definition int_of_str (s : string) : option Z :=
  let (neg, s1) := read_sign (strip s) in
  match read_digits 0 0 s1 with
  | (_, O, _) => None
  | (v, S _, EmptyString) => Some (if neg then - v else v)
  | (_, S _, String _ _) => None
  end.

Definition py_int (s : string) : res Z :=
  match int_of_str s with
  | Some z => Ok z
  | None => Raise ValueError
  end.

Definition pow10 (n : Z) : Q :=
  if n <? 0 then (1 / inject_Z (10 ^ (- n)))%Q else inject_Z (10 ^ n).

Definition read_exponent (s : string) : option (Z * string) :=
  match s with
  | String c r =>
      if Ascii.eqb c "e" || Ascii.eqb c "E" then
        let (eneg, r1) := read_sign r in
        match read_digits 0 0 r1 with
        | (_, O, _) => None
        | (ev, S _, r2) => Some (if eneg then - ev else ev, r2)
        end
      else Some (0, s)
  | EmptyString => Some (0, s)
  end.

(** [float(s)] on finite decimal literals within ASCII, read exactly;
    [None] stands for [ValueError].  The literals [inf], [infinity] and
    [nan], which [float] accepts, denote no rational and are not read by
    this model ([non_finite_literal] below recognises them), and a literal
    beyond the range of binary64, which [float] reads as [inf], keeps its
    value here. *)
Definition float_of_str (s : string) : option Q :=
  let (neg, s1) := read_sign (strip s) in
  let '(ip, ni, s2) := read_digits 0 0 s1 in
  let '(fp, nf, s3) :=
    match s2 with
    | String "." r => read_digits 0 0 r
    | _ => (0, O, s2)
    end in
  match (ni + nf)%nat with
  | O => None
  | S _ =>
      match read_exponent s3 with
      | Some (e, EmptyString) =>
          let m := (inject_Z (ip * 10 ^ Z.of_nat nf + fp)
                    / inject_Z (10 ^ Z.of_nat nf))%Q in
          let v := Qred (m * pow10 e)%Q in
          Some (if neg then Qred (- v)%Q else v)
      | _ => None
      end
  end.

Definition py_float (s : string) : res Q :=
  match float_of_str s with
  | Some x => Ok x
  | None => Raise ValueError
  end.

(** *** Formatting integers: [str(n)] and the format spec [0wd] *)

(** Decimal digits of a non-negative integer. *)
Definition str_of_nonneg (n : Z) : string :=
  NilZero.string_of_uint (N.to_uint (Z.to_N n)).

Fixpoint zeros (k : nat) : string :=
  match k with
  | O => EmptyString
  | S k' => String "0" (zeros k')
  end.

Definition zfill (w : nat) (s : string) : string :=
  zeros (w - String.length s) ++ s.

(** [f"{n}"] for an [int]. *)
Definition str_of_int (n : Z) : string :=
  if n <? 0 then String "-" (str_of_nonneg (- n)) else str_of_nonneg n.

(** [f"{n:0wd}"]: zero padding to width [w], the sign counted in the
    width. *)
Definition format_0d (w : nat) (n : Z) : string :=
  if n <? 0 then String "-" (zfill (w - 1) (str_of_nonneg (- n)))
  else zfill w (str_of_nonneg n).

(** ** Python numbers: [min], [max], [sum], [round] *)

Definition Qltb (a b : Q) : bool := negb (Qle_bool b a).

(** [min(a, b)] is [b] when [b < a], else [a]; [max(a, b)] is [b] when
    [b > a], else [a]. *)
Definition py_min (a b : Q) : Q := if Qltb b a then b else a.
Definition py_max (a b : Q) : Q := if Qltb a b then b else a.

(** [sum(xs)] *)
Definition py_sum (xs : list Q) : Q := fold_left Qplus xs 0%Q.

(** [round(x, 2)]: to the nearest multiple of 1/100, a tie to the even
    one. *)
Definition round_half_even (x : Q) : Z :=
  let n := Qfloor x in
  let r := (x - inject_Z n)%Q in
  if Qltb r (1 # 2) then n
  else if Qltb (1 # 2) r then n + 1
  else if Z.even n then n else n + 1.

Definition round2 (x : Q) : Q := Qmake (round_half_even (x * 100)%Q) 100.

(** ** Python dictionaries keyed by strings

    Insertion ordered: assigning to a key that is present replaces its
    value where it stands, a new key goes to the end. *)

Definition dict (V : Type) : Type := list (string * V).

Fixpoint dict_find {V : Type} (d : dict V) (k : string) : option V :=
  match d with
  | [] => None
  | (k', v) :: d' => if String.eqb k' k then Some v else dict_find d' k
  end.

(** [d.get(k, default)] *)
Definition dict_get {V : Type} (d : dict V) (k : string) (default : V) : V :=
  match dict_find d k with
  | Some v => v
  | None => default
  end.

(** [d[k]] *)
Definition dict_item {V : Type} (d : dict V) (k : string) : res V :=
  match dict_find d k with
  | Some v => Ok v
  | None => Raise KeyError
  end.

(** [d[k] = v] *)
Fixpoint dict_set {V : Type} (d : dict V) (k : string) (v : V) : dict V :=
  match d with
  | [] => [(k, v)]
  | (k', v') :: d' =>
      if String.eqb k' k then (k', v) :: d' else (k', v') :: dict_set d' k v
  end.

Definition dict_keys {V : Type} (d : dict V) : list string := map fst d.
Definition dict_values {V : Type} (d : dict V) : list V := map snd d.

(** [sorted(keys)]: the ascending arrangement of a list of strings. *)
Fixpoint insert_sorted (x : string) (l : list string) : list string :=
  match l with
  | [] => [x]
  | y :: l' => if String.leb x y then x :: l else y :: insert_sorted x l'
  end.

Fixpoint sorted (l : list string) : list string :=
  match l with
  | [] => []
  | x :: l' => insert_sorted x (sorted l')
  end.

(** [[f(x) for x in xs]] where [f] may raise. *)
Fixpoint map_res {A B : Type} (f : A -> res B) (xs : list A) : res (list B) :=
  match xs with
  | [] => Ok []
  | x :: xs' => y <- f x ;; ys <- map_res f xs' ;; Ok (y :: ys)
  end.

(** ** The database *)

Record User : Type := mkUser {
  u_id : Z;
  u_name : string;
  u_username : string;
  u_password : string;
  u_currency : string;
  u_created : string
}.

Record Transaction : Type := mkTransaction {
  t_id : Z;
  t_user_id : Z;
  t_type : string;
  t_category : option string;
  t_amount : Q;
  t_payment_method : option string;
  t_date : string;
  t_description : option string
}.

Record Budget : Type := mkBudget {
  b_id : Z;
  b_user_id : Z;
  b_category : string;
  b_amount : Q
}.

Record Goal : Type := mkGoal {
  g_id : Z;
  g_user_id : Z;
  g_name : string;
  g_target : Q;
  g_current : Q;
  g_deadline : option string
}.

Record store : Type := mkStore {
  users : list User;
  transactions : list Transaction;
  budgets : list Budget;
  goals : list Goal
}.

Definition empty_store : store := mkStore [] [] [] [].

(** The next value of an integer primary key: one more than the largest
    key in the table. *)
Definition next_id (ids : list Z) : Z := 1 + fold_right Z.max 0 ids.

(** [Model.query.get(id)] *)
Definition get_transaction (st : store) (tid : Z) : option Transaction :=
  find (fun t => t_id t =? tid) (transactions st).

Definition get_goal (st : store) (gid : Z) : option Goal :=
  find (fun g => g_id g =? gid) (goals st).

(** [Budget.query.filter_by(user_id=uid, category=cat).first()] *)
Definition first_budget (st : store) (uid : Z) (cat : string) : option Budget :=
  find (fun b => (b_user_id b =? uid) && String.eqb (b_category b) cat)
       (budgets st).

(** ** Requests, sessions and replies *)

(** [request.form] and [request.args]: field names with their values. *)
Definition form : Type := list (string * string).

(** [request.form.get(k)] *)
Definition form_get (f : form) (k : string) : option string := dict_find f k.

(** [request.form[k]]: a missing field aborts the request (HTTP 400). *)
Definition form_item (f : form) (k : string) : res string :=
  match dict_find f k with
  | Some v => Ok v
  | None => Raise BadRequestKeyError
  end.

(** [x or y] on an optional string: [None] and [""] are falsy. *)
Definition str_or (x : option string) (y : string) : string :=
  match x with
  | Some (String c s) => String c s
  | _ => y
  end.

(** [x or None] *)
Definition opt_str_or_none (x : option string) : option string :=
  match x with
  | Some (String c s) => Some (String c s)
  | _ => None
  end.

(** The session cookie: the user name it carries, if any. *)
Definition session : Type := option string.

(** [current_user()] *)
Definition current_user (st : store) (sess : session) : option User :=
  match sess with
  | Some (String c s) =>
      find (fun u => String.eqb (u_username u) (String c s)) (users st)
  | _ => None
  end.

(** [user.id] where [user] may be [None]. *)
Definition user_id (u : option User) : res Z :=
  match u with
  | Some u => Ok (u_id u)
  | None => Raise AttributeError
  end.

(** A value that is a [str] or a [float]: [request.form.get(k, g.target)]
    returns the field's text, or the float it was given as default. *)
Inductive pyval : Type :=
| PStr (s : string)
| PFloat (x : Q).

Definition truthy (v : pyval) : bool :=
  match v with
  | PStr s => negb (String.eqb s "")
  | PFloat x => negb (Qeq_bool x 0)
  end.

Definition py_or (a b : pyval) : pyval := if truthy a then a else b.

(** [v.strip()]: only a [str] has the method. *)
Definition py_strip (v : pyval) : res string :=
  match v with
  | PStr s => Ok (strip s)
  | PFloat _ => Raise AttributeError
  end.

(** [parse_number], lines 81-83. *)
Definition parse_number (raw : pyval) : res Q :=
  s <- py_strip (py_or raw (PStr "")) ;;
  py_float (replace_comma s).

(** [request.form.get(k, default)] with a float default. *)
Definition form_get_or (f : form) (k : string) (default : Q) : pyval :=
  match form_get f k with
  | Some s => PStr s
  | None => PFloat default
  end.

Definition flash : Type := (string * string)%type.

Inductive endpoint : Type :=
| ep_login
| ep_dashboard
| ep_transactions_view
| ep_budget
| ep_savings.

(** [datetime.date.today()] *)
Record date : Type := mkDate {
  d_year : Z;
  d_month : Z;
  d_day : Z
}.

(** [str(date)]: the ISO form [YYYY-MM-DD]. *)
Definition str_of_date (d : date) : string :=
  format_0d 4 (d_year d) ++ "-" ++ format_0d 2 (d_month d)
    ++ "-" ++ format_0d 2 (d_day d).

(** What [dashboard] hands to its template. *)
Record dashboard_ctx : Type := mkCtx {
  c_month : string;
  c_currency : string;
  c_income : Q;
  c_expenses : Q;
  c_goals_savings : Q;
  c_balance : Q;
  c_health : Q;
  c_exp_labels : list string;
  c_exp_values : list Q;
  c_daily_labels : list string;
  c_daily_values : list Q;
  c_months : list (Z * string);
  c_years : list Z;
  c_selected_month : Z;
  c_selected_year : Z
}.

Inductive page : Type :=
| Redirect (e : endpoint)
| RenderDashboard (ctx : dashboard_ctx).

Record reply : Type := mkReply {
  r_store : store;
  r_flashes : list flash;
  r_page : page
}.

(** [@login_required], lines 86-92. *)
Definition login_required (sess : session) (st : store)
    (view : res reply) : res reply :=
  match sess with
  | Some _ => view
  | None => Ok (mkReply st [] (Redirect ep_login))
  end.

(** ** The dashboard, lines 147-232 *)

Definition MONTHS_UA : list (Z * string) :=
  [ (1, "січень"); (2, "лютий"); (3, "березень"); (4, "квітень");
    (5, "травень"); (6, "червень"); (7, "липень"); (8, "серпень");
    (9, "вересень"); (10, "жовтень"); (11, "листопад"); (12, "грудень") ].

(** [MONTHS_UA[i]] *)
Definition months_ua_item (i : Z) : res string :=
  match find (fun p => fst p =? i) MONTHS_UA with
  | Some p => Ok (snd p)
  | None => Raise KeyError
  end.

(** [range(a, b)] *)
Definition py_range (a b : Z) : list Z :=
  map (fun i => a + Z.of_nat i) (seq 0 (Z.to_nat (b - a))).

Definition str_truthy (x : option string) : bool :=
  match x with
  | Some (String _ _) => true
  | _ => false
  end.

(** Lines 154-163: the selected month and year. *)
Definition selected_period (args : form) (today : date) : res (Z * Z) :=
  let m_arg := form_get args "month" in
  let y_arg := form_get args "year" in
  if str_truthy m_arg && str_truthy y_arg then
    try_except
      (sel_month <- py_int (str_or m_arg "") ;;
       sel_year <- py_int (str_or y_arg "") ;;
       Ok (sel_month, sel_year))
      ValueError
      (Ok (d_month today, d_year today))
      Ok
  else Ok (d_month today, d_year today).

(** Line 165: [f"{sel_year}-{sel_month:02d}"] *)
Definition month_prefix (sel_year sel_month : Z) : string :=
  str_of_int sel_year ++ "-" ++ format_0d 2 sel_month.

(** Line 169 *)
Definition month_transactions (user_tr : list Transaction)
    (prefix : string) : list Transaction :=
  filter (fun t => startswith (t_date t) prefix) user_tr.

(** Lines 172-174 *)
Definition income_of (month_tr : list Transaction) : Q :=
  py_sum (map t_amount
            (filter (fun t => String.eqb (t_type t) "income") month_tr)).

Definition expenses_of (month_tr : list Transaction) : Q :=
  py_sum (map t_amount
            (filter (fun t => String.eqb (t_type t) "expense") month_tr)).

(** Lines 177-181 *)
Definition exp_by_cat_of (month_tr : list Transaction) : dict Q :=
  fold_left
    (fun exp_by_cat t =>
       if String.eqb (t_type t) "expense" then
         let c := str_or (t_category t) "Інше" in
         dict_set exp_by_cat c (dict_get exp_by_cat c 0 + t_amount t)%Q
       else exp_by_cat)
    month_tr [].

(** Lines 184-187 *)
Definition sign_of (t : Transaction) : Q :=
  if String.eqb (t_type t) "income" then 1%Q else (-1)%Q.

Definition daily_of (month_tr : list Transaction) : dict Q :=
  fold_left
    (fun daily t =>
       let sign := sign_of t in
       dict_set daily (t_date t)
         (dict_get daily (t_date t) 0 + sign * t_amount t)%Q)
    month_tr [].

(** Lines 189-190 *)
Definition daily_labels_of (daily : dict Q) : list string :=
  sorted (dict_keys daily).

Definition daily_values_of (daily : dict Q)
    (daily_labels : list string) : res (list Q) :=
  map_res (fun d => v <- dict_item daily d ;; Ok (round2 v)) daily_labels.

(** Line 196: [{b.category: b.amount for b in budgets}] *)
Definition budget_map_of (bs : list Budget) : dict Q :=
  fold_left (fun m b => dict_set m (b_category b) (b_amount b)) bs [].

(** Lines 199-209 *)
Definition health_of (income balance : Q) (exp_by_cat budget_map : dict Q)
    (goals_savings : Q) : Q :=
  if Qltb 0 income then
    let spend_eff := py_max 0 (py_min ((balance / income) * 100) 100)%Q in
    let total_budget := py_sum (dict_values budget_map) in
    let spent_vs_budget :=
      fold_left
        (fun acc (item : string * Q) =>
           let (cat, b_amt) := item in
           (acc + py_min (dict_get exp_by_cat cat 0) b_amt)%Q)
        budget_map 0%Q in
    let budget_eff :=
      if Qltb 0 total_budget
      then (spent_vs_budget / total_budget * 100)%Q else 100%Q in
    let saving_ratio := py_min ((goals_savings / income) * 100)%Q 100%Q in
    (spend_eff * (1 # 2) + budget_eff * (3 # 10) + saving_ratio * (1 # 5))%Q
  else 0%Q.

(** The rows a user owns: [Model.query.filter_by(user_id=uid).all()]. *)
Definition user_transactions (st : store) (uid : Z) : list Transaction :=
  filter (fun t => t_user_id t =? uid) (transactions st).

Definition user_goals (st : store) (uid : Z) : list Goal :=
  filter (fun g => g_user_id g =? uid) (goals st).

Definition user_budgets (st : store) (uid : Z) : list Budget :=
  filter (fun b => b_user_id b =? uid) (budgets st).

Definition dashboard_view (st : store) (sess : session) (args : form)
    (today : date) : res reply :=
  let user := current_user st sess in
  p <- selected_period args today ;;
  let (sel_month, sel_year) := p in
  let prefix := month_prefix sel_year sel_month in
  uid <- user_id user ;;
  let user_tr := user_transactions st uid in
  let month_tr := month_transactions user_tr prefix in
  let income := income_of month_tr in
  let expenses := expenses_of month_tr in
  let balance := (income - expenses)%Q in
  let exp_by_cat := exp_by_cat_of month_tr in
  let daily := daily_of month_tr in
  let daily_labels := daily_labels_of daily in
  daily_values <- daily_values_of daily daily_labels ;;
  let goals_savings := py_sum (map g_current (user_goals st uid)) in
  let budget_map := budget_map_of (user_budgets st uid) in
  let health := health_of income balance exp_by_cat budget_map goals_savings in
  months_list <- map_res (fun i => n <- months_ua_item i ;; Ok (i, n))
                         (py_range 1 13) ;;
  let years_list := py_range 2023 (d_year today + 2) in
  month_name <- months_ua_item sel_month ;;
  currency <- match user with
              | Some u => Ok (u_currency u)
              | None => Raise AttributeError
              end ;;
  Ok (mkReply st []
        (RenderDashboard
           (mkCtx (month_name ++ " " ++ str_of_int sel_year) currency
                  income expenses goals_savings balance health
                  (dict_keys exp_by_cat) (dict_values exp_by_cat)
                  daily_labels daily_values months_list years_list
                  sel_month sel_year))).

Definition dashboard (st : store) (sess : session) (args : form)
    (today : date) : res reply :=
  login_required sess st (dashboard_view st sess args today).

(** ** Flashed messages *)

Definition msg_tr_not_number : flash := ("Сума транзакції має бути числом!", "danger").
Definition msg_tr_added : flash := ("Транзакцію додано!", "success").
Definition msg_tr_deleted : flash := ("Транзакцію видалено.", "info").
Definition msg_budget_not_number : flash := ("Сума бюджету має бути числом!", "danger").
Definition msg_budget_saved : flash := ("Бюджет збережено!", "success").
Definition msg_cat_not_found : flash := ("Категорію не знайдено.", "danger").
Definition msg_cat_updated : flash := ("Категорію оновлено!", "success").
Definition msg_cat_deleted : flash := ("Категорію видалено.", "info").
Definition msg_cat_not_deleted : flash := ("Не вдалося видалити категорію.", "danger").
Definition msg_goal_not_number : flash := ("Суми в цілі мають бути числами!", "danger").
Definition msg_goal_added : flash := ("Ціль додано!", "success").
Definition msg_goal_not_found : flash := ("Ціль не знайдено.", "danger").
Definition msg_goal_updated : flash := ("Ціль оновлено!", "success").
Definition msg_goal_deleted : flash := ("Ціль видалено.", "info").
Definition msg_goal_not_deleted : flash := ("Не вдалося видалити ціль.", "danger").
Definition msg_user_exists : flash := ("Такий користувач уже існує!", "warning").
Definition msg_registered : flash := ("Реєстрація успішна! Тепер увійдіть.", "success").

(** A reply that leaves the store alone. *)
Definition reply_with (st : store) (msgs : list flash) (e : endpoint) : res reply :=
  Ok (mkReply st msgs (Redirect e)).

(** ** Registration, lines 114-135

    [hashed] is what [generate_password_hash] returned for the password. *)
Definition register (st : store) (f : form) (hashed : string)
    (today : date) : res reply :=
  let name := match form_get f "name" with Some s => s | None => "" end in
  username <- form_item f "username" ;;
  _ <- form_item f "password" ;;
  let currency :=
    match form_get f "currency" with Some s => s | None => "UAH" end in
  match find (fun u => String.eqb (u_username u) username) (users st) with
  | Some _ => reply_with st [msg_user_exists] ep_login
  | None =>
      let user := mkUser (next_id (map u_id (users st))) name username hashed
                         currency (str_of_date today) in
      Ok (mkReply (mkStore (users st ++ [user])%list (transactions st)
                           (budgets st) (goals st))
                  [msg_registered] (Redirect ep_login))
  end.

(** ** Transactions *)

(** Lines 259-285 *)
Definition add_transaction_view (st : store) (sess : session) (f : form)
    (today : date) : res reply :=
  let user := current_user st sess in
  try_except
    (raw <- form_item f "amount" ;; parse_number (PStr raw))
    ValueError
    (reply_with st [msg_tr_not_number] ep_transactions_view)
    (fun amount =>
       let category :=
         str_or (form_get f "category_select")
                (str_or (form_get f "category") "Інше") in
       uid <- user_id user ;;
       type <- form_item f "type" ;;
       let tr :=
         mkTransaction (next_id (map t_id (transactions st))) uid type
           (Some category) amount
           (Some (match form_get f "payment" with
                  | Some s => s
                  | None => "Cash"
                  end))
           (str_or (form_get f "date") (str_of_date today))
           (Some (str_or (form_get f "description") "")) in
       Ok (mkReply (mkStore (users st) (transactions st ++ [tr])%list
                            (budgets st) (goals st))
                   [msg_tr_added] (Redirect ep_transactions_view))).

Definition add_transaction (st : store) (sess : session) (f : form)
    (today : date) : res reply :=
  login_required sess st (add_transaction_view st sess f today).

(** Lines 288-298 *)
Definition delete_transaction_view (st : store) (sess : session)
    (tid : Z) : res reply :=
  let user := current_user st sess in
  match get_transaction st tid with
  | None => reply_with st [] ep_transactions_view
  | Some tr =>
      uid <- user_id user ;;
      if t_user_id tr =? uid then
        Ok (mkReply (mkStore (users st)
                       (filter (fun t => negb (t_id t =? t_id tr))
                               (transactions st))
                       (budgets st) (goals st))
                    [msg_tr_deleted] (Redirect ep_transactions_view))
      else reply_with st [] ep_transactions_view
  end.

Definition delete_transaction (st : store) (sess : session)
    (tid : Z) : res reply :=
  login_required sess st (delete_transaction_view st sess tid).

(** ** Budgets *)

(** Committing assignments to the attributes of a loaded row: the
    assigned columns of the row with that primary key are updated. *)
Definition update_budget_row (bid : Z) (assign : Budget -> Budget)
    (bs : list Budget) : list Budget :=
  map (fun b => if b_id b =? bid then assign b else b) bs.

(** Lines 328-348 *)
Definition save_budget_view (st : store) (sess : session)
    (f : form) : res reply :=
  let user := current_user st sess in
  raw_category <- form_item f "category" ;;
  let category := strip raw_category in
  try_except
    (raw <- form_item f "amount" ;; parse_number (PStr raw))
    ValueError
    (reply_with st [msg_budget_not_number] ep_budget)
    (fun amount =>
       uid <- user_id user ;;
       let bs :=
         match first_budget st uid category with
         | Some existing =>
             update_budget_row (b_id existing)
               (fun b => mkBudget (b_id b) (b_user_id b) (b_category b) amount)
               (budgets st)
         | None =>
             (budgets st
                ++ [mkBudget (next_id (map b_id (budgets st))) uid
                             category amount])%list
         end in
       Ok (mkReply (mkStore (users st) (transactions st) bs (goals st))
                   [msg_budget_saved] (Redirect ep_budget))).

Definition save_budget_route (st : store) (sess : session)
    (f : form) : res reply :=
  login_required sess st (save_budget_view st sess f).

(** Lines 351-372 *)
Definition update_budget_view (st : store) (sess : session)
    (f : form) : res reply :=
  let user := current_user st sess in
  old_category <- form_item f "old_category" ;;
  raw_category <- form_item f "category" ;;
  let new_category := strip raw_category in
  try_except
    (raw <- form_item f "amount" ;; parse_number (PStr raw))
    ValueError
    (reply_with st [msg_budget_not_number] ep_budget)
    (fun amount =>
       uid <- user_id user ;;
       match first_budget st uid old_category with
       | None => reply_with st [msg_cat_not_found] ep_budget
       | Some b =>
           Ok (mkReply
                 (mkStore (users st) (transactions st)
                    (update_budget_row (b_id b)
                       (fun b' => mkBudget (b_id b') (b_user_id b')
                                           new_category amount)
                       (budgets st))
                    (goals st))
                 [msg_cat_updated] (Redirect ep_budget))
       end).

Definition update_budget (st : store) (sess : session)
    (f : form) : res reply :=
  login_required sess st (update_budget_view st sess f).

(** Lines 375-386 *)
Definition delete_budget_view (st : store) (sess : session)
    (cat : string) : res reply :=
  let user := current_user st sess in
  uid <- user_id user ;;
  match first_budget st uid cat with
  | Some b =>
      Ok (mkReply (mkStore (users st) (transactions st)
                     (filter (fun b' => negb (b_id b' =? b_id b)) (budgets st))
                     (goals st))
                  [msg_cat_deleted] (Redirect ep_budget))
  | None => reply_with st [msg_cat_not_deleted] ep_budget
  end.

Definition delete_budget (st : store) (sess : session)
    (cat : string) : res reply :=
  login_required sess st (delete_budget_view st sess cat).

(** ** Savings goals *)

Definition update_goal_row (gid : Z) (assign : Goal -> Goal)
    (gs : list Goal) : list Goal :=
  map (fun g => if g_id g =? gid then assign g else g) gs.

(** Lines 407-430 *)
Definition add_savings_view (st : store) (sess : session)
    (f : form) : res reply :=
  let user := current_user st sess in
  name <- form_item f "name" ;;
  let deadline := opt_str_or_none (form_get f "deadline") in
  try_except
    (raw_target <- form_item f "target" ;;
     target <- parse_number (PStr raw_target) ;;
     current <- parse_number
                  (PStr (match form_get f "current" with
                         | Some s => s
                         | None => "0"
                         end)) ;;
     Ok (target, current))
    ValueError
    (reply_with st [msg_goal_not_number] ep_savings)
    (fun tc =>
       let (target, current) := tc : Q * Q in
       uid <- user_id user ;;
       let g := mkGoal (next_id (map g_id (goals st))) uid name
                       target current deadline in
       Ok (mkReply (mkStore (users st) (transactions st) (budgets st)
                            (goals st ++ [g])%list)
                   [msg_goal_added] (Redirect ep_savings))).

Definition add_savings (st : store) (sess : session) (f : form) : res reply :=
  login_required sess st (add_savings_view st sess f).

(** Lines 433-458 *)
Definition update_goal_view (st : store) (sess : session) (gid : Z)
    (f : form) : res reply :=
  let user := current_user st sess in
  match get_goal st gid with
  | None => reply_with st [msg_goal_not_found] ep_savings
  | Some g =>
      uid <- user_id user ;;
      if negb (g_user_id g =? uid) then
        reply_with st [msg_goal_not_found] ep_savings
      else
        let name :=
          match form_get f "name" with Some s => s | None => g_name g end in
        let deadline := opt_str_or_none (form_get f "deadline") in
        try_except
          (target <- parse_number (form_get_or f "target" (g_target g)) ;;
           current <- parse_number (form_get_or f "current" (g_current g)) ;;
           Ok (target, current))
          ValueError
          (reply_with st [msg_goal_not_number] ep_savings)
          (fun tc =>
             let (target, current) := tc : Q * Q in
             Ok (mkReply
                   (mkStore (users st) (transactions st) (budgets st)
                      (update_goal_row (g_id g)
                         (fun g' => mkGoal (g_id g') (g_user_id g') name
                                           target current deadline)
                         (goals st)))
                   [msg_goal_updated] (Redirect ep_savings)))
  end.

Definition update_goal (st : store) (sess : session) (gid : Z)
    (f : form) : res reply :=
  login_required sess st (update_goal_view st sess gid f).

(** Lines 461-472 *)
Definition delete_goal_view (st : store) (sess : session)
    (gid : Z) : res reply :=
  let user := current_user st sess in
  match get_goal st gid with
  | None => reply_with st [msg_goal_not_deleted] ep_savings
  | Some g =>
      uid <- user_id user ;;
      if g_user_id g =? uid then
        Ok (mkReply (mkStore (users st) (transactions st) (budgets st)
                       (filter (fun g' => negb (g_id g' =? g_id g))
                               (goals st)))
                    [msg_goal_deleted] (Redirect ep_savings))
      else reply_with st [msg_goal_not_deleted] ep_savings
  end.

Definition delete_goal (st : store) (sess : session) (gid : Z) : res reply :=
  login_required sess st (delete_goal_view st sess gid).

(** ** Reachable stores *)

Inductive request : Type :=
| Register (f : form) (hashed : string)
| AddTransaction (sess : session) (f : form)
| DeleteTransaction (sess : session) (tid : Z)
| SaveBudget (sess : session) (f : form)
| UpdateBudget (sess : session) (f : form)
| DeleteBudget (sess : session) (cat : string)
| AddSavings (sess : session) (f : form)
| UpdateGoal (sess : session) (gid : Z) (f : form)
| DeleteGoal (sess : session) (gid : Z).

Definition handle (today : date) (st : store) (r : request) : res reply :=
  match r with
  | Register f hashed => register st f hashed today
  | AddTransaction sess f => add_transaction st sess f today
  | DeleteTransaction sess tid => delete_transaction st sess tid
  | SaveBudget sess f => save_budget_route st sess f
  | UpdateBudget sess f => update_budget st sess f
  | DeleteBudget sess cat => delete_budget st sess cat
  | AddSavings sess f => add_savings st sess f
  | UpdateGoal sess gid f => update_goal st sess gid f
  | DeleteGoal sess gid => delete_goal st sess gid
  end.

(** The store after a request: an uncaught exception commits nothing. *)
Definition step (today : date) (st : store) (r : request) : store :=
  match handle today st r with
  | Ok rp => r_store rp
  | Raise _ => st
  end.

Fixpoint run (today : date) (st : store) (rs : list request) : store :=
  match rs with
  | [] => st
  | r :: rs' => run today (step today st r) rs'
  end.

Inductive reachable : store -> Prop :=
| reach_empty : reachable empty_store
| reach_step : forall today st r,
    reachable st -> reachable (step today st r).

(** ** The specification's formulas

    These follow the wording of the specification (section 4.1), not the
    code; the theorems below compare them with the definitions above. *)

Definition Qsum (xs : list Q) : Q := fold_right Qplus 0%Q xs.

Definition clamp (x lo hi : Q) : Q := Qmax lo (Qmin x hi).

Definition spec_spend_efficiency (balance income : Q) : Q :=
  clamp (balance / income * 100)%Q 0%Q 100%Q.

(** Sum over the budget categories of
    [min(expenses_by_category[cat] or 0, budget_limit[cat])]. *)
Definition spec_spent_vs_budget (expenses_by_category budget_limit : dict Q) : Q :=
  Qsum (map (fun cat => Qmin (dict_get expenses_by_category cat 0%Q)
                             (dict_get budget_limit cat 0%Q))
            (dict_keys budget_limit)).

Definition spec_budget_efficiency (expenses_by_category budget_limit : dict Q) : Q :=
  let total := Qsum (dict_values budget_limit) in
  if Qlt_le_dec 0 total
  then (spec_spent_vs_budget expenses_by_category budget_limit / total * 100)%Q
  else 100%Q.

Definition spec_saving_ratio (total_savings income : Q) : Q :=
  Qmin (total_savings / income * 100)%Q 100%Q.

Definition spec_health (balance income total_savings : Q)
    (expenses_by_category budget_limit : dict Q) : Q :=
  ((5 # 10) * spec_spend_efficiency balance income
   + (3 # 10) * spec_budget_efficiency expenses_by_category budget_limit
   + (2 # 10) * spec_saving_ratio total_savings income)%Q.

(** The signed amount of a transaction: income added, expense
    subtracted. *)
Definition spec_signed (t : Transaction) : Q :=
  if String.eqb (t_type t) "income" then t_amount t
  else if String.eqb (t_type t) "expense" then (- t_amount t)%Q
  else 0%Q.

Definition spec_daily_net (period_tr : list Transaction) (d : string) : Q :=
  Qsum (map spec_signed
            (filter (fun t => String.eqb (t_date t) d) period_tr)).

(** The data model's kinds of transaction. *)
Definition valid_kind (t : Transaction) : Prop :=
  t_type t = "income" \/ t_type t = "expense".

(** [{year:04d}-{month:02d}] *)
Definition spec_period_prefix (year month : Z) : string :=
  format_0d 4 year ++ "-" ++ format_0d 2 month.

Definition spec_in_period (year month : Z) (t : Transaction) : bool :=
  String.eqb (substring 0 7 (t_date t)) (spec_period_prefix year month).

(** At most one budget row for a user and a category. *)
Definition budget_rows (st : store) (uid : Z) (cat : string) : list Budget :=
  filter (fun b => (b_user_id b =? uid) && String.eqb (b_category b) cat)
         (budgets st).

Definition budgets_one_to_one (st : store) : Prop :=
  forall uid cat, (List.length (budget_rows st uid cat) <= 1)%nat.

(** The summand of [spent_vs_budget] for one item of the budget map. *)
Definition spent_term (exp_by_cat : dict Q) (item : string * Q) : Q :=
  py_min (dict_get exp_by_cat (fst item) 0%Q) (snd item).

(** The selected period's transactions of a user, as [dashboard] filters
    them (lines 165-169). *)
Definition period_transactions (st : store) (uid : Z)
    (sel_year sel_month : Z) : list Transaction :=
  month_transactions (user_transactions st uid)
                     (month_prefix sel_year sel_month).

(** The context of a rendered dashboard, if that is what the reply is. *)
Definition rendered (r : res reply) : option dashboard_ctx :=
  match r with
  | Ok rp =>
      match r_page rp with
      | RenderDashboard ctx => Some ctx
      | Redirect _ => None
      end
  | Raise _ => None
  end.

(** Primary keys: no two rows of a table share their id. *)
Definition keys_unique (st : store) : Prop :=
  NoDup (map u_id (users st))
  /\ NoDup (map t_id (transactions st))
  /\ NoDup (map b_id (budgets st))
  /\ NoDup (map g_id (goals st)).

(** Text within ASCII. *)
Definition ascii_text (s : string) : bool :=
  forallb (fun c => (nat_of_ascii c <? 128)%nat) (list_ascii_of_string s).

Definition lower (c : ascii) : ascii :=
  let n := nat_of_ascii c in
  if ((65 <=? n) && (n <=? 90))%nat then ascii_of_nat (n + 32) else c.

Fixpoint lowercase (s : string) : string :=
  match s with
  | String c s' => String (lower c) (lowercase s')
  | EmptyString => EmptyString
  end.

(** The literals of the floats that are no rationals: [inf], [infinity]
    and [nan], signed or not, in any case, with white space around. *)
Definition non_finite_literal (s : string) : bool :=
  let (_, body) := read_sign (strip s) in
  let l := lowercase body in
  String.eqb l "inf" || String.eqb l "infinity" || String.eqb l "nan".

(** A form field whose text [float] rejects.  [float_of_str] reads the
    finite literals within ASCII, so the field is taken within ASCII and
    other than a non-finite literal: those [float] accepts, and the
    handlers store what it returns. *)
Definition not_a_number (raw : string) : Prop :=
  parse_number (PStr raw) = Raise ValueError
  /\ ascii_text raw = true
  /\ non_finite_literal (replace_comma raw) = false.

(** Ascending order of strings. *)
Definition str_le (a b : string) : Prop := String.leb a b = true.
Definition str_lt (a b : string) : Prop := String.ltb a b = true.

(** ** The health score in binary64

    Lines 199-209 once more, over IEEE 754 double precision numbers, to
    replay the scenario with the rounding that Python performs.  The
    weights are the doubles nearest to 0.5, 0.3 and 0.2. *)
Module Binary64.

Import PrimFloat.
Local Open Scope float_scope.

Definition py_min (a b : float) : float := if ltb b a then b else a.
Definition py_max (a b : float) : float := if ltb a b then b else a.
Definition py_sum (xs : list float) : float := fold_left add xs 0.

Definition health_of (income balance : float)
    (exp_by_cat budget_map : dict float) (goals_savings : float) : float :=
  if ltb 0 income then
    let spend_eff := py_max 0 (py_min ((balance / income) * 100) 100) in
    let total_budget := py_sum (dict_values budget_map) in
    let spent_vs_budget :=
      fold_left
        (fun acc (item : string * float) =>
           let (cat, b_amt) := item in
           acc + py_min (dict_get exp_by_cat cat 0) b_amt)
        budget_map 0 in
    let budget_eff :=
      if ltb 0 total_budget
      then spent_vs_budget / total_budget * 100 else 100 in
    let saving_ratio := py_min ((goals_savings / income) * 100) 100 in
    (spend_eff * 0x1p-1) + (budget_eff * 0x1.3333333333333p-2)
    + (saving_ratio * 0x1.999999999999ap-3)
  else 0.

(** The scenario of section 8. *)
Definition scenario_income : float := py_sum [1000].
Definition scenario_expenses : float := py_sum [200; 100].
Definition scenario_health : float :=
  health_of scenario_income (scenario_income - scenario_expenses)
    [("food"%string, 0 + 200 + 100)] [("food"%string, 250)] (py_sum [100]).

Definition sixty_seven : float := 67.
Definition zero : float := 0.
Definition hundred : float := 100.

(** An income, a balance and savings beyond the range of binary64:
    [float("1e400")] is [inf]; no budgets. *)
Definition overflow_health : float :=
  health_of infinity infinity [] [] infinity.

End Binary64.

(** ** Example data *)

Definition may17 : date := mkDate 2024 5 17.
Definition alice : session := Some "alice".
Definition bob : session := Some "bob".

(** The scenario of section 8: income 1000, two expenses on food of 200
    and 100, a food budget of 250, goals holding 100. *)
Definition scenario_requests : list request :=
  [ Register [("username", "alice"); ("password", "pw")] "pbkdf2$1";
    AddTransaction alice [("amount", "1000"); ("type", "income");
                          ("category", "salary"); ("date", "2024-05-01")];
    AddTransaction alice [("amount", "200"); ("type", "expense");
                          ("category", "food"); ("date", "2024-05-02")];
    AddTransaction alice [("amount", "100"); ("type", "expense");
                          ("category", "food"); ("date", "2024-05-03")];
    SaveBudget alice [("category", "food"); ("amount", "250")];
    AddSavings alice [("name", "car"); ("target", "5000");
                      ("current", "100")] ].

Definition scenario_store : store := run may17 empty_store scenario_requests.

(** Two users; bob owns transaction 1 and goal 1. *)
Definition two_users_requests : list request :=
  [ Register [("username", "alice"); ("password", "pw")] "pbkdf2$1";
    Register [("username", "bob"); ("password", "pw")] "pbkdf2$2";
    AddTransaction bob [("amount", "12,50"); ("type", "expense");
                        ("category", "food"); ("date", "2024-05-02")];
    AddSavings bob [("name", "bike"); ("target", "900"); ("current", "40")];
    SaveBudget alice [("category", "food"); ("amount", "250")] ].

Definition two_users_store : store := run may17 empty_store two_users_requests.

(** The daily scenario of section 8: an expense of 20 on 3 May entered
    before an income of 50 on 1 May. *)
Definition daily_requests : list request :=
  [ Register [("username", "alice"); ("password", "pw")] "pbkdf2$1";
    AddTransaction alice [("amount", "20"); ("type", "expense");
                          ("category", "food"); ("date", "2024-05-03")];
    AddTransaction alice [("amount", "50"); ("type", "income");
                          ("category", "salary"); ("date", "2024-05-01")] ].

Definition daily_store : store := run may17 empty_store daily_requests.

(** A transaction whose type is neither income nor expense:
    [add_transaction] stores the type of the form as it comes. *)
Definition transfer_requests : list request :=
  [ Register [("username", "alice"); ("password", "pw")] "pbkdf2$1";
    AddTransaction alice [("amount", "30"); ("type", "transfer");
                          ("category", "savings"); ("date", "2024-05-01")] ].

Definition transfer_store : store := run may17 empty_store transfer_requests.

Definition transfer_row : Transaction :=
  mkTransaction 1 1 "transfer" (Some "savings") 30 (Some "Cash") "2024-05-01"
                (Some "").

(** A goal that holds more than its target. *)
Definition over_goal_requests : list request :=
  [ Register [("username", "alice"); ("password", "pw")] "pbkdf2$1";
    AddSavings alice [("name", "bike"); ("target", "100");
                      ("current", "250")] ].

Definition over_goal_store : store :=
  run may17 empty_store over_goal_requests.

(** A transaction dated in the year 999. *)
Definition year_999_row : Transaction :=
  mkTransaction 1 1 "income" (Some "salary") 50 (Some "Cash") "999-05-01"
                (Some "").

(** A transaction dated 2 May 2024. *)
Definition may_row : Transaction :=
  mkTransaction 2 1 "expense" (Some "food") 200 (Some "Cash") "2024-05-02"
                (Some "").

(** A form whose numeric fields do not parse. *)
Definition bad_form : form :=
  [ ("amount", "12.5.0"); ("category", "food"); ("old_category", "food");
    ("name", "car"); ("target", "5000"); ("current", "a lot") ].

(** Two budget categories of one user. *)
Definition two_budgets_requests : list request :=
  [ Register [("username", "alice"); ("password", "pw")] "pbkdf2$1";
    SaveBudget alice [("category", "food"); ("amount", "250")];
    SaveBudget alice [("category", "rent"); ("amount", "800")] ].

Definition two_budgets_store : store :=
  run may17 empty_store two_budgets_requests.

(** Saving the food budget again, and renaming it to the category of the
    other row. *)
Definition food_again_form : form :=
  [ ("category", " food "); ("amount", "300,50") ].

Definition rename_form : form :=
  [ ("old_category", "food"); ("category", "rent"); ("amount", "100") ].

(** Income of 1000 and a goal whose saved amount is negative. *)
Definition debt_requests : list request :=
  [ Register [("username", "alice"); ("password", "pw")] "pbkdf2$1";
    AddTransaction alice [("amount", "1000"); ("type", "income");
                          ("category", "salary"); ("date", "2024-05-01")];
    AddSavings alice [("name", "loan"); ("target", "0");
                      ("current", "-100000")] ].

Definition debt_store : store := run may17 empty_store debt_requests.

(** ** The remaining views

    The pages that only read the store reply with a redirect or with the
    values they hand to their template. *)

Inductive view (C : Type) : Type :=
| ViewRedirect (e : endpoint)
| ViewRender (ctx : C).

Arguments ViewRedirect {C} e.
Arguments ViewRender {C} ctx.

(** [@login_required] around a view that only reads. *)
Definition login_required_view {C : Type} (sess : session)
    (v : res (view C)) : res (view C) :=
  match sess with
  | Some _ => v
  | None => Ok (ViewRedirect ep_login)
  end.

(** Dictionaries with keys of any type that has an equality test, insertion
    ordered like [dict]. *)
Section KeyedDict.

Variables (K V : Type) (key_eqb : K -> K -> bool).

Fixpoint kdict_find (d : list (K * V)) (k : K) : option V :=
  match d with
  | [] => None
  | (k', v) :: d' => if key_eqb k' k then Some v else kdict_find d' k
  end.

Definition kdict_get (d : list (K * V)) (k : K) (default : V) : V :=
  match kdict_find d k with
  | Some v => v
  | None => default
  end.

Fixpoint kdict_set (d : list (K * V)) (k : K) (v : V) : list (K * V) :=
  match d with
  | [] => [(k, v)]
  | (k', v') :: d' =>
      if key_eqb k' k then (k', v) :: d' else (k', v') :: kdict_set d' k v
  end.

End KeyedDict.

Arguments kdict_find {K V} key_eqb d k.
Arguments kdict_get {K V} key_eqb d k default.
Arguments kdict_set {K V} key_eqb d k v.

(** Equality of categories as stored: [None] or a string. *)
Definition opt_str_eqb (a b : option string) : bool :=
  match a, b with
  | None, None => true
  | Some x, Some y => String.eqb x y
  | _, _ => false
  end.

(** *** Login and logout, lines 97-142

    [check hash password] is [check_password_hash]. *)

Definition msg_login_ok : flash := ("Вхід успішний!", "success").
Definition msg_login_failed : flash := ("Невірний логін або пароль!", "danger").
Definition msg_logged_out : flash := ("Ви вийшли із системи.", "info").

Inductive login_page : Type :=
| LoginRedirect (e : endpoint)
| RenderLogin.

Record login_reply : Type := mkLoginReply {
  l_session : session;
  l_flashes : list flash;
  l_page : login_page
}.

(** [post] is the form of a POST request, [None] stands for a GET. *)
Definition login (check : string -> string -> bool) (st : store)
    (sess : session) (post : option form) : res login_reply :=
  match post with
  | Some f =>
      username <- form_item f "username" ;;
      password <- form_item f "password" ;;
      match find (fun u => String.eqb (u_username u) username) (users st) with
      | Some user =>
          if check (u_password user) password then
            Ok (mkLoginReply (Some (u_username user)) [msg_login_ok]
                             (LoginRedirect ep_dashboard))
          else Ok (mkLoginReply sess [msg_login_failed] RenderLogin)
      | None => Ok (mkLoginReply sess [msg_login_failed] RenderLogin)
      end
  | None => Ok (mkLoginReply sess [] RenderLogin)
  end.

Definition logout (sess : session) : login_reply :=
  mkLoginReply None [msg_logged_out] (LoginRedirect ep_login).

(** *** The list of transactions, lines 236-256 *)

(** [order_by(Transaction.date.desc())]: the rows by descending date. *)
Fixpoint insert_by_date_desc (t : Transaction)
    (l : list Transaction) : list Transaction :=
  match l with
  | [] => [t]
  | t' :: l' =>
      if String.leb (t_date t') (t_date t) then t :: l
      else t' :: insert_by_date_desc t l'
  end.

Fixpoint order_by_date_desc (l : list Transaction) : list Transaction :=
  match l with
  | [] => []
  | t :: l' => insert_by_date_desc t (order_by_date_desc l')
  end.

(** [a] may come before [b] in that order: [b] is not of a later date. *)
Definition newer_first (a b : Transaction) : Prop :=
  str_le (t_date b) (t_date a).

Record transactions_ctx : Type := mkTransactionsCtx {
  tv_transactions : list (Z * Transaction);
  tv_currency : string;
  tv_today : string;
  tv_categories : list string
}.

Definition transactions_view (st : store) (sess : session)
    (today : date) : res (view transactions_ctx) :=
  login_required_view sess
    (let user := current_user st sess in
     uid <- user_id user ;;
     let transactions := order_by_date_desc (user_transactions st uid) in
     let categories := map b_category (user_budgets st uid) in
     currency <- match user with
                 | Some u => Ok (u_currency u)
                 | None => Raise AttributeError
                 end ;;
     Ok (ViewRender
           (mkTransactionsCtx
              (fold_left (fun d t => kdict_set Z.eqb d (t_id t) t)
                         transactions [])
              currency (str_of_date today) categories))).

(** *** The budget page, lines 304-325 *)

(** [today.strftime("%Y-%m")], for the years of four digits that
    [date.today()] returns. *)
Definition strftime_year_month (today : date) : string :=
  format_0d 4 (d_year today) ++ "-" ++ format_0d 2 (d_month today).

(** Lines 315-318 *)
Definition spending_of (expenses : list Transaction)
    (prefix : string) : list (option string * Q) :=
  fold_left
    (fun spending t =>
       if startswith (t_date t) prefix then
         kdict_set opt_str_eqb spending (t_category t)
           (kdict_get opt_str_eqb spending (t_category t) 0 + t_amount t)%Q
       else spending)
    expenses [].

Record budget_ctx : Type := mkBudgetCtx {
  bv_budgets : dict Q;
  bv_spending_by_cat : list (option string * Q);
  bv_currency : string
}.

Definition budget (st : store) (sess : session)
    (today : date) : res (view budget_ctx) :=
  login_required_view sess
    (let user := current_user st sess in
     uid <- user_id user ;;
     let budgets := user_budgets st uid in
     let prefix := strftime_year_month today in
     let expenses :=
       filter (fun t => (t_user_id t =? uid)
                        && String.eqb (t_type t) "expense")
              (transactions st) in
     let spending := spending_of expenses prefix in
     currency <- match user with
                 | Some u => Ok (u_currency u)
                 | None => Raise AttributeError
                 end ;;
     Ok (ViewRender (mkBudgetCtx (budget_map_of budgets) spending currency))).

(** *** The goals page, lines 392-404 *)

(** [x or 0.0] *)
Definition float_or_zero (x : Q) : Q := if Qeq_bool x 0 then 0%Q else x.

(** Lines 400-402 *)
Definition goal_percent (g : Goal) : Q :=
  let target := float_or_zero (g_target g) in
  let current := float_or_zero (g_current g) in
  if Qltb 0 target then (current / target * 100)%Q else 0%Q.

Record savings_ctx : Type := mkSavingsCtx {
  sv_goals : list (Z * Goal * Q);
  sv_currency : string
}.

Definition savings (st : store) (sess : session) : res (view savings_ctx) :=
  login_required_view sess
    (let user := current_user st sess in
     uid <- user_id user ;;
     let processed :=
       map (fun g => (g_id g, g, goal_percent g)) (user_goals st uid) in
     currency <- match user with
                 | Some u => Ok (u_currency u)
                 | None => Raise AttributeError
                 end ;;
     Ok (ViewRender (mkSavingsCtx processed currency))).

(** ** Invariants of the store *)

(** The session a request carries. *)
Definition request_session (r : request) : session :=
  match r with
  | Register _ _ => None
  | AddTransaction sess _ | DeleteTransaction sess _ | SaveBudget sess _
  | UpdateBudget sess _ | DeleteBudget sess _ | AddSavings sess _
  | DeleteGoal sess _ => sess
  | UpdateGoal sess _ _ => sess
  end.

(** No two users share their name. *)
Definition usernames_unique (st : store) : Prop :=
  NoDup (map u_username (users st)).

(** Every row belongs to a user of the store. *)
Definition owner_exists (st : store) (uid : Z) : Prop :=
  In uid (map u_id (users st)).

Definition rows_owned (st : store) : Prop :=
  Forall (fun t => owner_exists st (t_user_id t)) (transactions st)
  /\ Forall (fun b => owner_exists st (b_user_id b)) (budgets st)
  /\ Forall (fun g => owner_exists st (g_user_id g)) (goals st).

(** The category of a transaction is a string that is not empty. *)
Definition has_category (t : Transaction) : Prop :=
  exists c s, t_category t = Some (String c s).

(** What a result shows to the user: the page and the flashed messages, or
    the exception. *)
Definition shown (r : res reply) : res (list flash * page) :=
  rp <- r ;; Ok (r_flashes rp, r_page rp).

(** The rows of a user in the three tables. *)
Definition rows_of (st : store) (uid : Z)
    : list Transaction * list Budget * list Goal :=
  (user_transactions st uid, user_budgets st uid, user_goals st uid).

(** White space only. *)
Fixpoint all_space (s : string) : bool :=
  match s with
  | String c s' => is_space c && all_space s'
  | EmptyString => true
  end.

(** * Properties *)

(** ** Rational arithmetic *)

Section Rationals.

Local Open Scope Q_scope.

Lemma Qltb_lt (a b : Q) : Qltb a b = true <-> a < b.
Proof.
  unfold Qltb. rewrite negb_true_iff. split; intro H.
  - apply Qnot_le_lt. intro Hle. apply Qle_bool_iff in Hle. congruence.
  - destruct (Qle_bool b a) eqn:E; [|reflexivity].
    apply Qle_bool_iff in E. exfalso. apply (Qlt_not_le _ _ H E).
Qed.

Lemma Qltb_ge (a b : Q) : Qltb a b = false <-> b <= a.
Proof.
  unfold Qltb. rewrite negb_false_iff. apply Qle_bool_iff.
Qed.

Lemma py_min_Qmin (a b : Q) : py_min a b == Qmin a b.
Proof.
  unfold py_min. destruct (Qltb b a) eqn:E.
  - apply Qltb_lt in E. symmetry. apply Q.min_r. apply Qlt_le_weak, E.
  - apply Qltb_ge in E. symmetry. apply Q.min_l, E.
Qed.

Lemma py_max_Qmax (a b : Q) : py_max a b == Qmax a b.
Proof.
  unfold py_max. destruct (Qltb a b) eqn:E.
  - apply Qltb_lt in E. symmetry. apply Q.max_r. apply Qlt_le_weak, E.
  - apply Qltb_ge in E. symmetry. apply Q.max_l, E.
Qed.

Lemma py_min_le_l (a b : Q) : py_min a b <= a.
Proof. rewrite py_min_Qmin. apply Q.le_min_l. Qed.

Lemma py_min_le_r (a b : Q) : py_min a b <= b.
Proof. rewrite py_min_Qmin. apply Q.le_min_r. Qed.

Lemma py_min_glb (a b c : Q) : c <= a -> c <= b -> c <= py_min a b.
Proof. intros. rewrite py_min_Qmin. now apply Q.min_glb. Qed.

Lemma py_max_ge_l (a b : Q) : a <= py_max a b.
Proof. rewrite py_max_Qmax. apply Q.le_max_l. Qed.

Lemma py_max_lub (a b c : Q) : a <= c -> b <= c -> py_max a b <= c.
Proof. intros. rewrite py_max_Qmax. now apply Q.max_lub. Qed.

Lemma fold_left_Qplus (xs : list Q) (a : Q) :
  fold_left Qplus xs a == a + Qsum xs.
Proof.
  revert a. induction xs as [|x xs IH]; intro a; simpl.
  - ring.
  - rewrite IH. ring.
Qed.

Lemma py_sum_Qsum (xs : list Q) : py_sum xs == Qsum xs.
Proof. unfold py_sum. rewrite fold_left_Qplus. ring. Qed.

Lemma Qsum_app (xs ys : list Q) : Qsum (xs ++ ys) == Qsum xs + Qsum ys.
Proof.
  induction xs as [|x xs IH]; simpl.
  - ring.
  - rewrite IH. ring.
Qed.

Lemma Qsum_nonneg (xs : list Q) : Forall (fun x => 0 <= x) xs -> 0 <= Qsum xs.
Proof.
  induction 1 as [|x xs Hx _ IH]; simpl.
  - apply Qle_refl.
  - cbv beta in Hx. lra.
Qed.

Lemma Qsum_le (A : Type) (f g : A -> Q) (l : list A) :
  (forall x, In x l -> f x <= g x) ->
  Qsum (map f l) <= Qsum (map g l).
Proof.
  induction l as [|x l IH]; simpl; intro H.
  - apply Qle_refl.
  - assert (f x <= g x) by (apply H; now left).
    assert (Qsum (map f l) <= Qsum (map g l)) by (apply IH; intros; apply H; now right).
    lra.
Qed.

End Rationals.

(** ** Dictionaries *)

Section Dictionaries.

Context {V : Type}.
Implicit Types (d : dict V) (k : string) (v : V).

Lemma dict_find_set d k v k' :
  dict_find (dict_set d k v) k' =
  if String.eqb k k' then Some v else dict_find d k'.
Proof.
  induction d as [|[k0 v0] d IH]; simpl.
  - destruct (String.eqb k k'); reflexivity.
  - destruct (String.eqb k0 k) eqn:E0; simpl.
    + apply String.eqb_eq in E0. subst k0.
      destruct (String.eqb k k'); reflexivity.
    + destruct (String.eqb k0 k') eqn:E1.
      * apply String.eqb_eq in E1. subst k'. now rewrite String.eqb_sym, E0.
      * apply IH.
Qed.

Lemma dict_get_set d k v k' default :
  dict_get (dict_set d k v) k' default =
  if String.eqb k k' then v else dict_get d k' default.
Proof.
  unfold dict_get. rewrite dict_find_set. now destruct (String.eqb k k').
Qed.

Lemma dict_find_in_keys d k :
  In k (dict_keys d) <-> exists v, dict_find d k = Some v.
Proof.
  induction d as [|[k0 v0] d IH]; simpl.
  - split; [tauto | intros [v H]; discriminate].
  - destruct (String.eqb k0 k) eqn:E.
    + apply String.eqb_eq in E. split; eauto.
    + apply String.eqb_neq in E. rewrite <- IH. tauto.
Qed.

Lemma dict_keys_set_in d k v k' :
  In k' (dict_keys (dict_set d k v)) <-> k' = k \/ In k' (dict_keys d).
Proof.
  rewrite !dict_find_in_keys, dict_find_set.
  destruct (String.eqb k k') eqn:E.
  - apply String.eqb_eq in E. subst. split; eauto.
  - apply String.eqb_neq in E. split; [tauto | intros [->|H]; tauto].
Qed.

Lemma dict_keys_set_nodup d k v :
  NoDup (dict_keys d) -> NoDup (dict_keys (dict_set d k v)).
Proof.
  induction d as [|[k0 v0] d IH]; simpl; intro H.
  - constructor; [intros [] | constructor].
  - inversion H as [|? ? Hnotin Hnd]; subst.
    destruct (String.eqb k0 k) eqn:E; simpl.
    + now constructor.
    + constructor; [|now apply IH].
      fold (dict_keys (dict_set d k v)). rewrite dict_keys_set_in.
      apply String.eqb_neq in E. intros [->|H']; tauto.
Qed.

Lemma dict_find_item d k v :
  NoDup (dict_keys d) -> In (k, v) d -> dict_find d k = Some v.
Proof.
  induction d as [|[k0 v0] d IH]; simpl; intros Hnd Hin; [tauto|].
  inversion Hnd as [|? ? Hnotin Hnd']; subst.
  destruct Hin as [E|Hin].
  - inversion E; subst. now rewrite String.eqb_refl.
  - destruct (String.eqb k0 k) eqn:E.
    + apply String.eqb_eq in E. subst k0. exfalso. apply Hnotin.
      change (In (fst (k, v)) (map fst d)). now apply in_map.
    + now apply IH.
Qed.

Lemma dict_item_in_keys d k :
  In k (dict_keys d) -> exists v, dict_item d k = Ok v /\ dict_get d k v = v.
Proof.
  intro H. apply dict_find_in_keys in H. destruct H as [v Hv].
  exists v. unfold dict_item, dict_get. now rewrite Hv.
Qed.

End Dictionaries.

(** A dictionary built by assignments from the empty one has each key
    once. *)
Lemma budget_map_of_nodup (bs : list Budget) :
  NoDup (dict_keys (budget_map_of bs)).
Proof.
  unfold budget_map_of.
  assert (G : forall acc : dict Q, NoDup (dict_keys acc) ->
            NoDup (dict_keys (fold_left
              (fun m b => dict_set m (b_category b) (b_amount b)) bs acc))).
  { induction bs as [|b bs IH]; simpl; intros acc Hacc; [exact Hacc|].
    apply IH. now apply dict_keys_set_nodup. }
  apply G. constructor.
Qed.

(** ** The health score *)

Section Health.

Local Open Scope Q_scope.

Variables (exp_by_cat budget_map : dict Q).

Lemma spent_loop (items : dict Q) (acc : Q) :
  fold_left
    (fun acc (item : string * Q) =>
       let (cat, b_amt) := item in
       acc + py_min (dict_get exp_by_cat cat 0) b_amt)
    items acc
  == acc + Qsum (map (spent_term exp_by_cat) items).
Proof.
  revert acc. induction items as [|[cat b] items IH]; intro acc; simpl.
  - ring.
  - rewrite IH. unfold spent_term at 2. simpl. ring.
Qed.

Lemma Qsum_map_ext (A : Type) (f g : A -> Q) (l : list A) :
  (forall x, In x l -> f x == g x) -> Qsum (map f l) == Qsum (map g l).
Proof.
  induction l as [|x l IH]; simpl; intro H; [reflexivity|].
  rewrite (H x) by now left. rewrite IH; [reflexivity|].
  intros; apply H; now right.
Qed.

Lemma spent_terms_spec :
  NoDup (dict_keys budget_map) ->
  Qsum (map (spent_term exp_by_cat) budget_map)
  == spec_spent_vs_budget exp_by_cat budget_map.
Proof.
  intro Hnd. unfold spec_spent_vs_budget, dict_keys. rewrite map_map.
  apply Qsum_map_ext. intros [cat b] Hin. unfold spent_term. simpl.
  rewrite py_min_Qmin. unfold dict_get at 3.
  now rewrite (dict_find_item budget_map cat b Hnd Hin).
Qed.

Lemma spent_le_total (items : dict Q) :
  Qsum (map (spent_term exp_by_cat) items) <= Qsum (dict_values items).
Proof.
  unfold dict_values. apply Qsum_le. intros x _. apply py_min_le_r.
Qed.

End Health.

Section HealthBounds.

Local Open Scope Q_scope.

Variables (income balance goals_savings : Q) (exp_by_cat budget_map : dict Q).

Lemma spent_vs_budget_spec :
  NoDup (dict_keys budget_map) ->
  fold_left
    (fun acc (item : string * Q) =>
       let (cat, b_amt) := item in
       acc + py_min (dict_get exp_by_cat cat 0) b_amt)
    budget_map 0
  == spec_spent_vs_budget exp_by_cat budget_map.
Proof.
  intro Hnd. rewrite spent_loop, spent_terms_spec by assumption. ring.
Qed.

(** The code's score is the specification's formula. *)
Lemma health_of_spec :
  NoDup (dict_keys budget_map) -> 0 < income ->
  health_of income balance exp_by_cat budget_map goals_savings
  == spec_health balance income goals_savings exp_by_cat budget_map.
Proof.
  intros Hnd Hinc. unfold health_of.
  rewrite (proj2 (Qltb_lt 0 income) Hinc). cbv zeta.
  unfold spec_health, spec_spend_efficiency, spec_saving_ratio, clamp.
  assert (Hb :
    (if Qltb 0 (py_sum (dict_values budget_map))
     then fold_left
            (fun acc (item : string * Q) =>
               let (cat, b_amt) := item in
               acc + py_min (dict_get exp_by_cat cat 0) b_amt)
            budget_map 0 / py_sum (dict_values budget_map) * 100
     else 100)
    == spec_budget_efficiency exp_by_cat budget_map).
  { unfold spec_budget_efficiency. cbv zeta.
    destruct (Qltb 0 (py_sum (dict_values budget_map))) eqn:E;
      destruct (Qlt_le_dec 0 (Qsum (dict_values budget_map))) as [H|H].
    - rewrite spent_vs_budget_spec, py_sum_Qsum by assumption. reflexivity.
    - apply Qltb_lt in E. rewrite py_sum_Qsum in E. lra.
    - apply Qltb_ge in E. rewrite py_sum_Qsum in E. lra.
    - reflexivity. }
  rewrite Hb, py_max_Qmax.
  assert (Hs : py_min (balance / income * 100) 100
               == Qmin (balance / income * 100) 100) by apply py_min_Qmin.
  rewrite Hs, py_min_Qmin. ring.
Qed.

Lemma spend_eff_bounds (x : Q) : 0 <= py_max 0 (py_min x 100) <= 100.
Proof.
  split.
  - apply py_max_ge_l.
  - apply py_max_lub; [lra | apply py_min_le_r].
Qed.

Lemma budget_eff_le_100 :
  (if Qltb 0 (py_sum (dict_values budget_map))
   then fold_left
          (fun acc (item : string * Q) =>
             let (cat, b_amt) := item in
             acc + py_min (dict_get exp_by_cat cat 0) b_amt)
          budget_map 0 / py_sum (dict_values budget_map) * 100
   else 100) <= 100.
Proof.
  destruct (Qltb 0 (py_sum (dict_values budget_map))) eqn:E; [|lra].
  apply Qltb_lt in E. rewrite spent_loop.
  pose proof (spent_le_total exp_by_cat budget_map) as Hle.
  rewrite <- (py_sum_Qsum (dict_values budget_map)) in Hle.
  set (total := py_sum (dict_values budget_map)) in *.
  set (spent := Qsum (map (spent_term exp_by_cat) budget_map)) in *.
  assert (H1 : (0 + spent) / total <= 1).
  { apply Qle_shift_div_r; [exact E | lra]. }
  lra.
Qed.

Lemma budget_eff_nonneg :
  (forall cat, 0 <= dict_get exp_by_cat cat 0) ->
  Forall (fun b => 0 <= b) (dict_values budget_map) ->
  0 <= (if Qltb 0 (py_sum (dict_values budget_map))
        then fold_left
               (fun acc (item : string * Q) =>
                  let (cat, b_amt) := item in
                  acc + py_min (dict_get exp_by_cat cat 0) b_amt)
               budget_map 0 / py_sum (dict_values budget_map) * 100
        else 100).
Proof.
  intros Hexp Hb.
  destruct (Qltb 0 (py_sum (dict_values budget_map))) eqn:E; [|lra].
  apply Qltb_lt in E. rewrite spent_loop.
  assert (Hs : 0 <= Qsum (map (spent_term exp_by_cat) budget_map)).
  { apply Qsum_nonneg. apply Forall_forall. intros x Hx.
    apply in_map_iff in Hx. destruct Hx as [[cat b] [<- Hin]].
    unfold spent_term. simpl. apply py_min_glb; [apply Hexp|].
    rewrite Forall_forall in Hb. apply Hb. unfold dict_values.
    change b with (snd (cat, b)). now apply in_map. }
  set (total := py_sum (dict_values budget_map)) in *.
  set (spent := Qsum (map (spent_term exp_by_cat) budget_map)) in *.
  assert (H1 : 0 <= (0 + spent) / total).
  { apply Qle_shift_div_l; [exact E | lra]. }
  lra.
Qed.

Lemma health_of_le_100 :
  health_of income balance exp_by_cat budget_map goals_savings <= 100.
Proof.
  unfold health_of. destruct (Qltb 0 income); [|lra]. cbv zeta.
  pose proof (spend_eff_bounds (balance / income * 100)) as [_ H1].
  pose proof budget_eff_le_100 as H2.
  pose proof (py_min_le_r (goals_savings / income * 100) 100) as H3.
  lra.
Qed.

Lemma health_of_no_income :
  income <= 0 ->
  health_of income balance exp_by_cat budget_map goals_savings = 0.
Proof.
  intro H. unfold health_of. now rewrite (proj2 (Qltb_ge 0 income) H).
Qed.

Lemma health_of_nonneg :
  0 <= goals_savings ->
  (forall cat, 0 <= dict_get exp_by_cat cat 0) ->
  Forall (fun b => 0 <= b) (dict_values budget_map) ->
  0 <= health_of income balance exp_by_cat budget_map goals_savings.
Proof.
  intros Hs Hexp Hb. unfold health_of.
  destruct (Qltb 0 income) eqn:E; [|lra]. apply Qltb_lt in E. cbv zeta.
  pose proof (spend_eff_bounds (balance / income * 100)) as [H1 _].
  pose proof (budget_eff_nonneg Hexp Hb) as H2.
  assert (H3 : 0 <= py_min (goals_savings / income * 100) 100).
  { apply py_min_glb; [|lra].
    assert (0 <= goals_savings / income)
      by (apply Qle_shift_div_l; [exact E | lra]).
    lra. }
  lra.
Qed.

End HealthBounds.

(** ** Sorting strings *)

Section Sorting.

Lemma str_lt_OT (a b : string) : str_lt a b <-> String_as_OT.lt a b.
Proof.
  unfold str_lt, String.ltb. rewrite <- String_as_OT.cmp_lt.
  unfold String_as_OT.cmp. destruct (String.compare a b); split; congruence.
Qed.

Lemma str_le_lt_eq (a b : string) : str_le a b <-> str_lt a b \/ a = b.
Proof.
  unfold str_le, str_lt, String.leb, String.ltb.
  destruct (String.compare a b) eqn:E.
  - apply String.compare_eq_iff in E. tauto.
  - tauto.
  - split; [discriminate|]. intros [H| ->]; [discriminate|].
    assert (String.compare b b = Eq).
    { pose proof (String.compare_antisym b b) as Ha.
      destruct (String.compare b b); simpl in Ha; congruence. }
    congruence.
Qed.

Lemma str_lt_trans (a b c : string) : str_lt a b -> str_lt b c -> str_lt a c.
Proof. rewrite !str_lt_OT. apply String_as_OT.lt_trans. Qed.

Lemma str_lt_irrefl (a : string) : ~ str_lt a a.
Proof.
  rewrite str_lt_OT. intro H. apply String_as_OT.lt_not_eq in H.
  apply H. reflexivity.
Qed.

Lemma str_le_trans (a b c : string) : str_le a b -> str_le b c -> str_le a c.
Proof.
  rewrite !str_le_lt_eq. intros [H1| ->] [H2| ->]; auto.
  left. eapply str_lt_trans; eauto.
Qed.

Lemma str_le_total (a b : string) : str_le a b \/ str_le b a.
Proof. apply String.leb_total. Qed.

Lemma insert_sorted_perm (x : string) (l : list string) :
  Permutation (insert_sorted x l) (x :: l).
Proof.
  induction l as [|y l IH]; simpl; [reflexivity|].
  destruct (String.leb x y); [reflexivity|].
  rewrite IH. apply perm_swap.
Qed.

Lemma sorted_perm (l : list string) : Permutation (sorted l) l.
Proof.
  induction l as [|x l IH]; simpl; [reflexivity|].
  rewrite insert_sorted_perm. now constructor.
Qed.

Lemma insert_sorted_sorted (x : string) (l : list string) :
  StronglySorted str_le l -> StronglySorted str_le (insert_sorted x l).
Proof.
  induction 1 as [|y l Hs IH Hall]; simpl.
  - repeat constructor.
  - destruct (String.leb x y) eqn:E.
    + constructor; [now constructor|]. constructor; [exact E|].
      eapply Forall_impl; [|exact Hall]. intros z Hz.
      eapply str_le_trans; eauto.
    + constructor; [exact IH|].
      assert (Hyx : str_le y x).
      { destruct (str_le_total x y) as [H|H]; [unfold str_le in H; congruence|exact H]. }
      apply Forall_forall. intros z Hz.
      apply (Permutation_in _ (insert_sorted_perm x l)) in Hz.
      destruct Hz as [<-|Hz]; [exact Hyx|].
      rewrite Forall_forall in Hall. now apply Hall.
Qed.

Lemma sorted_sorted (l : list string) : StronglySorted str_le (sorted l).
Proof.
  induction l as [|x l IH]; simpl; [constructor|].
  now apply insert_sorted_sorted.
Qed.

Lemma sorted_in (l : list string) (x : string) : In x (sorted l) <-> In x l.
Proof.
  split; apply Permutation_in; [|symmetry]; apply sorted_perm.
Qed.

Lemma sorted_nodup (l : list string) : NoDup l -> NoDup (sorted l).
Proof.
  apply Permutation_NoDup. symmetry. apply sorted_perm.
Qed.

(** Without repeated elements the order is strict. *)
Lemma sorted_strict (l : list string) :
  StronglySorted str_le l -> NoDup l -> StronglySorted str_lt l.
Proof.
  induction 1 as [|x l Hs IH Hall]; intro Hnd; [constructor|].
  inversion Hnd as [|? ? Hnotin Hnd']; subst.
  constructor; [now apply IH|].
  apply Forall_forall. intros y Hy. rewrite Forall_forall in Hall.
  destruct (proj1 (str_le_lt_eq x y) (Hall y Hy)) as [H| ->]; [exact H|tauto].
Qed.

End Sorting.

(** ** Rounding to two decimals *)

Section Rounding.

Local Open Scope Q_scope.

Lemma Qltb_comp (a a' b b' : Q) : a == a' -> b == b' -> Qltb a b = Qltb a' b'.
Proof. intros Ha Hb. unfold Qltb. now rewrite Ha, Hb. Qed.

Lemma round_half_even_comp (x y : Q) :
  x == y -> round_half_even x = round_half_even y.
Proof.
  intro H. unfold round_half_even.
  assert (Hf : Qfloor x = Qfloor y) by now rewrite H.
  rewrite Hf.
  assert (Hr : x - inject_Z (Qfloor y) == y - inject_Z (Qfloor y))
    by now rewrite H.
  rewrite (Qltb_comp _ _ _ _ Hr (Qeq_refl (1 # 2))).
  rewrite (Qltb_comp _ _ _ _ (Qeq_refl (1 # 2)) Hr).
  reflexivity.
Qed.

Lemma round2_comp (x y : Q) : x == y -> round2 x = round2 y.
Proof.
  intro H. unfold round2. f_equal. apply round_half_even_comp. now rewrite H.
Qed.

End Rounding.

(** ** The daily series *)

Section Daily.

Local Open Scope Q_scope.

Lemma daily_fold (trs : list Transaction) : forall acc : dict Q,
  let daily :=
    fold_left
      (fun daily t =>
         let sign := sign_of t in
         dict_set daily (t_date t)
           (dict_get daily (t_date t) 0 + sign * t_amount t))
      trs acc in
  NoDup (dict_keys acc) ->
  NoDup (dict_keys daily)
  /\ (forall k, In k (dict_keys daily) <->
                 In k (dict_keys acc) \/ exists t, In t trs /\ t_date t = k)
  /\ (forall k, dict_get daily k 0 ==
                 dict_get acc k 0
                 + Qsum (map (fun t => sign_of t * t_amount t)
                             (filter (fun t => String.eqb (t_date t) k) trs))).
Proof.
  induction trs as [|t trs IH]; intros acc daily Hnd; subst daily; simpl.
  - split; [exact Hnd|]. split.
    + intro k. split; [tauto|]. intros [H|[t [[] _]]]. exact H.
    + intro k. ring.
  - specialize (IH (dict_set acc (t_date t)
                      (dict_get acc (t_date t) 0 + sign_of t * t_amount t))
                   (dict_keys_set_nodup _ _ _ Hnd)).
    cbv zeta in IH. destruct IH as (IH1 & IH2 & IH3).
    split; [exact IH1|]. split.
    + intro k. rewrite IH2, dict_keys_set_in. split.
      * intros [[->|H]|[t' [Hin Hd]]]; eauto.
      * intros [H|[t' [[->|Hin] Hd]]]; eauto.
    + intro k. rewrite IH3, dict_get_set.
      destruct (String.eqb (t_date t) k) eqn:E; simpl.
      * apply String.eqb_eq in E. subst k. ring.
      * ring.
Qed.

Lemma daily_of_nodup (trs : list Transaction) :
  NoDup (dict_keys (daily_of trs)).
Proof. apply (daily_fold trs []). constructor. Qed.

Lemma daily_of_keys (trs : list Transaction) (k : string) :
  In k (dict_keys (daily_of trs)) <-> exists t, In t trs /\ t_date t = k.
Proof.
  destruct (daily_fold trs [] (NoDup_nil _)) as (_ & H & _).
  rewrite (H k). simpl. split; [intros [[]|H']; exact H' | auto].
Qed.

Lemma daily_of_value (trs : list Transaction) (k : string) :
  dict_get (daily_of trs) k 0 ==
  Qsum (map (fun t => sign_of t * t_amount t)
            (filter (fun t => String.eqb (t_date t) k) trs)).
Proof.
  destruct (daily_fold trs [] (NoDup_nil _)) as (_ & _ & H).
  rewrite (H k). unfold dict_get. simpl. ring.
Qed.

(** On income and expense rows the code's sign is the specification's. *)
Lemma daily_of_spec (trs : list Transaction) (k : string) :
  Forall valid_kind trs ->
  dict_get (daily_of trs) k 0 == spec_daily_net trs k.
Proof.
  intro Hv. rewrite daily_of_value. unfold spec_daily_net.
  apply Qsum_map_ext. intros t Hin. apply filter_In in Hin.
  destruct Hin as [Hin _]. rewrite Forall_forall in Hv.
  unfold sign_of, spec_signed. destruct (Hv t Hin) as [E|E]; rewrite E; simpl; ring.
Qed.

(** The comprehension over the labels never meets a missing key. *)
Lemma daily_values_ok (daily : dict Q) (labels : list string) :
  (forall d, In d labels -> In d (dict_keys daily)) ->
  daily_values_of daily labels
  = Ok (map (fun d => round2 (dict_get daily d 0)) labels).
Proof.
  unfold daily_values_of.
  induction labels as [|d labels IH]; intro H; simpl; [reflexivity|].
  assert (Hd : In d (dict_keys daily)) by (apply H; now left).
  apply dict_find_in_keys in Hd. destruct Hd as [v Hv].
  specialize (IH (fun d' Hd' => H d' (or_intror Hd'))).
  cbn [map_res map] in *. rewrite IH.
  unfold dict_item, dict_get. rewrite Hv. reflexivity.
Qed.

Lemma daily_values_of_daily (trs : list Transaction) :
  daily_values_of (daily_of trs) (daily_labels_of (daily_of trs))
  = Ok (map (fun d => round2 (dict_get (daily_of trs) d 0))
            (daily_labels_of (daily_of trs))).
Proof.
  apply daily_values_ok. intros d Hd. unfold daily_labels_of in Hd.
  exact (proj1 (sorted_in _ _) Hd).
Qed.

End Daily.

(** ** The dashboard as a whole *)

Section Dashboard.

Variables (st : store) (sess : session) (args : form) (today : date).

Lemma months_list_ok :
  exists l, map_res (fun i => n <- months_ua_item i ;; Ok (i, n))
                    (py_range 1 13) = Ok l.
Proof. eexists. vm_compute. reflexivity. Qed.

Lemma months_ua_item_ok (m : Z) :
  1 <= m <= 12 -> exists n, months_ua_item m = Ok n.
Proof.
  intro H.
  assert (C : m = 1 \/ m = 2 \/ m = 3 \/ m = 4 \/ m = 5 \/ m = 6 \/ m = 7
              \/ m = 8 \/ m = 9 \/ m = 10 \/ m = 11 \/ m = 12) by lia.
  repeat (destruct C as [->|C]; [eexists; reflexivity|]).
  subst. eexists; reflexivity.
Qed.

Lemma months_ua_item_out_of_range (m : Z) :
  ~ 1 <= m <= 12 -> months_ua_item m = Raise KeyError.
Proof.
  intro H. unfold months_ua_item, MONTHS_UA. cbn [find fst snd].
  repeat match goal with
         | |- context [?a =? m] => destruct (Z.eqb_spec a m); [lia|]
         end.
  reflexivity.
Qed.

Lemma selected_period_total :
  exists m y, selected_period args today = Ok (m, y).
Proof.
  unfold selected_period.
  destruct (str_truthy (form_get args "month") && str_truthy (form_get args "year"));
    [|eauto].
  unfold py_int.
  destruct (int_of_str (str_or (form_get args "month") "")); simpl; [|eauto].
  destruct (int_of_str (str_or (form_get args "year") "")); simpl; eauto.
Qed.

(** What a rendered dashboard was computed from. *)
Lemma dashboard_inv (rp : reply) (ctx : dashboard_ctx) :
  dashboard st sess args today = Ok rp ->
  r_page rp = RenderDashboard ctx ->
  exists u,
    current_user st sess = Some u
    /\ selected_period args today
       = Ok (c_selected_month ctx, c_selected_year ctx)
    /\ r_store rp = st /\ r_flashes rp = []
    /\ (exists n, months_ua_item (c_selected_month ctx) = Ok n)
    /\ let month_tr :=
         period_transactions st (u_id u)
           (c_selected_year ctx) (c_selected_month ctx) in
       c_income ctx = income_of month_tr
       /\ c_expenses ctx = expenses_of month_tr
       /\ c_balance ctx = (c_income ctx - c_expenses ctx)%Q
       /\ c_goals_savings ctx = py_sum (map g_current (user_goals st (u_id u)))
       /\ c_health ctx
          = health_of (c_income ctx) (c_balance ctx) (exp_by_cat_of month_tr)
              (budget_map_of (user_budgets st (u_id u))) (c_goals_savings ctx)
       /\ c_exp_labels ctx = dict_keys (exp_by_cat_of month_tr)
       /\ c_exp_values ctx = dict_values (exp_by_cat_of month_tr)
       /\ c_daily_labels ctx = daily_labels_of (daily_of month_tr)
       /\ daily_values_of (daily_of month_tr) (c_daily_labels ctx)
          = Ok (c_daily_values ctx).
Proof.
  unfold dashboard, login_required.
  destruct sess as [uname|]; [|intros H Hp; inversion H; subst; discriminate].
  unfold dashboard_view.
  destruct (selected_period args today) as [[m y]|e]; [|discriminate].
  cbn [bind].
  destruct (current_user st (Some uname)) as [u|]; [|discriminate].
  cbn [bind user_id].
  fold (period_transactions st (u_id u) y m).
  destruct (daily_values_of _ _) as [vals|e] eqn:Ev; [|discriminate].
  cbn [bind].
  destruct months_list_ok as [ml ->]. cbn [bind].
  destruct (months_ua_item m) as [mn|e] eqn:Em; [|discriminate].
  cbn [bind]. intros H Hp. inversion H; subst rp. cbn in Hp.
  inversion Hp; subst ctx. cbn.
  exists u. rewrite Em. repeat split; eauto.
Qed.

(** With a known user and a month from 1 to 12 the page is rendered. *)
Lemma dashboard_renders (u : User) (m y : Z) :
  current_user st sess = Some u ->
  selected_period args today = Ok (m, y) ->
  1 <= m <= 12 ->
  exists ctx,
    dashboard st sess args today = Ok (mkReply st [] (RenderDashboard ctx))
    /\ c_selected_month ctx = m /\ c_selected_year ctx = y.
Proof.
  intros Hu Hp Hm. unfold dashboard, login_required.
  destruct sess as [uname|]; [|discriminate].
  unfold dashboard_view. rewrite Hp, Hu. cbn [bind user_id].
  rewrite daily_values_of_daily. cbn [bind].
  destruct months_list_ok as [ml ->]. cbn [bind].
  destruct (months_ua_item_ok m Hm) as [mn ->]. cbn [bind].
  eexists. split; [reflexivity|]. split; reflexivity.
Qed.

(** A month outside 1..12 that parses as an integer is kept as the
    selection, and looking up its name raises [KeyError]. *)
Lemma dashboard_month_out_of_range (u : User) (m y : Z) :
  current_user st sess = Some u ->
  selected_period args today = Ok (m, y) ->
  ~ 1 <= m <= 12 ->
  dashboard st sess args today = Raise KeyError.
Proof.
  intros Hu Hp Hm. unfold dashboard, login_required.
  destruct sess as [uname|]; [|discriminate].
  unfold dashboard_view. rewrite Hp, Hu. cbn [bind user_id].
  rewrite daily_values_of_daily. cbn [bind].
  destruct months_list_ok as [ml ->]. cbn [bind].
  rewrite (months_ua_item_out_of_range m Hm). reflexivity.
Qed.

(** Selector values that are missing, empty or not integers select the
    current month and year. *)
Lemma selected_period_fallback :
  (form_get args "month" = None \/ form_get args "month" = Some ""
   \/ form_get args "year" = None \/ form_get args "year" = Some ""
   \/ int_of_str (str_or (form_get args "month") "") = None
   \/ int_of_str (str_or (form_get args "year") "") = None) ->
  selected_period args today = Ok (d_month today, d_year today).
Proof.
  unfold selected_period, py_int.
  intros [H|[H|[H|[H|[H|H]]]]]; rewrite ?H; cbn [str_truthy andb].
  - reflexivity.
  - reflexivity.
  - now rewrite andb_false_r.
  - now rewrite andb_false_r.
  - destruct (_ && _); reflexivity.
  - destruct (_ && _); [|reflexivity].
    destruct (int_of_str (str_or (form_get args "month") "")); reflexivity.
Qed.

Lemma selected_period_parsed (ms ys : string) (m y : Z) :
  form_get args "month" = Some ms -> form_get args "year" = Some ys ->
  int_of_str ms = Some m -> int_of_str ys = Some y ->
  selected_period args today = Ok (m, y).
Proof.
  intros Hm Hy Em Ey. unfold selected_period, py_int. rewrite Hm, Hy.
  destruct ms as [|c ms]; [discriminate|].
  destruct ys as [|c' ys]; [discriminate|].
  cbn [str_truthy andb str_or]. now rewrite Em, Ey.
Qed.

End Dashboard.

(** ** Signs of the aggregates *)

Section Signs.

Local Open Scope Q_scope.

Lemma dict_values_set_in (d : dict Q) (k : string) (v x : Q) :
  In x (dict_values (dict_set d k v)) -> x = v \/ In x (dict_values d).
Proof.
  induction d as [|[k0 v0] d IH]; simpl.
  - intros [H|[]]. now left.
  - destruct (String.eqb k0 k); simpl.
    + intros [H|H]; [now left | now right; right].
    + intros [H|H]; [now right; left|].
      apply IH in H. tauto.
Qed.

Lemma budget_map_of_values (bs : list Budget) (x : Q) :
  In x (dict_values (budget_map_of bs)) ->
  exists b, In b bs /\ b_amount b = x.
Proof.
  unfold budget_map_of.
  assert (G : forall acc : dict Q,
    In x (dict_values (fold_left
            (fun m b => dict_set m (b_category b) (b_amount b)) bs acc)) ->
    In x (dict_values acc) \/ exists b, In b bs /\ b_amount b = x).
  { induction bs as [|b bs IH]; simpl; intros acc H; [tauto|].
    apply IH in H. destruct H as [H|[b' [Hin Hb]]]; [|eauto].
    apply dict_values_set_in in H. destruct H as [->|H]; eauto. }
  intro H. apply G in H. destruct H as [[]|H]. exact H.
Qed.

Lemma budget_map_of_nonneg (bs : list Budget) :
  Forall (fun b => 0 <= b_amount b) bs ->
  Forall (fun x => 0 <= x) (dict_values (budget_map_of bs)).
Proof.
  intro H. apply Forall_forall. intros x Hx.
  apply budget_map_of_values in Hx. destruct Hx as [b [Hin <-]].
  rewrite Forall_forall in H. now apply H.
Qed.

Lemma exp_by_cat_of_nonneg (trs : list Transaction) (cat : string) :
  Forall (fun t => 0 <= t_amount t) trs ->
  0 <= dict_get (exp_by_cat_of trs) cat 0.
Proof.
  unfold exp_by_cat_of.
  assert (G : forall acc : dict Q,
    Forall (fun t => 0 <= t_amount t) trs ->
    (forall c, 0 <= dict_get acc c 0) ->
    0 <= dict_get
           (fold_left
              (fun exp_by_cat t =>
                 if String.eqb (t_type t) "expense" then
                   let c := str_or (t_category t) "Інше" in
                   dict_set exp_by_cat c (dict_get exp_by_cat c 0 + t_amount t)
                 else exp_by_cat)
              trs acc) cat 0).
  { induction trs as [|t trs IH]; simpl; intros acc Hall Hacc; [apply Hacc|].
    inversion Hall as [|? ? Ht Hall']; subst.
    apply IH; [exact Hall'|]. intro c.
    destruct (String.eqb (t_type t) "expense"); [|apply Hacc].
    cbv zeta. rewrite dict_get_set.
    destruct (String.eqb _ c); [|apply Hacc].
    pose proof (Hacc (str_or (t_category t) "Інше")). lra. }
  intro H. apply G; [exact H|]. intro c. unfold dict_get. simpl. lra.
Qed.

(** The expenses of a category are the sum of the amounts of the period's
    expense rows of that category, a missing or empty category counting as
    the default one. *)
Lemma exp_by_cat_of_value (trs : list Transaction) (cat : string) :
  dict_get (exp_by_cat_of trs) cat 0
  == Qsum (map t_amount
             (filter (fun t => String.eqb (t_type t) "expense"
                               && String.eqb (str_or (t_category t) "Інше") cat)
                     trs)).
Proof.
  unfold exp_by_cat_of.
  assert (G : forall acc : dict Q,
    dict_get
      (fold_left
         (fun exp_by_cat t =>
            if String.eqb (t_type t) "expense" then
              let c := str_or (t_category t) "Інше" in
              dict_set exp_by_cat c (dict_get exp_by_cat c 0 + t_amount t)
            else exp_by_cat)
         trs acc) cat 0
    == dict_get acc cat 0
       + Qsum (map t_amount
                 (filter (fun t => String.eqb (t_type t) "expense"
                                   && String.eqb (str_or (t_category t) "Інше")
                                                 cat)
                         trs))).
  { induction trs as [|t trs IH]; intro acc; simpl; [ring|].
    rewrite IH. destruct (String.eqb (t_type t) "expense"); simpl; [|ring].
    rewrite dict_get_set.
    destruct (String.eqb (str_or (t_category t) "Інше") cat) eqn:E; simpl.
    - apply String.eqb_eq in E. rewrite E. ring.
    - ring. }
  rewrite G. unfold dict_get. simpl. ring.
Qed.

Lemma filter_Forall (A : Type) (P : A -> Prop) (f : A -> bool) (l : list A) :
  Forall P l -> Forall P (filter f l).
Proof.
  rewrite !Forall_forall. intros H x Hx. apply filter_In in Hx. now apply H.
Qed.

End Signs.

(** ** The health score and the daily series of a rendered dashboard *)

Section DashboardClaims.

Local Open Scope Q_scope.

(** C1. Whenever the period income is positive, the health score of the
    rendered dashboard is 0.5 * spend_efficiency + 0.3 * budget_efficiency
    + 0.2 * saving_ratio, with the three components as the specification
    defines them from the balance, the income, the total savings, the
    expenses by category and the budget limits.  On the scenario (income
    1000, expenses on food of 200 and 100, a food budget of 250, goals
    holding 100) the page is rendered with expenses 300, balance 700,
    spend_efficiency 70, budget_efficiency 100, saving_ratio 10 and a
    health score of 67. *)
Theorem health_score_formula :
  (forall st sess args today rp ctx,
     dashboard st sess args today = Ok rp ->
     r_page rp = RenderDashboard ctx ->
     0 < c_income ctx ->
     exists u,
       current_user st sess = Some u
       /\ c_health ctx
          == spec_health (c_balance ctx) (c_income ctx) (c_goals_savings ctx)
               (exp_by_cat_of
                  (period_transactions st (u_id u)
                     (c_selected_year ctx) (c_selected_month ctx)))
               (budget_map_of (user_budgets st (u_id u))))
  /\ (exists ctx,
        dashboard scenario_store alice [] may17
        = Ok (mkReply scenario_store [] (RenderDashboard ctx))
        /\ c_income ctx == 1000 /\ c_expenses ctx == 300
        /\ c_balance ctx == 700 /\ c_goals_savings ctx == 100
        /\ c_exp_labels ctx = ["food"%string]
        /\ spec_spend_efficiency (c_balance ctx) (c_income ctx) == 70
        /\ budget_map_of (user_budgets scenario_store 1)
           = [("food"%string, 250)]
        /\ spec_budget_efficiency
             (combine (c_exp_labels ctx) (c_exp_values ctx))
             (budget_map_of (user_budgets scenario_store 1)) == 100
        /\ spec_saving_ratio (c_goals_savings ctx) (c_income ctx) == 10
        /\ c_health ctx == 67).
Proof.
  split.
  - intros st sess args today rp ctx Hd Hp Hinc.
    destruct (dashboard_inv st sess args today rp ctx Hd Hp)
      as (u & Hu & _ & _ & _ & _ & H).
    cbv zeta in H. destruct H as (_ & _ & _ & _ & Hh & _).
    exists u. split; [exact Hu|]. rewrite Hh.
    apply health_of_spec; [apply budget_map_of_nodup | exact Hinc].
  - eexists. split; [vm_compute; reflexivity|].
    cbn [c_income c_expenses c_balance c_goals_savings c_exp_labels
         c_exp_values c_health].
    repeat split; vm_compute; reflexivity.
Qed.

Lemma health_score_formula_witness :
  exists ctx u,
    rendered (dashboard scenario_store alice [] may17) = Some ctx
    /\ 0 < c_income ctx
    /\ current_user scenario_store alice = Some u
    /\ c_health ctx
       == spec_health (c_balance ctx) (c_income ctx) (c_goals_savings ctx)
            (exp_by_cat_of
               (period_transactions scenario_store (u_id u)
                  (c_selected_year ctx) (c_selected_month ctx)))
            (budget_map_of (user_budgets scenario_store (u_id u))).
Proof.
  destruct (dashboard scenario_store alice [] may17) as [rp|e] eqn:Hd;
    [|vm_compute in Hd; discriminate].
  destruct (r_page rp) as [e|ctx] eqn:Hp;
    [vm_compute in Hd; inversion Hd; subst rp; discriminate|].
  assert (Hinc : 0 < c_income ctx).
  { vm_compute in Hd. inversion Hd; subst rp. cbn in Hp.
    inversion Hp; subst ctx. vm_compute. reflexivity. }
  destruct (proj1 health_score_formula scenario_store alice [] may17 rp ctx
              Hd Hp Hinc) as (u & Hu & Hh).
  exists ctx, u. cbn [rendered]. rewrite Hp. auto.
Defined.

(** In exact arithmetic the health score of a rendered dashboard is at
    most 100, and it is at least 0 when the total savings, the budget
    limits and the amounts of the transactions are not negative.  This is
    a fact about rationals only: a double can be [inf] or [nan], see
    [health_score_nan_binary64]. *)
Lemma health_score_bounds_exact (st : store) (sess : session) (args : form)
    (today : date) (rp : reply) (ctx : dashboard_ctx) :
  dashboard st sess args today = Ok rp ->
  r_page rp = RenderDashboard ctx ->
  c_health ctx <= 100
  /\ (c_income ctx <= 0 -> c_health ctx = 0)
  /\ (0 <= c_goals_savings ctx ->
      Forall (fun b => 0 <= b_amount b) (budgets st) ->
      Forall (fun t => 0 <= t_amount t) (transactions st) ->
      0 <= c_health ctx).
Proof.
  intros Hd Hp.
  destruct (dashboard_inv st sess args today rp ctx Hd Hp)
    as (u & Hu & _ & _ & _ & _ & H).
  cbv zeta in H. destruct H as (_ & _ & _ & _ & Hh & _).
  rewrite Hh. split; [apply health_of_le_100|].
  split; [apply health_of_no_income|].
  intros Hs Hb Ht. apply health_of_nonneg; [exact Hs| |].
  - intro cat. apply exp_by_cat_of_nonneg.
    unfold period_transactions, month_transactions, user_transactions.
    now do 2 apply filter_Forall.
  - apply budget_map_of_nonneg. unfold user_budgets. now apply filter_Forall.
Qed.

(** C2, as the code has it.  The health score of a rendered dashboard is
    0 whenever the period income is not positive, in particular when it
    is 0 and when the period holds no income row.  The code decides this
    by the comparison [income > 0] alone, so the binary64 computation
    gives 0 as well whenever that comparison fails, also for an income
    that is [nan]. *)
Theorem health_score_zero_income :
  (forall st sess args today rp ctx,
     dashboard st sess args today = Ok rp ->
     r_page rp = RenderDashboard ctx ->
     (c_income ctx <= 0 -> c_health ctx = 0)
     /\ exists u,
          current_user st sess = Some u
          /\ (Forall (fun t => t_type t <> "income"%string)
                 (period_transactions st (u_id u)
                    (c_selected_year ctx) (c_selected_month ctx)) ->
              c_income ctx = 0 /\ c_health ctx = 0))
  /\ (forall income balance exp_by_cat budget_map goals_savings,
        PrimFloat.ltb Binary64.zero income = false ->
        Binary64.health_of income balance exp_by_cat budget_map goals_savings
        = Binary64.zero).
Proof.
  split.
  - intros st sess args today rp ctx Hd Hp.
    destruct (dashboard_inv st sess args today rp ctx Hd Hp)
      as (u & Hu & _ & _ & _ & _ & H).
    cbv zeta in H. destruct H as (Hi & _ & _ & _ & Hh & _).
    split; [rewrite Hh; apply health_of_no_income|].
    exists u. split; [exact Hu|]. intro Hno.
    assert (Hz : c_income ctx = 0).
    { rewrite Hi. unfold income_of.
      assert (Hf : forall trs,
                Forall (fun t => t_type t <> "income"%string) trs ->
                filter (fun t => String.eqb (t_type t) "income") trs = []).
      { induction 1 as [|t trs Ht _ IH]; simpl; [reflexivity|].
        destruct (String.eqb_spec (t_type t) "income");
          [contradiction | exact IH]. }
      rewrite (Hf _ Hno). reflexivity. }
    split; [exact Hz|]. rewrite Hh. apply health_of_no_income.
    rewrite Hz. apply Qle_refl.
  - intros income balance e b sv Hlt. unfold Binary64.zero in Hlt.
    unfold Binary64.health_of. rewrite Hlt. reflexivity.
Qed.

Lemma health_score_zero_income_witness :
  exists ctx,
    rendered (dashboard transfer_store alice [] may17) = Some ctx
    /\ c_income ctx = 0 /\ c_health ctx = 0.
Proof.
  destruct (dashboard transfer_store alice [] may17) as [rp|e] eqn:Hd;
    [|vm_compute in Hd; discriminate].
  destruct (r_page rp) as [e|ctx] eqn:Hp;
    [vm_compute in Hd; inversion Hd; subst rp; discriminate|].
  destruct (proj1 health_score_zero_income transfer_store alice [] may17
              rp ctx Hd Hp) as (_ & u & Hu & Hno).
  exists ctx. cbn [rendered]. rewrite Hp. split; [reflexivity|].
  apply Hno.
  vm_compute in Hu. inversion Hu; subst u.
  vm_compute in Hd. inversion Hd; subst rp. cbn in Hp.
  inversion Hp; subst ctx. vm_compute.
  repeat constructor. discriminate.
Defined.

(** C2 as stated fails: with an income of 1000 and a goal holding -100000
    the page is rendered with a health score below 0, outside the interval
    from 0 to 100. *)
Lemma health_score_negative :
  exists ctx,
    dashboard debt_store alice [] may17
    = Ok (mkReply debt_store [] (RenderDashboard ctx))
    /\ ~ (0 <= c_health ctx /\ c_health ctx <= 100).
Proof.
  eexists. split; [vm_compute; reflexivity|].
  cbn [c_health]. intros [H _]. vm_compute in H. apply H. reflexivity.
Qed.

End DashboardClaims.

Section DailyClaim.

Local Open Scope Q_scope.

(** The daily series on a store whose rows are all of type income or
    expense, the two kinds of the data model (line 38).  The labels are
    exactly the distinct dates of the period's transactions, in ascending
    order; the values are, label by label, the signed net of that date
    (income added, expense subtracted) rounded to two decimals.  On the
    scenario (+50 on 2024-05-01, -20 on 2024-05-03)
    the labels are 2024-05-01, 2024-05-03 and the values 50 and -20. *)
Lemma daily_net_series :
  (forall st sess args today rp ctx,
     Forall valid_kind (transactions st) ->
     dashboard st sess args today = Ok rp ->
     r_page rp = RenderDashboard ctx ->
     exists u,
       current_user st sess = Some u
       /\ let period_tr :=
            period_transactions st (u_id u)
              (c_selected_year ctx) (c_selected_month ctx) in
          (forall d, In d (c_daily_labels ctx) <->
                     exists t, In t period_tr /\ t_date t = d)
          /\ NoDup (c_daily_labels ctx)
          /\ StronglySorted str_lt (c_daily_labels ctx)
          /\ c_daily_values ctx
             = map (fun d => round2 (spec_daily_net period_tr d))
                   (c_daily_labels ctx))
  /\ (exists ctx,
        dashboard daily_store alice [] may17
        = Ok (mkReply daily_store [] (RenderDashboard ctx))
        /\ c_daily_labels ctx = ["2024-05-01"%string; "2024-05-03"%string]
        /\ Forall2 Qeq (c_daily_values ctx) [50; -20]).
Proof.
  split.
  - intros st sess args today rp ctx Hv Hd Hp.
    destruct (dashboard_inv st sess args today rp ctx Hd Hp)
      as (u & Hu & _ & _ & _ & _ & H).
    cbv zeta in H. destruct H as (_ & _ & _ & _ & _ & _ & _ & Hl & Hvals).
    exists u. split; [exact Hu|]. cbv zeta.
    set (period_tr := period_transactions st (u_id u)
                        (c_selected_year ctx) (c_selected_month ctx)) in *.
    assert (Hvp : Forall valid_kind period_tr).
    { unfold period_tr, period_transactions, month_transactions,
        user_transactions. now do 2 apply filter_Forall. }
    assert (Hnd : NoDup (c_daily_labels ctx)).
    { rewrite Hl. apply sorted_nodup, daily_of_nodup. }
    split; [|split; [exact Hnd|split]].
    + intro d. rewrite Hl. unfold daily_labels_of.
      rewrite sorted_in. apply daily_of_keys.
    + apply sorted_strict; [|exact Hnd]. rewrite Hl. apply sorted_sorted.
    + rewrite Hl, daily_values_of_daily in Hvals. inversion Hvals as [Hv'].
      rewrite Hl. apply map_ext. intro d. apply round2_comp.
      now apply daily_of_spec.
  - eexists. split; [vm_compute; reflexivity|].
    cbn [c_daily_labels c_daily_values]. split; [reflexivity|].
    repeat constructor.
Qed.

Lemma daily_net_series_witness :
  exists ctx u,
    rendered (dashboard daily_store alice [] may17) = Some ctx
    /\ current_user daily_store alice = Some u
    /\ NoDup (c_daily_labels ctx)
    /\ StronglySorted str_lt (c_daily_labels ctx)
    /\ c_daily_values ctx
       = map (fun d =>
                round2 (spec_daily_net
                          (period_transactions daily_store (u_id u)
                             (c_selected_year ctx) (c_selected_month ctx)) d))
             (c_daily_labels ctx).
Proof.
  assert (Hv : Forall valid_kind (transactions daily_store)).
  { vm_compute.
    repeat (apply Forall_cons;
            [first [left; reflexivity | right; reflexivity]|]).
    apply Forall_nil. }
  destruct (dashboard daily_store alice [] may17) as [rp|e] eqn:Hd;
    [|vm_compute in Hd; discriminate].
  destruct (r_page rp) as [e|ctx] eqn:Hp;
    [vm_compute in Hd; inversion Hd; subst rp; discriminate|].
  destruct (proj1 daily_net_series daily_store alice [] may17 rp ctx
              Hv Hd Hp) as (u & Hu & H).
  cbv zeta in H. destruct H as (_ & Hnd & Hs & Hvals).
  exists ctx, u. cbn [rendered]. rewrite Hp. auto.
Defined.

End DailyClaim.

(** ** The period selector *)

Section Period.

Lemma in_py_range (a b z : Z) : a <= z < b -> In z (py_range a b).
Proof.
  intro H. unfold py_range. apply in_map_iff.
  exists (Z.to_nat (z - a)). split; [lia|]. apply in_seq. lia.
Qed.

Lemma forallb_py_range (f : Z -> bool) (a b : Z) :
  forallb f (py_range a b) = true -> forall z, a <= z < b -> f z = true.
Proof.
  intros H z Hz. rewrite forallb_forall in H. apply H. now apply in_py_range.
Qed.

Lemma length_append (s1 s2 : string) :
  String.length (s1 ++ s2) = (String.length s1 + String.length s2)%nat.
Proof. induction s1 as [|c s1 IH]; simpl; [reflexivity | now rewrite IH]. Qed.

(** A year of four digits needs no padding. *)
Lemma four_digit_year (y : Z) :
  1000 <= y <= 9999 ->
  format_0d 4 y = str_of_int y /\ String.length (str_of_int y) = 4%nat.
Proof.
  intro H.
  assert (C : forallb
                (fun y => String.eqb (format_0d 4 y) (str_of_int y)
                          && (String.length (str_of_int y) =? 4)%nat)
                (py_range 1000 10000) = true) by (vm_compute; reflexivity).
  pose proof (forallb_py_range _ _ _ C y ltac:(lia)) as Hy.
  cbv beta in Hy. apply andb_true_iff in Hy. destruct Hy as [H1 H2].
  apply String.eqb_eq in H1. apply Nat.eqb_eq in H2. auto.
Qed.

Lemma two_digit_month (m : Z) :
  0 <= m <= 99 -> String.length (format_0d 2 m) = 2%nat.
Proof.
  intro H.
  assert (C : forallb (fun m => (String.length (format_0d 2 m) =? 2)%nat)
                      (py_range 0 100) = true) by (vm_compute; reflexivity).
  pose proof (forallb_py_range _ _ _ C m ltac:(lia)) as Hm.
  now apply Nat.eqb_eq in Hm.
Qed.

Lemma month_prefix_spec (y m : Z) :
  1000 <= y <= 9999 -> 0 <= m <= 99 ->
  month_prefix y m = spec_period_prefix y m
  /\ String.length (month_prefix y m) = 7%nat.
Proof.
  intros Hy Hm. destruct (four_digit_year y Hy) as [Hf Hl].
  unfold month_prefix, spec_period_prefix. rewrite Hf. split; [reflexivity|].
  rewrite !length_append, Hl, (two_digit_month m Hm). reflexivity.
Qed.

Lemma startswith_substring (s p : string) :
  startswith s p = true <-> substring 0 (String.length p) s = p.
Proof. apply String.prefix_correct. Qed.

(** C8, as the code has it.  A transaction is in the selected period
    exactly when its date starts with the year, unpadded, a dash and the
    month padded to two digits; for a year of four digits (and a month of
    at most two) that is the same as the first 7 characters of its date
    being [{year:04d}-{month:02d}]. *)
Theorem period_membership (year month : Z) (trs : list Transaction)
    (t : Transaction) :
  (In t (month_transactions trs (month_prefix year month)) <->
   In t trs
   /\ startswith (t_date t) (str_of_int year ++ "-" ++ format_0d 2 month)
      = true)
  /\ (1000 <= year <= 9999 -> 0 <= month <= 99 ->
      (In t (month_transactions trs (month_prefix year month)) <->
       In t trs /\ spec_in_period year month t = true)).
Proof.
  split.
  - unfold month_transactions. rewrite filter_In. reflexivity.
  - intros Hy Hm. unfold month_transactions. rewrite filter_In.
    destruct (month_prefix_spec year month Hy Hm) as [Hp Hl].
    unfold spec_in_period. rewrite String.eqb_eq, startswith_substring, Hl, Hp.
    reflexivity.
Qed.

Lemma period_membership_witness :
  1000 <= 2024 <= 9999 /\ 0 <= 5 <= 99
  /\ (In may_row (month_transactions [may_row] (month_prefix 2024 5))
      <-> In may_row [may_row] /\ spec_in_period 2024 5 may_row = true).
Proof.
  split; [lia|]. split; [lia|].
  apply (proj2 (period_membership 2024 5 [may_row] may_row)); lia.
Defined.

(** C8 as stated fails for a year below 1000: with year 999 and month 5
    the code keeps a transaction dated 999-05-01, whose first 7 characters
    are not 0999-05. *)
Lemma period_prefix_year_999 :
  month_prefix 999 5 = "999-05"
  /\ spec_period_prefix 999 5 = "0999-05"
  /\ ~ (In year_999_row (month_transactions [year_999_row] (month_prefix 999 5))
        <-> spec_in_period 999 5 year_999_row = true).
Proof.
  split; [reflexivity|]. split; [reflexivity|].
  intros [H _]. assert (F : spec_in_period 999 5 year_999_row = true).
  { apply H. vm_compute. now left. }
  vm_compute in F. discriminate.
Qed.

(** C4: the code does not fall back for a month outside 1..12.  With
    [month=13] (or [month=0]) and [year=2024] the selection is kept and
    the lookup of the month's name raises [KeyError]; no page is
    rendered. *)
Theorem dashboard_month_13_raises :
  selected_period [("month", "13"); ("year", "2024")] may17 = Ok (13, 2024)
  /\ dashboard scenario_store alice [("month", "13"); ("year", "2024")] may17
     = Raise KeyError
  /\ dashboard scenario_store alice [("month", "0"); ("year", "2024")] may17
     = Raise KeyError.
Proof. repeat split; vm_compute; reflexivity. Qed.

(** Selector values that are not integers do fall back to the current
    month, and the page is rendered. *)
Lemma dashboard_non_numeric_selector (st : store) (sess : session)
    (args : form) (today : date) (u : User) :
  current_user st sess = Some u ->
  1 <= d_month today <= 12 ->
  (int_of_str (str_or (form_get args "month") "") = None
   \/ int_of_str (str_or (form_get args "year") "") = None) ->
  exists ctx,
    dashboard st sess args today = Ok (mkReply st [] (RenderDashboard ctx))
    /\ c_selected_month ctx = d_month today
    /\ c_selected_year ctx = d_year today.
Proof.
  intros Hu Hm Hbad.
  apply (dashboard_renders st sess args today u); [exact Hu| |exact Hm].
  apply selected_period_fallback. tauto.
Qed.

End Period.

(** ** Ownership *)

Section Ownership.

Variables (st : store) (sess : session) (a : User).
Hypothesis logged_in : current_user st sess = Some a.

Lemma session_present : exists name, sess = Some name.
Proof.
  destruct sess as [name|]; [eauto | discriminate logged_in].
Qed.

Lemma delete_transaction_foreign (tid : Z) (tr : Transaction) :
  get_transaction st tid = Some tr ->
  t_user_id tr <> u_id a ->
  delete_transaction st sess tid
  = Ok (mkReply st [] (Redirect ep_transactions_view)).
Proof.
  intros Hg Hne. destruct session_present as [name ->].
  unfold delete_transaction, login_required, delete_transaction_view.
  rewrite Hg, logged_in. cbn [user_id bind].
  destruct (Z.eqb_spec (t_user_id tr) (u_id a)); [contradiction|reflexivity].
Qed.

Lemma update_goal_foreign (gid : Z) (g : Goal) (f : form) :
  get_goal st gid = Some g ->
  g_user_id g <> u_id a ->
  update_goal st sess gid f
  = Ok (mkReply st [msg_goal_not_found] (Redirect ep_savings)).
Proof.
  intros Hg Hne. destruct session_present as [name ->].
  unfold update_goal, login_required, update_goal_view.
  rewrite Hg, logged_in. cbn [user_id bind].
  destruct (Z.eqb_spec (g_user_id g) (u_id a)); [contradiction|reflexivity].
Qed.

Lemma delete_goal_foreign (gid : Z) (g : Goal) :
  get_goal st gid = Some g ->
  g_user_id g <> u_id a ->
  delete_goal st sess gid
  = Ok (mkReply st [msg_goal_not_deleted] (Redirect ep_savings)).
Proof.
  intros Hg Hne. destruct session_present as [name ->].
  unfold delete_goal, login_required, delete_goal_view.
  rewrite Hg, logged_in. cbn [user_id bind].
  destruct (Z.eqb_spec (g_user_id g) (u_id a)); [contradiction|reflexivity].
Qed.

End Ownership.

(** ** Numeric fields that do not parse *)

Section BadNumbers.

Variables (st : store) (name : string) (f : form).

Lemma parse_number_str (raw : string) :
  (exists x, parse_number (PStr raw) = Ok x)
  \/ parse_number (PStr raw) = Raise ValueError.
Proof.
  unfold parse_number, py_or, truthy.
  destruct (negb (String.eqb raw "")); cbn [py_strip bind]; unfold py_float;
    destruct (float_of_str _); eauto.
Qed.

Lemma form_item_get (k v : string) :
  form_get f k = Some v -> form_item f k = Ok v.
Proof. unfold form_get, form_item. now intros ->. Qed.

Lemma add_transaction_bad_amount (today : date) (raw : string) :
  form_get f "amount" = Some raw -> not_a_number raw ->
  add_transaction st (Some name) f today
  = Ok (mkReply st [msg_tr_not_number] (Redirect ep_transactions_view)).
Proof.
  intros Hf Hbad. unfold add_transaction, login_required, add_transaction_view.
  rewrite (form_item_get _ _ Hf). cbn [bind].
  rewrite (proj1 Hbad). reflexivity.
Qed.

Lemma save_budget_bad_amount (cat raw : string) :
  form_get f "category" = Some cat ->
  form_get f "amount" = Some raw -> not_a_number raw ->
  save_budget_route st (Some name) f
  = Ok (mkReply st [msg_budget_not_number] (Redirect ep_budget)).
Proof.
  intros Hc Hf Hbad. unfold save_budget_route, login_required, save_budget_view.
  rewrite (form_item_get _ _ Hc), (form_item_get _ _ Hf). cbn [bind].
  rewrite (proj1 Hbad). reflexivity.
Qed.

Lemma update_budget_bad_amount (old cat raw : string) :
  form_get f "old_category" = Some old ->
  form_get f "category" = Some cat ->
  form_get f "amount" = Some raw -> not_a_number raw ->
  update_budget st (Some name) f
  = Ok (mkReply st [msg_budget_not_number] (Redirect ep_budget)).
Proof.
  intros Ho Hc Hf Hbad. unfold update_budget, login_required, update_budget_view.
  rewrite (form_item_get _ _ Ho), (form_item_get _ _ Hc),
    (form_item_get _ _ Hf). cbn [bind].
  rewrite (proj1 Hbad). reflexivity.
Qed.

Lemma add_savings_bad_number (goal_name raw_target : string) :
  form_get f "name" = Some goal_name ->
  form_get f "target" = Some raw_target ->
  not_a_number raw_target
  \/ not_a_number (match form_get f "current" with
                   | Some raw_current => raw_current
                   | None => "0"
                   end) ->
  add_savings st (Some name) f
  = Ok (mkReply st [msg_goal_not_number] (Redirect ep_savings)).
Proof.
  intros Hn Ht Hbad. unfold add_savings, login_required, add_savings_view.
  rewrite (form_item_get _ _ Hn), (form_item_get _ _ Ht). cbn [bind].
  destruct (parse_number_str raw_target) as [[x Hx]|Hx].
  - destruct Hbad as [[Hb _]|[Hb _]]; [congruence|].
    rewrite Hx. cbn [bind]. rewrite Hb. reflexivity.
  - rewrite Hx. reflexivity.
Qed.

Lemma update_goal_bad_number (u : User) (gid : Z) (raw_target : string) :
  current_user st (Some name) = Some u ->
  form_get f "target" = Some raw_target ->
  not_a_number raw_target
  \/ (exists raw_current,
        form_get f "current" = Some raw_current
        /\ not_a_number raw_current) ->
  exists msg,
    update_goal st (Some name) gid f
    = Ok (mkReply st [msg] (Redirect ep_savings))
    /\ snd msg = "danger"
    /\ (forall g, get_goal st gid = Some g -> g_user_id g = u_id u ->
                  msg = msg_goal_not_number).
Proof.
  intros Hu Ht Hbad.
  unfold update_goal, login_required, update_goal_view.
  destruct (get_goal st gid) as [g|].
  2:{ exists msg_goal_not_found. repeat split. discriminate. }
  rewrite Hu. cbn [user_id bind].
  destruct (Z.eqb_spec (g_user_id g) (u_id u)) as [E|E]; cbn [negb].
  2:{ exists msg_goal_not_found. repeat split.
      intros g' Hg' Hown. inversion Hg'; subst. contradiction. }
  exists msg_goal_not_number.
  split; [|split; [reflexivity | reflexivity]].
  unfold form_get_or. rewrite Ht.
  destruct (parse_number_str raw_target) as [[x Hx]|Hx].
  - destruct Hbad as [[Hb _]|(raw_current & Hc & Hb & _)]; [congruence|].
    rewrite Hx, Hc. cbn [bind]. rewrite Hb. reflexivity.
  - rewrite Hx. reflexivity.
Qed.

End BadNumbers.

(** X25.  In each of [add_transaction], [save_budget], [update_budget]
    and [add_savings], and in [update_goal] when the field [target] is
    present, when the form is submitted by a logged in user with its
    required fields present and [float] rejects the text of a numeric
    field, the reply carries the store unchanged, flashes one message of
    category danger and redirects to the page the form came from.  For
    [update_goal] on a goal of the user the message is the one about
    numbers. *)
Theorem bad_number_writes_nothing (st : store) (name : string) (f : form) :
  (forall today raw,
     form_get f "amount" = Some raw -> not_a_number raw ->
     add_transaction st (Some name) f today
     = Ok (mkReply st [msg_tr_not_number] (Redirect ep_transactions_view)))
  /\ (forall cat raw,
        form_get f "category" = Some cat ->
        form_get f "amount" = Some raw -> not_a_number raw ->
        save_budget_route st (Some name) f
        = Ok (mkReply st [msg_budget_not_number] (Redirect ep_budget)))
  /\ (forall old cat raw,
        form_get f "old_category" = Some old ->
        form_get f "category" = Some cat ->
        form_get f "amount" = Some raw -> not_a_number raw ->
        update_budget st (Some name) f
        = Ok (mkReply st [msg_budget_not_number] (Redirect ep_budget)))
  /\ (forall goal_name raw_target,
        form_get f "name" = Some goal_name ->
        form_get f "target" = Some raw_target ->
        not_a_number raw_target
        \/ not_a_number (match form_get f "current" with
                         | Some raw_current => raw_current
                         | None => "0"
                         end) ->
        add_savings st (Some name) f
        = Ok (mkReply st [msg_goal_not_number] (Redirect ep_savings)))
  /\ (forall u gid raw_target,
        current_user st (Some name) = Some u ->
        form_get f "target" = Some raw_target ->
        not_a_number raw_target
        \/ (exists raw_current,
              form_get f "current" = Some raw_current
              /\ not_a_number raw_current) ->
        exists msg,
          update_goal st (Some name) gid f
          = Ok (mkReply st [msg] (Redirect ep_savings))
          /\ snd msg = "danger"
          /\ (forall g, get_goal st gid = Some g -> g_user_id g = u_id u ->
                        msg = msg_goal_not_number))
  /\ snd msg_tr_not_number = "danger"
  /\ snd msg_budget_not_number = "danger"
  /\ snd msg_goal_not_number = "danger".
Proof.
  split; [intros; eapply add_transaction_bad_amount; eauto|].
  split; [intros; eapply save_budget_bad_amount; eauto|].
  split; [intros; eapply update_budget_bad_amount; eauto|].
  split; [intros; eapply add_savings_bad_number; eauto|].
  split; [intros; eapply update_goal_bad_number; eauto|].
  repeat split.
Qed.

Lemma bad_number_writes_nothing_witness :
  not_a_number "12.5.0" /\ not_a_number "a lot"
  /\ add_transaction scenario_store alice bad_form may17
     = Ok (mkReply scenario_store [msg_tr_not_number]
                   (Redirect ep_transactions_view))
  /\ save_budget_route scenario_store alice bad_form
     = Ok (mkReply scenario_store [msg_budget_not_number] (Redirect ep_budget))
  /\ update_budget scenario_store alice bad_form
     = Ok (mkReply scenario_store [msg_budget_not_number] (Redirect ep_budget))
  /\ add_savings scenario_store alice bad_form
     = Ok (mkReply scenario_store [msg_goal_not_number] (Redirect ep_savings))
  /\ update_goal scenario_store alice 1 bad_form
     = Ok (mkReply scenario_store [msg_goal_not_number] (Redirect ep_savings)).
Proof.
  assert (B1 : not_a_number "12.5.0") by (vm_compute; auto).
  assert (B2 : not_a_number "a lot") by (vm_compute; auto).
  destruct (bad_number_writes_nothing scenario_store "alice" bad_form)
    as (H1 & H2 & H3 & H4 & H5 & _).
  split; [exact B1|]. split; [exact B2|].
  split; [apply (H1 may17 "12.5.0"); [reflexivity | exact B1]|].
  split; [apply (H2 "food" "12.5.0"); [reflexivity | reflexivity | exact B1]|].
  split; [apply (H3 "food" "food" "12.5.0");
          [reflexivity | reflexivity | reflexivity | exact B1]|].
  split; [apply (H4 "car" "5000");
          [reflexivity | reflexivity | right; exact B2]|].
  destruct (current_user scenario_store (Some "alice")) as [u|] eqn:Hu;
    [|vm_compute in Hu; discriminate].
  destruct (H5 u 1 "5000" eq_refl eq_refl) as (msg & Hr & _ & Hm).
  { right. exists "a lot". split; [reflexivity | exact B2]. }
  rewrite <- (Hm (mkGoal 1 1 "car" 5000 100 None)); [exact Hr | reflexivity |].
  vm_compute in Hu. inversion Hu; subst. reflexivity.
Defined.

(** ** Budgets: one row per user and category *)

Section Budgets.

Lemma budget_rows_update (bs : list Budget) (bid : Z)
    (assign : Budget -> Budget) (p : Budget -> bool) :
  (forall b, b_id b = bid -> p (assign b) = p b) ->
  List.length (filter p (update_budget_row bid assign bs))
  = List.length (filter p bs).
Proof.
  intro H. unfold update_budget_row.
  induction bs as [|b bs IH]; simpl; [reflexivity|].
  destruct (Z.eqb_spec (b_id b) bid) as [E|E].
  - rewrite (H b E). destruct (p b); simpl; now rewrite IH.
  - destruct (p b); simpl; now rewrite IH.
Qed.

Lemma update_budget_row_length (bs : list Budget) (bid : Z)
    (assign : Budget -> Budget) :
  List.length (update_budget_row bid assign bs) = List.length bs.
Proof. apply length_map. Qed.

Lemma update_budget_row_ids (bs : list Budget) (bid : Z)
    (assign : Budget -> Budget) :
  (forall b, b_id (assign b) = b_id b) ->
  map b_id (update_budget_row bid assign bs) = map b_id bs.
Proof.
  intro H. unfold update_budget_row. rewrite map_map. apply map_ext.
  intro b. destruct (b_id b =? bid); [apply H | reflexivity].
Qed.

Lemma first_budget_found (st : store) (uid : Z) (cat : string) (b : Budget) :
  first_budget st uid cat = Some b ->
  In b (budgets st) /\ b_user_id b = uid /\ b_category b = cat.
Proof.
  unfold first_budget. intro H. apply find_some in H. destruct H as [Hin Hp].
  apply andb_true_iff in Hp. destruct Hp as [H1 H2].
  apply Z.eqb_eq in H1. apply String.eqb_eq in H2. auto.
Qed.

Lemma first_budget_none (st : store) (uid : Z) (cat : string) :
  first_budget st uid cat = None -> budget_rows st uid cat = [].
Proof.
  unfold first_budget, budget_rows. intro H.
  induction (budgets st) as [|b bs IH]; simpl in *; [reflexivity|].
  destruct (_ && _); [discriminate | now apply IH].
Qed.

(** The reply of [save_budget] to a well-formed form of a known user. *)
Lemma save_budget_reply (st : store) (sess : session) (f : form) (u : User)
    (raw_cat raw_amount : string) (amount : Q) :
  current_user st sess = Some u ->
  form_get f "category" = Some raw_cat ->
  form_get f "amount" = Some raw_amount ->
  parse_number (PStr raw_amount) = Ok amount ->
  save_budget_route st sess f
  = Ok (mkReply
          (mkStore (users st) (transactions st)
             match first_budget st (u_id u) (strip raw_cat) with
             | Some existing =>
                 update_budget_row (b_id existing)
                   (fun b => mkBudget (b_id b) (b_user_id b) (b_category b)
                                      amount)
                   (budgets st)
             | None =>
                 (budgets st
                    ++ [mkBudget (next_id (map b_id (budgets st))) (u_id u)
                                 (strip raw_cat) amount])%list
             end
             (goals st))
          [msg_budget_saved] (Redirect ep_budget)).
Proof.
  intros Hu Hc Ha Hp. destruct (session_present st sess u Hu) as [name ->].
  unfold save_budget_route, login_required, save_budget_view.
  rewrite (form_item_get _ _ _ Hc), (form_item_get _ _ _ Ha). cbn [bind].
  rewrite Hp, Hu. reflexivity.
Qed.

End Budgets.

Section SaveBudget.

Variables (st : store) (sess : session) (u : User).
Hypothesis logged_in : current_user st sess = Some u.

Variables (f : form) (raw_cat raw_amount : string) (amount : Q).
Hypothesis has_category : form_get f "category" = Some raw_cat.
Hypothesis has_amount : form_get f "amount" = Some raw_amount.
Hypothesis amount_parses : parse_number (PStr raw_amount) = Ok amount.

Lemma save_budget_existing (existing : Budget) :
  first_budget st (u_id u) (strip raw_cat) = Some existing ->
  exists st',
    save_budget_route st sess f
    = Ok (mkReply st' [msg_budget_saved] (Redirect ep_budget))
    /\ users st' = users st /\ transactions st' = transactions st
    /\ goals st' = goals st
    /\ budgets st'
       = map (fun b => if b_id b =? b_id existing
                       then mkBudget (b_id b) (b_user_id b) (b_category b)
                                     amount
                       else b)
             (budgets st)
    /\ map b_id (budgets st') = map b_id (budgets st)
    /\ List.length (budgets st') = List.length (budgets st)
    /\ (forall uid cat,
          List.length (budget_rows st' uid cat)
          = List.length (budget_rows st uid cat)).
Proof.
  intro He. eexists. split.
  - rewrite (save_budget_reply st sess f u raw_cat raw_amount amount)
      by assumption.
    rewrite He. reflexivity.
  - cbn [users transactions goals budgets].
    split; [reflexivity|]. split; [reflexivity|]. split; [reflexivity|].
    split; [reflexivity|].
    split; [now apply update_budget_row_ids|].
    split; [apply update_budget_row_length|].
    intros uid cat. unfold budget_rows. cbn [budgets].
    now apply budget_rows_update.
Qed.

Lemma save_budget_new :
  first_budget st (u_id u) (strip raw_cat) = None ->
  exists st' b,
    save_budget_route st sess f
    = Ok (mkReply st' [msg_budget_saved] (Redirect ep_budget))
    /\ users st' = users st
    /\ budgets st' = (budgets st ++ [b])%list
    /\ b_user_id b = u_id u /\ b_category b = strip raw_cat
    /\ b_amount b = amount.
Proof.
  intro Hn. do 2 eexists. split.
  - rewrite (save_budget_reply st sess f u raw_cat raw_amount amount)
      by assumption.
    rewrite Hn. reflexivity.
  - cbn. repeat split.
Qed.

(** After a save there is a row for the category. *)
Lemma save_budget_then_found :
  exists st' b,
    save_budget_route st sess f
    = Ok (mkReply st' [msg_budget_saved] (Redirect ep_budget))
    /\ current_user st' sess = Some u
    /\ first_budget st' (u_id u) (strip raw_cat) = Some b.
Proof.
  destruct (first_budget st (u_id u) (strip raw_cat)) as [e|] eqn:He.
  - destruct (save_budget_existing e He)
      as (st' & Hr & Hus & _ & _ & _ & _ & _ & Hrows).
    assert (Hf : first_budget st' (u_id u) (strip raw_cat) <> None).
    { intro Hnone. apply first_budget_none in Hnone.
      specialize (Hrows (u_id u) (strip raw_cat)). rewrite Hnone in Hrows.
      unfold first_budget, budget_rows in *.
      destruct (filter _ (budgets st)) as [|x l] eqn:Efil; [|discriminate].
      apply find_some in He. destruct He as [Hin Hp].
      assert (Hin' : In e (filter
                 (fun b => (b_user_id b =? u_id u)
                           && String.eqb (b_category b) (strip raw_cat))
                 (budgets st))) by (apply filter_In; auto).
      rewrite Efil in Hin'. exact Hin'. }
    destruct (first_budget st' (u_id u) (strip raw_cat)) as [b|] eqn:Hb;
      [|contradiction].
    exists st', b. split; [exact Hr|]. split; [|exact Hb].
    destruct sess as [[|c s]|]; try discriminate logged_in.
    unfold current_user in *. now rewrite Hus.
  - destruct (save_budget_new He) as (st' & b & Hr & Hus & Hbs & Hbu & Hbc & _).
    assert (Hf : first_budget st' (u_id u) (strip raw_cat) <> None).
    { unfold first_budget. rewrite Hbs. intro Hnone.
      assert (Hin : In b (budgets st ++ [b])%list)
        by (apply in_or_app; right; now left).
      pose proof (find_none _ _ Hnone b Hin) as Hp. cbv beta in Hp.
      rewrite Hbu, Hbc, Z.eqb_refl, String.eqb_refl in Hp. discriminate. }
    destruct (first_budget st' (u_id u) (strip raw_cat)) as [b'|] eqn:Hb;
      [|contradiction].
    exists st', b'. split; [exact Hr|]. split; [|exact Hb].
    destruct sess as [[|c s]|]; try discriminate logged_in.
    unfold current_user in *. now rewrite Hus.
Qed.

End SaveBudget.

Section SaveBudgetInvariant.

Variables (today : date) (st : store) (sess : session) (f : form).

Lemma save_budget_step_cases :
  step today st (SaveBudget sess f) = st
  \/ exists u raw_cat raw_amount amount,
       current_user st sess = Some u
       /\ form_get f "category" = Some raw_cat
       /\ form_get f "amount" = Some raw_amount
       /\ parse_number (PStr raw_amount) = Ok amount.
Proof.
  unfold step, handle, save_budget_route, login_required.
  destruct sess as [name|]; [|now left].
  unfold save_budget_view, form_item.
  change (dict_find f "category") with (form_get f "category").
  change (dict_find f "amount") with (form_get f "amount").
  destruct (form_get f "category") as [raw_cat|]; [|now left].
  cbn [bind].
  destruct (form_get f "amount") as [raw_amount|]; [|now left].
  cbn [bind].
  destruct (parse_number (PStr raw_amount)) as [amount|e] eqn:Hp.
  - cbn [try_except].
    destruct (current_user st (Some name)) as [u|]; [|now left].
    right. exists u, raw_cat, raw_amount, amount. auto.
  - left. cbn [try_except]. destruct (exn_eqb e ValueError); reflexivity.
Qed.

(** [save_budget] keeps the budgets one to one. *)
Lemma save_budget_one_to_one :
  budgets_one_to_one st ->
  budgets_one_to_one (step today st (SaveBudget sess f)).
Proof.
  intro Hinv.
  destruct save_budget_step_cases
    as [->|(u & raw_cat & raw_amount & amount & Hu & Hc & Ha & Hp)];
    [exact Hinv|].
  unfold step, handle.
  destruct (first_budget st (u_id u) (strip raw_cat)) as [e|] eqn:He.
  - destruct (save_budget_existing st sess u Hu f raw_cat raw_amount amount
                Hc Ha Hp e He) as (st' & -> & _ & _ & _ & _ & _ & _ & Hrows).
    cbn [r_store]. intros uid cat. rewrite Hrows. apply Hinv.
  - destruct (save_budget_new st sess u Hu f raw_cat raw_amount amount
                Hc Ha Hp He) as (st' & b & -> & _ & Hbs & Hbu & Hbc & _).
    cbn [r_store]. intros uid cat. unfold budget_rows. rewrite Hbs.
    rewrite filter_app, length_app. cbn [filter].
    destruct ((b_user_id b =? uid) && String.eqb (b_category b) cat) eqn:E.
    + apply andb_true_iff in E. destruct E as [E1 E2].
      apply Z.eqb_eq in E1. apply String.eqb_eq in E2.
      rewrite Hbu in E1. rewrite Hbc in E2. subst uid cat.
      apply first_budget_none in He. unfold budget_rows in He.
      rewrite He. simpl. lia.
    + pose proof (Hinv uid cat) as H. unfold budget_rows in H. simpl. lia.
Qed.

End SaveBudgetInvariant.

(** C6. When a budget row for the user and the category exists,
    [save_budget] sets the amount of the rows with that row's key and
    leaves every other column and row as it was: no row is added, and the
    number of rows of every user and category is unchanged.  In every
    case [save_budget] keeps the budgets at one row per user and category,
    and a second save of the same category leaves the number of rows as
    the first save left it. *)
Theorem save_budget_in_place :
  (forall st sess u f raw_cat raw_amount amount existing,
     current_user st sess = Some u ->
     form_get f "category" = Some raw_cat ->
     form_get f "amount" = Some raw_amount ->
     parse_number (PStr raw_amount) = Ok amount ->
     first_budget st (u_id u) (strip raw_cat) = Some existing ->
     exists st',
       save_budget_route st sess f
       = Ok (mkReply st' [msg_budget_saved] (Redirect ep_budget))
       /\ users st' = users st /\ transactions st' = transactions st
       /\ goals st' = goals st
       /\ budgets st'
          = map (fun b => if b_id b =? b_id existing
                          then mkBudget (b_id b) (b_user_id b) (b_category b)
                                        amount
                          else b)
                (budgets st)
       /\ map b_id (budgets st') = map b_id (budgets st)
       /\ List.length (budgets st') = List.length (budgets st)
       /\ (forall uid cat,
             List.length (budget_rows st' uid cat)
             = List.length (budget_rows st uid cat)))
  /\ (forall today st sess f,
        budgets_one_to_one st ->
        budgets_one_to_one (step today st (SaveBudget sess f)))
  /\ (forall st sess u f1 f2 raw_cat raw1 raw2 amount1 amount2,
        current_user st sess = Some u ->
        form_get f1 "category" = Some raw_cat ->
        form_get f1 "amount" = Some raw1 ->
        parse_number (PStr raw1) = Ok amount1 ->
        form_get f2 "category" = Some raw_cat ->
        form_get f2 "amount" = Some raw2 ->
        parse_number (PStr raw2) = Ok amount2 ->
        exists st1 st2,
          save_budget_route st sess f1
          = Ok (mkReply st1 [msg_budget_saved] (Redirect ep_budget))
          /\ save_budget_route st1 sess f2
             = Ok (mkReply st2 [msg_budget_saved] (Redirect ep_budget))
          /\ List.length (budgets st2) = List.length (budgets st1)).
Proof.
  split; [|split].
  - intros. eapply save_budget_existing; eauto.
  - intros. now apply save_budget_one_to_one.
  - intros st sess u f1 f2 raw_cat raw1 raw2 amount1 amount2
           Hu Hc1 Ha1 Hp1 Hc2 Ha2 Hp2.
    destruct (save_budget_then_found st sess u Hu f1 raw_cat raw1 amount1
                Hc1 Ha1 Hp1) as (st1 & b & Hr1 & Hu1 & Hb).
    destruct (save_budget_existing st1 sess u Hu1 f2 raw_cat raw2 amount2
                Hc2 Ha2 Hp2 b Hb) as (st2 & Hr2 & _ & _ & _ & _ & _ & Hl & _).
    exists st1, st2. auto.
Qed.

Lemma save_budget_in_place_witness :
  exists u existing st',
    current_user two_budgets_store alice = Some u
    /\ first_budget two_budgets_store (u_id u) (strip " food ") = Some existing
    /\ parse_number (PStr "300,50") = Ok (601 # 2)
    /\ save_budget_route two_budgets_store alice food_again_form
       = Ok (mkReply st' [msg_budget_saved] (Redirect ep_budget))
    /\ map b_id (budgets st') = map b_id (budgets two_budgets_store)
    /\ List.length (budgets st') = List.length (budgets two_budgets_store).
Proof.
  destruct (current_user two_budgets_store alice) as [u|] eqn:Hu;
    [|vm_compute in Hu; discriminate].
  assert (Hid : u_id u = 1)
    by (vm_compute in Hu; inversion Hu; subst; reflexivity).
  destruct (first_budget two_budgets_store (u_id u) (strip " food "))
    as [existing|] eqn:He; [|rewrite Hid in He; vm_compute in He; discriminate].
  assert (Hp : parse_number (PStr "300,50") = Ok (601 # 2))
    by (vm_compute; reflexivity).
  destruct (proj1 save_budget_in_place two_budgets_store alice u
              food_again_form " food " "300,50" (601 # 2) existing
              Hu eq_refl eq_refl Hp He)
    as (st' & Hr & _ & _ & _ & _ & Hids & Hlen & _).
  exists u, existing, st'. auto 10.
Defined.

(** ** Reachable stores *)

Lemma reachable_run (today : date) (rs : list request) :
  forall st, reachable st -> reachable (run today st rs).
Proof.
  induction rs as [|r rs IH]; simpl; intros st H; [exact H|].
  apply IH. now constructor.
Qed.

Lemma scenario_store_reachable : reachable scenario_store.
Proof. apply reachable_run. constructor. Qed.

Lemma two_budgets_store_reachable : reachable two_budgets_store.
Proof. apply reachable_run. constructor. Qed.

Lemma transfer_store_reachable : reachable transfer_store.
Proof. apply reachable_run. constructor. Qed.

(** ** A row that is neither an income nor an expense *)

Section DailyTransfer.

Local Open Scope Q_scope.

(** C3.  The claim fails on a store that the handlers reach:
    [add_transaction] stores the type of the form unchecked, and for a
    row of type transfer of 30 on 2024-05-01 the daily series shows -30 on
    that date, where the signed net of the claim (income added, expense
    subtracted) is 0.  Line 186 subtracts every row that is not an
    income, while lines 174 and 179 of the same function count as
    expenses the rows of type expense only: the page shows expenses 0 and
    balance 0 next to the daily value -30. *)
Theorem daily_net_transfer_row :
  reachable transfer_store
  /\ current_user transfer_store alice
     = Some (mkUser 1 "" "alice" "pbkdf2$1" "UAH" "2024-05-17")
  /\ period_transactions transfer_store 1 2024 5 = [transfer_row]
  /\ ~ valid_kind transfer_row
  /\ exists ctx,
       dashboard transfer_store alice [] may17
       = Ok (mkReply transfer_store [] (RenderDashboard ctx))
       /\ c_selected_year ctx = 2024%Z /\ c_selected_month ctx = 5%Z
       /\ c_daily_labels ctx = ["2024-05-01"%string]
       /\ Forall2 Qeq (c_daily_values ctx) [- (30)]
       /\ spec_daily_net (period_transactions transfer_store 1 2024 5)
                         "2024-05-01" == 0
       /\ ~ Forall2 Qeq (c_daily_values ctx)
             (map (fun d =>
                     round2 (spec_daily_net
                               (period_transactions transfer_store 1 2024 5)
                               d))
                  (c_daily_labels ctx))
       /\ c_income ctx == 0 /\ c_expenses ctx == 0 /\ c_balance ctx == 0.
Proof.
  split; [exact transfer_store_reachable|].
  split; [vm_compute; reflexivity|].
  split; [vm_compute; reflexivity|].
  split; [intros [H|H]; discriminate H|].
  eexists. split; [vm_compute; reflexivity|].
  cbn [c_selected_year c_selected_month c_daily_labels c_daily_values
       c_income c_expenses c_balance].
  split; [reflexivity|]. split; [reflexivity|]. split; [reflexivity|].
  split; [repeat constructor|].
  split; [vm_compute; reflexivity|].
  split.
  { intro H. vm_compute in H. inversion H as [|? ? ? ? Hq _]; subst.
    vm_compute in Hq. discriminate Hq. }
  repeat split; vm_compute; reflexivity.
Qed.

End DailyTransfer.

(** C9. There is a reachable store, with one budget row per user and
    category, in which [update_budget] with a new category that another
    row of the same user already has succeeds and leaves two rows with the
    same user and category: [update_budget] does not keep the budgets one
    to one. *)
Theorem update_budget_duplicates_category :
  exists st sess f st',
    reachable st
    /\ budgets_one_to_one st
    /\ update_budget st sess f
       = Ok (mkReply st' [msg_cat_updated] (Redirect ep_budget))
    /\ reachable st'
    /\ (exists u old_row other_row new_category,
          current_user st sess = Some u
          /\ form_get f "category" = Some new_category
          /\ In old_row (budgets st) /\ In other_row (budgets st)
          /\ b_id old_row <> b_id other_row
          /\ b_user_id other_row = u_id u
          /\ b_category other_row = new_category)
    /\ (exists b1 b2,
          In b1 (budgets st') /\ In b2 (budgets st')
          /\ b_id b1 <> b_id b2
          /\ b_user_id b1 = b_user_id b2
          /\ b_category b1 = b_category b2)
    /\ ~ budgets_one_to_one st'.
Proof.
  exists two_budgets_store, alice, rename_form.
  exists (step may17 two_budgets_store (UpdateBudget alice rename_form)).
  split; [exact two_budgets_store_reachable|].
  split.
  { unfold two_budgets_store, two_budgets_requests. cbn [run].
    do 2 apply save_budget_one_to_one. intros uid cat. vm_compute. lia. }
  split; [vm_compute; reflexivity|].
  split; [constructor; exact two_budgets_store_reachable|].
  split.
  { exists (mkUser 1 "" "alice" "pbkdf2$1" "UAH" "2024-05-17").
    exists (mkBudget 1 1 "food" 250), (mkBudget 2 1 "rent" 800), "rent".
    split; [vm_compute; reflexivity|]. split; [reflexivity|].
    split; [vm_compute; auto|]. split; [vm_compute; auto|].
    repeat split. discriminate. }
  split.
  { exists (mkBudget 1 1 "rent" 100), (mkBudget 2 1 "rent" 800).
    split; [vm_compute; auto|]. split; [vm_compute; auto|].
    repeat split. discriminate. }
  intro H. specialize (H 1 "rent"). vm_compute in H. lia.
Qed.

(** ** [update_goal] without its numeric fields *)

Section UpdateGoalDefaults.

Variables (st : store) (sess : session) (u : User) (gid : Z) (g : Goal).
Hypothesis logged_in : current_user st sess = Some u.
Hypothesis found : get_goal st gid = Some g.
Hypothesis owned : g_user_id g = u_id u.

(** A float that is not zero has no [strip]. *)
Lemma parse_number_float (x : Q) :
  ~ (x == 0)%Q -> parse_number (PFloat x) = Raise AttributeError.
Proof.
  intro H. unfold parse_number, py_or, truthy.
  destruct (Qeq_bool x 0) eqn:E; [apply Qeq_bool_iff in E; contradiction|].
  reflexivity.
Qed.

(** Zero is falsy, so the empty string is parsed instead. *)
Lemma parse_number_zero (x : Q) :
  (x == 0)%Q -> parse_number (PFloat x) = Raise ValueError.
Proof.
  intro H. unfold parse_number, py_or, truthy.
  rewrite (proj2 (Qeq_bool_iff x 0) H). reflexivity.
Qed.

Lemma update_goal_target_absent (f : form) :
  form_get f "target" = None -> ~ (g_target g == 0)%Q ->
  update_goal st sess gid f = Raise AttributeError.
Proof.
  intros Hf Hne. destruct (session_present st sess u logged_in) as [name ->].
  unfold update_goal, login_required, update_goal_view.
  rewrite found, logged_in. cbn [user_id bind].
  rewrite owned, Z.eqb_refl. cbn [negb].
  unfold form_get_or. rewrite Hf, (parse_number_float _ Hne). reflexivity.
Qed.

Lemma update_goal_current_absent (f : form) (raw : string) (target : Q) :
  form_get f "target" = Some raw -> parse_number (PStr raw) = Ok target ->
  form_get f "current" = None -> ~ (g_current g == 0)%Q ->
  update_goal st sess gid f = Raise AttributeError.
Proof.
  intros Ht Hp Hc Hne.
  destruct (session_present st sess u logged_in) as [name ->].
  unfold update_goal, login_required, update_goal_view.
  rewrite found, logged_in. cbn [user_id bind].
  rewrite owned, Z.eqb_refl. cbn [negb].
  unfold form_get_or. rewrite Ht, Hc, Hp. cbn [bind].
  rewrite (parse_number_float _ Hne). reflexivity.
Qed.

(** When the stored value is zero the absent field is a [ValueError],
    which is caught. *)
Lemma update_goal_target_absent_zero (f : form) :
  form_get f "target" = None -> (g_target g == 0)%Q ->
  update_goal st sess gid f
  = Ok (mkReply st [msg_goal_not_number] (Redirect ep_savings)).
Proof.
  intros Hf Hz. destruct (session_present st sess u logged_in) as [name ->].
  unfold update_goal, login_required, update_goal_view.
  rewrite found, logged_in. cbn [user_id bind].
  rewrite owned, Z.eqb_refl. cbn [negb].
  unfold form_get_or. rewrite Hf, (parse_number_zero _ Hz). reflexivity.
Qed.

End UpdateGoalDefaults.

(** C10. There is a request by the owner of a goal, with the field
    [target] absent (and another with [current] absent), on which
    [update_goal] raises [AttributeError], which no handler catches: the
    stored float is given to [parse_number], which calls [strip] on it.
    Nothing is written. *)
Theorem update_goal_absent_field_raises :
  exists st sess gid u g,
    reachable st
    /\ current_user st sess = Some u
    /\ get_goal st gid = Some g /\ g_user_id g = u_id u
    /\ (exists f,
          form_get f "target" = None
          /\ parse_number (form_get_or f "target" (g_target g))
             = Raise AttributeError
          /\ update_goal st sess gid f = Raise AttributeError
          /\ step may17 st (UpdateGoal sess gid f) = st)
    /\ (exists f,
          form_get f "target" = Some "6000"
          /\ form_get f "current" = None
          /\ parse_number (form_get_or f "current" (g_current g))
             = Raise AttributeError
          /\ update_goal st sess gid f = Raise AttributeError
          /\ step may17 st (UpdateGoal sess gid f) = st)
    /\ exn_eqb AttributeError ValueError = false.
Proof.
  exists scenario_store, alice, 1.
  exists (mkUser 1 "" "alice" "pbkdf2$1" "UAH" "2024-05-17").
  exists (mkGoal 1 1 "car" 5000 100 None).
  split; [exact scenario_store_reachable|].
  split; [vm_compute; reflexivity|].
  split; [vm_compute; reflexivity|].
  split; [reflexivity|].
  split.
  { exists [("name", "car"); ("current", "150")].
    repeat split; vm_compute; reflexivity. }
  split; [|reflexivity].
  exists [("name", "car"); ("target", "6000")].
  repeat split; vm_compute; reflexivity.
Qed.

(** C7.  The claim fails for [update_goal]: on the scenario store the
    owner of goal 1 (target 5000) submits the form with [current] set to
    a text that is no number and without the field [target].  The stored
    target, a float, is given to [parse_number] before [current] is read;
    [strip] on it raises [AttributeError], which the handler for
    [ValueError] does not catch: no warning is flashed and there is no
    redirect.  With [target] present the same text is caught, flashed and
    redirected, as the claim says. *)
Theorem update_goal_bad_current_uncaught :
  reachable scenario_store
  /\ current_user scenario_store alice
     = Some (mkUser 1 "" "alice" "pbkdf2$1" "UAH" "2024-05-17")
  /\ get_goal scenario_store 1 = Some (mkGoal 1 1 "car" 5000 100 None)
  /\ not_a_number "a lot"
  /\ form_get [("current", "a lot")] "target" = None
  /\ update_goal scenario_store alice 1 [("current", "a lot")]
     = Raise AttributeError
  /\ exn_eqb AttributeError ValueError = false
  /\ update_goal scenario_store alice 1
       [("target", "5000"); ("current", "a lot")]
     = Ok (mkReply scenario_store [msg_goal_not_number] (Redirect ep_savings)).
Proof.
  split; [exact scenario_store_reachable|].
  split; [vm_compute; reflexivity|].
  split; [vm_compute; reflexivity|].
  split; [vm_compute; auto|].
  split; [reflexivity|].
  split; [vm_compute; reflexivity|].
  split; [reflexivity|].
  vm_compute. reflexivity.
Qed.

(** ** Primary keys *)

Section Keys.

Lemma next_id_above (ids : list Z) (i : Z) : In i ids -> i < next_id ids.
Proof.
  unfold next_id. induction ids as [|j ids IH]; cbn [In fold_right]; [tauto|].
  intros [->|H]; [lia|]. apply IH in H. lia.
Qed.

Lemma next_id_fresh (ids : list Z) : ~ In (next_id ids) ids.
Proof. intro H. apply next_id_above in H. lia. Qed.

Lemma nodup_snoc (ids : list Z) (i : Z) :
  NoDup ids -> ~ In i ids -> NoDup (ids ++ [i]).
Proof.
  intros Hnd Hi. apply NoDup_app; [exact Hnd | repeat constructor; tauto |].
  intros x Hx [<-|[]]. contradiction.
Qed.

Lemma nodup_map_filter (A : Type) (key : A -> Z) (p : A -> bool) (l : list A) :
  NoDup (map key l) -> NoDup (map key (filter p l)).
Proof.
  induction l as [|x l IH]; simpl; intro H; [constructor|].
  inversion H as [|? ? Hnotin Hnd]; subst.
  destruct (p x); simpl; [|now apply IH].
  constructor; [|now apply IH].
  intro Hin. apply Hnotin. apply in_map_iff in Hin.
  destruct Hin as [y [Hy Hin]]. apply filter_In in Hin.
  rewrite <- Hy. apply in_map. tauto.
Qed.

Lemma update_goal_row_ids (gs : list Goal) (gid : Z) (assign : Goal -> Goal) :
  (forall g, g_id (assign g) = g_id g) ->
  map g_id (update_goal_row gid assign gs) = map g_id gs.
Proof.
  intro H. unfold update_goal_row. rewrite map_map. apply map_ext.
  intro g. destruct (g_id g =? gid); [apply H | reflexivity].
Qed.

Lemma find_by_key (A : Type) (key : A -> Z) (l : list A) (x : A) :
  NoDup (map key l) -> In x l ->
  find (fun y => key y =? key x) l = Some x.
Proof.
  induction l as [|y l IH]; simpl; intros Hnd Hin; [tauto|].
  inversion Hnd as [|? ? Hnotin Hnd']; subst.
  destruct Hin as [->|Hin].
  - now rewrite Z.eqb_refl.
  - destruct (Z.eqb_spec (key y) (key x)) as [E|E]; [|now apply IH].
    exfalso. apply Hnotin. rewrite E. now apply in_map.
Qed.

Ltac case_split :=
  match goal with
  | |- context [match ?x with _ => _ end] =>
      lazymatch x with
      | context [match _ with _ => _ end] => fail
      | _ => destruct x
      end
  end.

Ltac handler_cases :=
  repeat first
    [ progress cbn [r_store users transactions budgets goals]
    | case_split ].

Lemma step_keys_unique (today : date) (st : store) (r : request) :
  keys_unique st -> keys_unique (step today st r).
Proof.
  intros (Hu & Ht & Hb & Hg).
  assert (Hst : keys_unique st) by (repeat split; assumption).
  unfold step, handle.
  destruct r; cbv beta zeta delta
    [bind try_except login_required reply_with user_id form_item
     register add_transaction add_transaction_view delete_transaction
     delete_transaction_view save_budget_route save_budget_view update_budget
     update_budget_view delete_budget delete_budget_view add_savings
     add_savings_view update_goal update_goal_view delete_goal
     delete_goal_view];
    handler_cases; try exact Hst;
    unfold keys_unique; cbn [users transactions budgets goals];
    repeat split; try assumption;
    try (apply nodup_snoc; [assumption | rewrite ?map_app; apply next_id_fresh]);
    try (rewrite map_app; apply nodup_snoc; [assumption | apply next_id_fresh]);
    try (apply nodup_map_filter; assumption);
    try (rewrite update_budget_row_ids by reflexivity; assumption);
    try (rewrite update_goal_row_ids by reflexivity; assumption).
Qed.

Lemma reachable_keys_unique (st : store) : reachable st -> keys_unique st.
Proof.
  induction 1 as [|today st r _ IH].
  - repeat split; constructor.
  - now apply step_keys_unique.
Qed.

End Keys.

(** ** Rows of other users *)

(** X24.  In a store with primary keys, when user A invokes
    [delete_transaction], [update_goal] or [delete_goal] with the id of a
    row that another user owns, the reply carries the store it was given,
    so every row, that one included, is as before, and it redirects to the
    list page.  [update_goal] and [delete_goal] flash one failure
    message. *)
Theorem foreign_rows_untouched (st : store) (sess : session) (a : User) :
  keys_unique st ->
  current_user st sess = Some a ->
  (forall tr,
     In tr (transactions st) -> t_user_id tr <> u_id a ->
     exists rp,
       delete_transaction st sess (t_id tr) = Ok rp
       /\ r_store rp = st
       /\ get_transaction (r_store rp) (t_id tr) = Some tr
       /\ r_page rp = Redirect ep_transactions_view)
  /\ (forall g f,
        In g (goals st) -> g_user_id g <> u_id a ->
        update_goal st sess (g_id g) f
        = Ok (mkReply st [msg_goal_not_found] (Redirect ep_savings))
        /\ get_goal st (g_id g) = Some g)
  /\ (forall g,
        In g (goals st) -> g_user_id g <> u_id a ->
        delete_goal st sess (g_id g)
        = Ok (mkReply st [msg_goal_not_deleted] (Redirect ep_savings)))
  /\ snd msg_goal_not_found = "danger"
  /\ snd msg_goal_not_deleted = "danger".
Proof.
  intros (_ & Ht & _ & Hg) Hu. split; [|split; [|split]].
  - intros tr Hin Hne.
    assert (Hget : get_transaction st (t_id tr) = Some tr)
      by (unfold get_transaction; now apply find_by_key).
    eexists. split.
    + now apply (delete_transaction_foreign st sess a Hu _ tr).
    + cbn [r_store r_page]. auto.
  - intros g f Hin Hne.
    assert (Hget : get_goal st (g_id g) = Some g)
      by (unfold get_goal; now apply find_by_key).
    split; [|exact Hget].
    now apply (update_goal_foreign st sess a Hu _ g).
  - intros g Hin Hne. apply (delete_goal_foreign st sess a Hu _ g).
    + unfold get_goal. now apply find_by_key.
    + exact Hne.
  - split; reflexivity.
Qed.

Lemma foreign_rows_untouched_witness :
  exists a tr g rp,
    keys_unique two_users_store
    /\ current_user two_users_store alice = Some a
    /\ In tr (transactions two_users_store) /\ t_user_id tr <> u_id a
    /\ In g (goals two_users_store) /\ g_user_id g <> u_id a
    /\ delete_transaction two_users_store alice (t_id tr) = Ok rp
    /\ r_store rp = two_users_store
    /\ update_goal two_users_store alice (g_id g) [("current", "0")]
       = Ok (mkReply two_users_store [msg_goal_not_found]
                     (Redirect ep_savings))
    /\ delete_goal two_users_store alice (g_id g)
       = Ok (mkReply two_users_store [msg_goal_not_deleted]
                     (Redirect ep_savings)).
Proof.
  pose (a := mkUser 1 "" "alice" "pbkdf2$1" "UAH" "2024-05-17").
  pose (tr := mkTransaction 1 2 "expense" (Some "food") (25 # 2) (Some "Cash")
                "2024-05-02" (Some "")).
  pose (g := mkGoal 1 2 "bike" 900 40 None).
  assert (Hk : keys_unique two_users_store).
  { vm_compute. repeat split; repeat constructor; simpl; intuition discriminate. }
  assert (Ha : current_user two_users_store alice = Some a)
    by (vm_compute; reflexivity).
  assert (Ht : In tr (transactions two_users_store))
    by (vm_compute; left; reflexivity).
  assert (Hg : In g (goals two_users_store))
    by (vm_compute; left; reflexivity).
  assert (Hnt : t_user_id tr <> u_id a) by (simpl; lia).
  assert (Hng : g_user_id g <> u_id a) by (simpl; lia).
  destruct (foreign_rows_untouched two_users_store alice a Hk Ha)
    as (H1 & H2 & H3 & _).
  destruct (H1 tr Ht Hnt) as (rp & Hr & Hs & _).
  exists a, tr, g, rp.
  split; [exact Hk|]. split; [exact Ha|]. split; [exact Ht|].
  split; [exact Hnt|]. split; [exact Hg|]. split; [exact Hng|].
  split; [exact Hr|]. split; [exact Hs|].
  split; [exact (proj1 (H2 g _ Hg Hng)) | exact (H3 g Hg Hng)].
Defined.

(** C5.  The claim fails on its last part, the failure message: alice's
    [delete_transaction] on bob's transaction 1 leaves the store alone, as
    claimed, but flashes nothing, so there is no failure message for the
    user to see.  Lines 294-298 have no [else] branch; [delete_goal]
    (line 471) and [delete_budget] (line 385) flash a failure in theirs. *)
Theorem delete_transaction_foreign_silent :
  exists a tr rp,
    current_user two_users_store alice = Some a
    /\ get_transaction two_users_store 1 = Some tr
    /\ u_id a = 1 /\ t_user_id tr = 2
    /\ delete_transaction two_users_store alice 1 = Ok rp
    /\ r_store rp = two_users_store
    /\ ~ (exists msg, In msg (r_flashes rp)).
Proof.
  do 3 eexists. split; [vm_compute; reflexivity|].
  split; [vm_compute; reflexivity|].
  split; [reflexivity|]. split; [reflexivity|].
  split; [vm_compute; reflexivity|]. split; [reflexivity|].
  intros [msg []].
Qed.

(** ** The scenario in binary64 *)

(** With the rounding of double precision arithmetic the scenario's health
    score is exactly 67 as well. *)
Lemma scenario_health_binary64 :
  Binary64.scenario_health = Binary64.sixty_seven.
Proof. vm_compute. reflexivity. Qed.

(** With an income and savings of [inf] (the form field [1e400]) the
    income is positive and the health score is [nan]: neither at least 0
    nor at most 100. *)
Lemma health_score_nan_binary64 :
  PrimFloat.ltb Binary64.zero PrimFloat.infinity = true
  /\ PrimFloat.is_nan Binary64.overflow_health = true
  /\ PrimFloat.leb Binary64.zero Binary64.overflow_health = false
  /\ PrimFloat.leb Binary64.overflow_health Binary64.hundred = false.
Proof. vm_compute. repeat split. Qed.

(** * Further properties *)

(** ** [parse_number] *)

Section ParseNumber.

Lemma is_space_replace (c : ascii) :
  is_space (if Ascii.eqb c "," then "."%char else c) = is_space c.
Proof.
  destruct (Ascii.eqb_spec c ","%char) as [->|_]; reflexivity.
Qed.

Lemma lstrip_replace_comma (s : string) :
  lstrip (replace_comma s) = replace_comma (lstrip s).
Proof.
  induction s as [|c s IH]; simpl; [reflexivity|].
  rewrite is_space_replace. destruct (is_space c); [exact IH | reflexivity].
Qed.

Lemma rstrip_replace_comma (s : string) :
  rstrip (replace_comma s) = replace_comma (rstrip s).
Proof.
  induction s as [|c s IH]; simpl; [reflexivity|].
  rewrite IH, is_space_replace.
  destruct (rstrip s) as [|c' r]; simpl; [|reflexivity].
  destruct (is_space c); reflexivity.
Qed.

Lemma strip_replace_comma (s : string) :
  strip (replace_comma s) = replace_comma (strip s).
Proof.
  unfold strip. now rewrite lstrip_replace_comma, rstrip_replace_comma.
Qed.

Lemma replace_comma_idem (s : string) :
  replace_comma (replace_comma s) = replace_comma s.
Proof.
  induction s as [|c s IH]; simpl; [reflexivity|]. rewrite IH. f_equal.
  destruct (Ascii.eqb c ",") eqn:E; [reflexivity | now rewrite E].
Qed.

(** On a string [parse_number] is [float] of the stripped text with commas
    turned into dots. *)
Lemma parse_number_text (s : string) :
  parse_number (PStr s) = py_float (replace_comma (strip s)).
Proof.
  unfold parse_number, py_or, truthy.
  destruct (String.eqb_spec s "") as [->|_]; reflexivity.
Qed.

Lemma lstrip_all_space (s : string) : all_space s = true -> lstrip s = "".
Proof.
  induction s as [|c s IH]; simpl; [reflexivity|].
  intro H. apply andb_true_iff in H. destruct H as [Hc Hs].
  rewrite Hc. now apply IH.
Qed.

Lemma rstrip_all_space (s : string) : all_space s = true -> rstrip s = "".
Proof.
  induction s as [|c s IH]; simpl; [reflexivity|].
  intro H. apply andb_true_iff in H. destruct H as [Hc Hs].
  rewrite (IH Hs), Hc. reflexivity.
Qed.

Lemma lstrip_app_space (pre s : string) :
  all_space pre = true -> lstrip (pre ++ s) = lstrip s.
Proof.
  induction pre as [|c pre IH]; simpl; [reflexivity|].
  intro H. apply andb_true_iff in H. destruct H as [Hc Hs].
  rewrite Hc. now apply IH.
Qed.

Lemma rstrip_app_space (s post : string) :
  all_space post = true -> rstrip (s ++ post) = rstrip s.
Proof.
  intro H. induction s as [|c s IH]; simpl.
  - now apply rstrip_all_space.
  - now rewrite IH.
Qed.

Lemma lstrip_app (s post : string) :
  lstrip s <> "" -> lstrip (s ++ post) = lstrip s ++ post.
Proof.
  induction s as [|c s IH]; simpl; [congruence|].
  destruct (is_space c); [exact IH | reflexivity].
Qed.

Lemma lstrip_empty_space (s : string) : lstrip s = "" -> all_space s = true.
Proof.
  induction s as [|c s IH]; simpl; [reflexivity|].
  destruct (is_space c); [exact IH | discriminate].
Qed.

Lemma all_space_app (a b : string) :
  all_space a = true -> all_space b = true -> all_space (a ++ b) = true.
Proof.
  induction a as [|c a IH]; simpl; [auto|].
  intros H Hb. apply andb_true_iff in H. destruct H as [Hc Ha].
  rewrite Hc. now apply IH.
Qed.

Lemma strip_surrounded (pre s post : string) :
  all_space pre = true -> all_space post = true ->
  strip (pre ++ s ++ post) = strip s.
Proof.
  intros Hpre Hpost. unfold strip. rewrite (lstrip_app_space _ _ Hpre).
  destruct (lstrip s) as [|c t] eqn:E.
  - apply lstrip_empty_space in E.
    rewrite (lstrip_all_space (s ++ post)) by now apply all_space_app.
    reflexivity.
  - rewrite lstrip_app by congruence. rewrite E.
    now apply rstrip_app_space.
Qed.

End ParseNumber.

(** X1.  [parse_number] reads a decimal comma as a decimal point: turning
    the commas of a field into dots does not change its result. *)
Theorem parse_number_comma_is_dot (s : string) :
  parse_number (PStr (replace_comma s)) = parse_number (PStr s).
Proof.
  rewrite !parse_number_text, strip_replace_comma, replace_comma_idem.
  reflexivity.
Qed.

(** X2.  [parse_number] ignores white space around the text of a field,
    and a field of white space only (the empty one included) raises
    [ValueError]. *)
Theorem parse_number_white_space (pre s post : string) :
  all_space pre = true -> all_space post = true ->
  parse_number (PStr (pre ++ s ++ post)) = parse_number (PStr s)
  /\ parse_number (PStr pre) = Raise ValueError.
Proof.
  intros Hpre Hpost. split.
  - rewrite !parse_number_text. now rewrite strip_surrounded.
  - rewrite parse_number_text. unfold strip.
    rewrite (lstrip_all_space _ Hpre). reflexivity.
Qed.

Lemma parse_number_white_space_witness :
  parse_number (PStr (" " ++ "12,5" ++ "  ")) = Ok (25 # 2)
  /\ parse_number (PStr " ") = Raise ValueError.
Proof.
  destruct (parse_number_white_space " " "12,5" "  " eq_refl eq_refl)
    as [H1 H2].
  split; [rewrite H1; vm_compute; reflexivity | exact H2].
Defined.

(** ** The category breakdown and the daily series, row by row *)

Section Totals.

Local Open Scope Q_scope.

Lemma exp_by_cat_of_nodup (trs : list Transaction) :
  NoDup (dict_keys (exp_by_cat_of trs)).
Proof.
  unfold exp_by_cat_of.
  assert (G : forall acc : dict Q, NoDup (dict_keys acc) ->
    NoDup (dict_keys
      (fold_left
         (fun exp_by_cat t =>
            if String.eqb (t_type t) "expense" then
              let c := str_or (t_category t) "Інше" in
              dict_set exp_by_cat c (dict_get exp_by_cat c 0 + t_amount t)
            else exp_by_cat)
         trs acc))).
  { induction trs as [|t trs IH]; simpl; intros acc Hacc; [exact Hacc|].
    apply IH. destruct (String.eqb (t_type t) "expense"); [|exact Hacc].
    now apply dict_keys_set_nodup. }
  apply G. constructor.
Qed.

Lemma exp_by_cat_of_keys (trs : list Transaction) (c : string) :
  In c (dict_keys (exp_by_cat_of trs))
  <-> exists t, In t trs /\ t_type t = "expense"%string
                /\ str_or (t_category t) "Інше" = c.
Proof.
  unfold exp_by_cat_of.
  assert (G : forall acc : dict Q,
    In c (dict_keys
      (fold_left
         (fun exp_by_cat t =>
            if String.eqb (t_type t) "expense" then
              let c := str_or (t_category t) "Інше" in
              dict_set exp_by_cat c (dict_get exp_by_cat c 0 + t_amount t)
            else exp_by_cat)
         trs acc))
    <-> In c (dict_keys acc)
        \/ exists t, In t trs /\ t_type t = "expense"%string
                      /\ str_or (t_category t) "Інше" = c).
  { induction trs as [|t trs IH]; intro acc; simpl.
    - split; [tauto|]. intros [H|(t & [] & _)]. exact H.
    - rewrite IH. destruct (String.eqb_spec (t_type t) "expense") as [E|E].
      + cbv zeta. rewrite dict_keys_set_in. split.
        * intros [[->|H]|(t' & Hin & Ht')]; eauto 7.
        * intros [H|(t' & [->|Hin] & Ht' & Hc)]; eauto 7.
      + split.
        * intros [H|(t' & Hin & Ht')]; eauto 7.
        * intros [H|(t' & [->|Hin] & Ht' & Hc)]; [auto|contradiction|eauto 7]. }
  rewrite G. simpl. split; [intros [[]|H]; exact H | auto].
Qed.

Lemma dict_combine (d : dict Q) : combine (dict_keys d) (dict_values d) = d.
Proof.
  induction d as [|[k v] d IH]; simpl; [reflexivity | now rewrite IH].
Qed.

End Totals.

Section TotalsOfDashboard.

Local Open Scope Q_scope.

(** X3.  In a rendered dashboard the category labels are distinct, there
    is one value per label, the labels are exactly the categories of the
    period's expense rows (the default one for a row without category),
    and the value of a label is what adding the amounts of these rows one
    after the other, in the order of the rows, gives. *)
Theorem category_breakdown_by_rows (st : store) (sess : session)
    (args : form) (today : date) (rp : reply) (ctx : dashboard_ctx) :
  dashboard st sess args today = Ok rp ->
  r_page rp = RenderDashboard ctx ->
  exists u,
    current_user st sess = Some u
    /\ let period_tr :=
         period_transactions st (u_id u)
           (c_selected_year ctx) (c_selected_month ctx) in
       NoDup (c_exp_labels ctx)
       /\ List.length (c_exp_values ctx) = List.length (c_exp_labels ctx)
       /\ (forall c, In c (c_exp_labels ctx) <->
                     exists t, In t period_tr
                               /\ t_type t = "expense"%string
                               /\ str_or (t_category t) "Інше" = c)
       /\ (forall c,
             dict_get (combine (c_exp_labels ctx) (c_exp_values ctx)) c 0
             == fold_left Qplus
                  (map t_amount
                     (filter (fun t =>
                                String.eqb (t_type t) "expense"
                                && String.eqb (str_or (t_category t) "Інше") c)
                             period_tr))
                  0).
Proof.
  intros Hd Hp.
  destruct (dashboard_inv st sess args today rp ctx Hd Hp)
    as (u & Hu & _ & _ & _ & _ & H).
  cbv zeta in H. destruct H as (_ & _ & _ & _ & _ & Hl & Hv & _).
  exists u. split; [exact Hu|]. cbv zeta.
  rewrite Hl, Hv. split; [apply exp_by_cat_of_nodup|].
  split; [unfold dict_values, dict_keys; now rewrite !length_map|].
  split; [intro c; apply exp_by_cat_of_keys|].
  intro c. rewrite dict_combine, exp_by_cat_of_value.
  symmetry. apply py_sum_Qsum.
Qed.

Lemma category_breakdown_by_rows_witness :
  exists ctx,
    rendered (dashboard scenario_store alice [] may17) = Some ctx
    /\ NoDup (c_exp_labels ctx)
    /\ dict_get (combine (c_exp_labels ctx) (c_exp_values ctx)) "food" 0
       == 300.
Proof.
  destruct (dashboard scenario_store alice [] may17) as [rp|e] eqn:Hd;
    [|vm_compute in Hd; discriminate].
  destruct (r_page rp) as [e|ctx] eqn:Hp;
    [vm_compute in Hd; inversion Hd; subst rp; discriminate|].
  destruct (category_breakdown_by_rows scenario_store alice [] may17 rp ctx
              Hd Hp) as (u & Hu & H).
  cbv zeta in H. destruct H as (Hn & _ & _ & Hval).
  exists ctx. cbn [rendered]. rewrite Hp. split; [reflexivity|].
  split; [exact Hn|]. rewrite Hval.
  vm_compute in Hu. inversion Hu; subst u.
  vm_compute in Hd. inversion Hd; subst rp. cbn in Hp.
  inversion Hp; subst ctx. vm_compute. reflexivity.
Defined.

(** X26.  The daily series of a rendered dashboard, as the code computes
    it.  The labels are exactly the distinct dates of the period's
    transactions, in ascending order; the value of a date is the rounding
    to two decimals of what adding the signed amounts of its rows one
    after the other gives, with the amount of an income row counted as it
    is and the amount of every other row negated. *)
Theorem daily_series_by_date (st : store) (sess : session)
    (args : form) (today : date) (rp : reply) (ctx : dashboard_ctx) :
  dashboard st sess args today = Ok rp ->
  r_page rp = RenderDashboard ctx ->
  exists u,
    current_user st sess = Some u
    /\ let period_tr :=
         period_transactions st (u_id u)
           (c_selected_year ctx) (c_selected_month ctx) in
       (forall d, In d (c_daily_labels ctx) <->
                  exists t, In t period_tr /\ t_date t = d)
       /\ StronglySorted str_lt (c_daily_labels ctx)
       /\ c_daily_values ctx
          = map (fun d =>
                   round2
                     (fold_left Qplus
                        (map (fun t =>
                                if String.eqb (t_type t) "income"
                                then t_amount t else - t_amount t)
                             (filter (fun t => String.eqb (t_date t) d)
                                     period_tr))
                        0))
                (c_daily_labels ctx).
Proof.
  intros Hd Hp.
  destruct (dashboard_inv st sess args today rp ctx Hd Hp)
    as (u & Hu & _ & _ & _ & _ & H).
  cbv zeta in H. destruct H as (_ & _ & _ & _ & _ & _ & _ & Hl & Hvals).
  exists u. split; [exact Hu|]. cbv zeta.
  set (period_tr := period_transactions st (u_id u)
                      (c_selected_year ctx) (c_selected_month ctx)) in *.
  split; [|split].
  - intro d. rewrite Hl. unfold daily_labels_of.
    rewrite sorted_in. apply daily_of_keys.
  - rewrite Hl. apply sorted_strict; [apply sorted_sorted|].
    apply sorted_nodup, daily_of_nodup.
  - rewrite Hl, daily_values_of_daily in Hvals. inversion Hvals as [Hv'].
    rewrite Hl. apply map_ext. intro d. apply round2_comp.
    rewrite daily_of_value.
    change (fold_left Qplus ?l 0) with (py_sum l). rewrite py_sum_Qsum.
    apply Qsum_map_ext. intros t _. unfold sign_of.
    destruct (String.eqb (t_type t) "income"); ring.
Qed.

Lemma daily_series_by_date_witness :
  exists ctx,
    rendered (dashboard transfer_store alice [] may17) = Some ctx
    /\ c_daily_labels ctx = ["2024-05-01"%string]
    /\ StronglySorted str_lt (c_daily_labels ctx).
Proof.
  destruct (dashboard transfer_store alice [] may17) as [rp|e] eqn:Hd;
    [|vm_compute in Hd; discriminate].
  destruct (r_page rp) as [e|ctx] eqn:Hp;
    [vm_compute in Hd; inversion Hd; subst rp; discriminate|].
  destruct (daily_series_by_date transfer_store alice [] may17 rp ctx Hd Hp)
    as (u & _ & H).
  cbv zeta in H. destruct H as (_ & Hs & _).
  exists ctx. cbn [rendered]. rewrite Hp. split; [reflexivity|].
  split; [|exact Hs].
  vm_compute in Hd. inversion Hd; subst rp. cbn in Hp.
  inversion Hp; subst ctx. reflexivity.
Defined.

End TotalsOfDashboard.

(** ** What a request can write *)

Section Effects.

Ltac split_match :=
  match goal with
  | |- context [match ?x with _ => _ end] =>
      lazymatch x with
      | context [match _ with _ => _ end] => fail
      | _ => destruct x eqn:?
      end
  end.

Ltac handler_leaves :=
  repeat first
    [ progress cbn [r_store users transactions budgets goals]
    | split_match ].

Ltac unfold_handlers :=
  cbv beta zeta delta
    [step handle bind try_except login_required reply_with user_id form_item
     register add_transaction add_transaction_view delete_transaction
     delete_transaction_view save_budget_route save_budget_view update_budget
     update_budget_view delete_budget delete_budget_view add_savings
     add_savings_view update_goal update_goal_view delete_goal
     delete_goal_view request_session get_transaction get_goal first_budget].

Ltac use_lookups :=
  repeat match goal with
         | H : find _ _ = Some _ |- _ =>
             apply find_some in H; cbv beta in H; destruct H
         | H : (_ && _)%bool = true |- _ =>
             apply andb_true_iff in H; destruct H
         | H : (_ =? _) = true |- _ => apply Z.eqb_eq in H
         | H : negb _ = false |- _ => apply negb_false_iff in H
         | H : String.eqb _ _ = true |- _ => apply String.eqb_eq in H
         end.

Lemma str_or_nonempty (x : option string) (c : ascii) (s : string) :
  exists c' s', str_or x (String c s) = String c' s'.
Proof.
  destruct x as [[|c0 s0]|]; simpl; eauto.
Qed.

Lemma category_nonempty (x y : option string) :
  exists c s, str_or x (str_or y "Інше") = String c s.
Proof.
  destruct x as [[|c0 s0]|]; simpl; eauto;
    destruct y as [[|c1 s1]|]; simpl; eauto.
Qed.

(** The users table only grows, by [register], with a name that was not
    there. *)
Lemma step_users (today : date) (st : store) (r : request) :
  users (step today st r) = users st
  \/ exists f hashed u,
       r = Register f hashed
       /\ users (step today st r) = (users st ++ [u])%list
       /\ u_id u = next_id (map u_id (users st))
       /\ form_get f "username" = Some (u_username u)
       /\ u_password u = hashed
       /\ ~ In (u_username u) (map u_username (users st)).
Proof.
  destruct r; unfold_handlers; handler_leaves; try (left; reflexivity);
    right; do 3 eexists; (split; [reflexivity|]); (split; [reflexivity|]);
    cbn [u_id u_username u_password]; (split; [reflexivity|]);
    (split; [eassumption|]); (split; [reflexivity|]);
    intro Hin; apply in_map_iff in Hin; destruct Hin as [x [Hx Hin]];
    match goal with
    | H : find _ _ = None |- _ =>
        pose proof (find_none _ _ H x Hin) as Hf; cbv beta in Hf
    end;
    rewrite Hx, String.eqb_refl in Hf; discriminate.
Qed.

(** The transactions table changes only by a row added for the user of
    the session, or by the removal of a row of that user. *)
Lemma step_transactions (today : date) (st : store) (r : request) :
  transactions (step today st r) = transactions st
  \/ exists a,
       current_user st (request_session r) = Some a
       /\ ((exists t,
              transactions (step today st r) = (transactions st ++ [t])%list
              /\ t_user_id t = u_id a
              /\ t_id t = next_id (map t_id (transactions st))
              /\ has_category t)
           \/ (exists tr,
                 In tr (transactions st) /\ t_user_id tr = u_id a
                 /\ transactions (step today st r)
                    = filter (fun t => negb (t_id t =? t_id tr))
                             (transactions st))).
Proof.
  destruct r; unfold_handlers; handler_leaves; try (left; reflexivity);
    right; eexists; (split; [reflexivity|]); use_lookups;
    first
      [ left; eexists; split; [reflexivity|];
        cbn [t_user_id t_id t_category]; repeat split;
        match goal with
        | |- has_category _ =>
            unfold has_category; cbn [t_category];
            match goal with
            | |- context [str_or ?x (str_or ?y _)] =>
                destruct (category_nonempty x y) as (c & s' & E);
                rewrite E; eauto
            end
        end
      | right; eexists; split; [eassumption|];
        split; [assumption | reflexivity] ].
Qed.

(** The budgets table changes only by a row added for the user of the
    session, or by an update or the removal of a row of that user. *)
Lemma step_budgets (today : date) (st : store) (r : request) :
  budgets (step today st r) = budgets st
  \/ exists a,
       current_user st (request_session r) = Some a
       /\ ((exists b,
              budgets (step today st r) = (budgets st ++ [b])%list
              /\ b_user_id b = u_id a
              /\ b_id b = next_id (map b_id (budgets st))
              /\ first_budget st (u_id a) (b_category b) = None)
           \/ (exists b assign,
                 In b (budgets st) /\ b_user_id b = u_id a
                 /\ (forall x, b_id (assign x) = b_id x
                               /\ b_user_id (assign x) = b_user_id x)
                 /\ budgets (step today st r)
                    = update_budget_row (b_id b) assign (budgets st))
           \/ (exists b,
                 In b (budgets st) /\ b_user_id b = u_id a
                 /\ budgets (step today st r)
                    = filter (fun b' => negb (b_id b' =? b_id b))
                             (budgets st))).
Proof.
  destruct r; unfold_handlers; handler_leaves; try (left; reflexivity);
    right; eexists; (split; [reflexivity|]);
    first
      [ left; eexists; split; [reflexivity|];
        cbn [b_user_id b_id b_category]; repeat split;
        unfold first_budget; eassumption
      | use_lookups; right; left; do 2 eexists; split; [eassumption|];
        split; [assumption|]; split; [|reflexivity];
        intro x; split; reflexivity
      | use_lookups; right; right; eexists; split; [eassumption|];
        split; [assumption | reflexivity] ].
Qed.

(** The goals table changes only by a row added for the user of the
    session, or by an update or the removal of a row of that user. *)
Lemma step_goals (today : date) (st : store) (r : request) :
  goals (step today st r) = goals st
  \/ exists a,
       current_user st (request_session r) = Some a
       /\ ((exists g,
              goals (step today st r) = (goals st ++ [g])%list
              /\ g_user_id g = u_id a
              /\ g_id g = next_id (map g_id (goals st)))
           \/ (exists g assign,
                 In g (goals st) /\ g_user_id g = u_id a
                 /\ (forall x, g_id (assign x) = g_id x
                               /\ g_user_id (assign x) = g_user_id x)
                 /\ goals (step today st r)
                    = update_goal_row (g_id g) assign (goals st))
           \/ (exists g,
                 In g (goals st) /\ g_user_id g = u_id a
                 /\ goals (step today st r)
                    = filter (fun g' => negb (g_id g' =? g_id g))
                             (goals st))).
Proof.
  destruct r; unfold_handlers; handler_leaves; try (left; reflexivity);
    right; eexists; (split; [reflexivity|]);
    first
      [ left; eexists; split; [reflexivity|];
        cbn [g_user_id g_id]; repeat split
      | use_lookups; right; left; do 2 eexists; split; [eassumption|];
        split; [assumption|]; split; [|reflexivity];
        intro x; split; reflexivity
      | use_lookups; right; right; eexists; split; [eassumption|];
        split; [assumption | reflexivity] ].
Qed.

End Effects.

(** ** Invariants of the reachable stores *)

Section Invariants.

Lemma current_user_in (st : store) (sess : session) (a : User) :
  current_user st sess = Some a ->
  In a (users st) /\ sess = Some (u_username a) /\ u_username a <> "".
Proof.
  unfold current_user. destruct sess as [[|c s]|]; try discriminate.
  intro H. apply find_some in H. destruct H as [Hin Heq].
  apply String.eqb_eq in Heq. rewrite Heq. repeat split; [assumption|].
  discriminate.
Qed.

Lemma step_usernames_unique (today : date) (st : store) (r : request) :
  usernames_unique st -> usernames_unique (step today st r).
Proof.
  unfold usernames_unique. intro H.
  destruct (step_users today st r)
    as [->|(f & hashed & u & _ & -> & _ & _ & _ & Hfresh)]; [exact H|].
  rewrite map_app. now apply NoDup_app;
    [| repeat constructor; intros []
     | intros x Hx [<-|[]]; contradiction ].
Qed.

Lemma owner_exists_step (today : date) (st : store) (r : request) (uid : Z) :
  owner_exists st uid -> owner_exists (step today st r) uid.
Proof.
  unfold owner_exists. intro H.
  destruct (step_users today st r)
    as [->|(f & hashed & u & _ & -> & _)]; [exact H|].
  rewrite map_app. apply in_or_app. now left.
Qed.

Lemma current_user_owner (st : store) (sess : session) (a : User) :
  current_user st sess = Some a -> owner_exists st (u_id a).
Proof.
  intro H. apply current_user_in in H. destruct H as [Hin _].
  unfold owner_exists. now apply in_map.
Qed.

Lemma Forall_update (A : Type) (P : A -> Prop) (p : A -> bool)
    (assign : A -> A) (l : list A) :
  (forall x, P x -> P (assign x)) -> Forall P l ->
  Forall P (map (fun x => if p x then assign x else x) l).
Proof.
  intros Ha H. induction H as [|x l Hx _ IH]; simpl; constructor; [|exact IH].
  destruct (p x); auto.
Qed.

Lemma step_rows_owned (today : date) (st : store) (r : request) :
  rows_owned st -> rows_owned (step today st r).
Proof.
  intros (Ht & Hb & Hg).
  assert (Mono : forall uid, owner_exists st uid ->
                             owner_exists (step today st r) uid)
    by (intro; apply owner_exists_step).
  repeat split.
  - destruct (step_transactions today st r)
      as [->|(a & Ha & [(t & -> & Hu & _)|(tr & _ & _ & ->)])].
    + eapply Forall_impl; [|exact Ht]. intros x; apply Mono.
    + apply Forall_app. split; [eapply Forall_impl; [|exact Ht]; intros x; apply Mono|].
      repeat constructor. rewrite Hu. apply Mono.
      now apply (current_user_owner st (request_session r)).
    + apply filter_Forall. eapply Forall_impl; [|exact Ht]. intros x; apply Mono.
  - destruct (step_budgets today st r)
      as [->|(a & Ha & [(b & -> & Hu & _)|[(b & assign & _ & _ & Has & ->)
                                           |(b & _ & _ & ->)]])].
    + eapply Forall_impl; [|exact Hb]. intros x; apply Mono.
    + apply Forall_app. split; [eapply Forall_impl; [|exact Hb]; intros x; apply Mono|].
      repeat constructor. rewrite Hu. apply Mono.
      now apply (current_user_owner st (request_session r)).
    + unfold update_budget_row. apply Forall_update.
      * intros x Hx. now rewrite (proj2 (Has x)).
      * eapply Forall_impl; [|exact Hb]. intros x; apply Mono.
    + apply filter_Forall. eapply Forall_impl; [|exact Hb]. intros x; apply Mono.
  - destruct (step_goals today st r)
      as [->|(a & Ha & [(g & -> & Hu & _)|[(g & assign & _ & _ & Has & ->)
                                           |(g & _ & _ & ->)]])].
    + eapply Forall_impl; [|exact Hg]. intros x; apply Mono.
    + apply Forall_app. split; [eapply Forall_impl; [|exact Hg]; intros x; apply Mono|].
      repeat constructor. rewrite Hu. apply Mono.
      now apply (current_user_owner st (request_session r)).
    + unfold update_goal_row. apply Forall_update.
      * intros x Hx. now rewrite (proj2 (Has x)).
      * eapply Forall_impl; [|exact Hg]. intros x; apply Mono.
    + apply filter_Forall. eapply Forall_impl; [|exact Hg]. intros x; apply Mono.
Qed.

Lemma step_has_category (today : date) (st : store) (r : request) :
  Forall has_category (transactions st) ->
  Forall has_category (transactions (step today st r)).
Proof.
  intro H.
  destruct (step_transactions today st r)
    as [->|(a & Ha & [(t & -> & _ & _ & Hc)|(tr & _ & _ & ->)])].
  - exact H.
  - apply Forall_app. split; [exact H | now repeat constructor].
  - now apply filter_Forall.
Qed.

Lemma reachable_has_category (st : store) :
  reachable st -> Forall has_category (transactions st).
Proof.
  induction 1 as [|today st r _ IH]; [constructor|].
  now apply step_has_category.
Qed.

End Invariants.

(** X5.  In every reachable store no two users share their name, and
    [register] with a name that is taken adds no row: it flashes a warning
    and redirects to the login page. *)
Theorem usernames_stay_unique :
  (forall st, reachable st -> usernames_unique st)
  /\ (forall st f hashed today name password,
        form_get f "username" = Some name ->
        form_get f "password" = Some password ->
        In name (map u_username (users st)) ->
        register st f hashed today
        = Ok (mkReply st [msg_user_exists] (Redirect ep_login))).
Proof.
  split.
  - induction 1 as [|today st r _ IH]; [constructor|].
    now apply step_usernames_unique.
  - intros st f hashed today name password Hn Hp Hin.
    unfold register, form_item.
    change (dict_find f "username") with (form_get f "username").
    change (dict_find f "password") with (form_get f "password").
    rewrite Hn, Hp. cbn [bind].
    destruct (find (fun u => String.eqb (u_username u) name) (users st))
      as [u|] eqn:E; [reflexivity|].
    exfalso. apply in_map_iff in Hin. destruct Hin as [x [Hx Hin]].
    pose proof (find_none _ _ E x Hin) as Hf. cbv beta in Hf.
    rewrite Hx, String.eqb_refl in Hf. discriminate.
Qed.

Lemma usernames_stay_unique_witness :
  reachable two_users_store
  /\ usernames_unique two_users_store
  /\ register two_users_store [("username", "bob"); ("password", "x")]
       "pbkdf2$3" may17
     = Ok (mkReply two_users_store [msg_user_exists] (Redirect ep_login)).
Proof.
  assert (Hr : reachable two_users_store)
    by (apply reachable_run; constructor).
  destruct usernames_stay_unique as [H1 H2].
  split; [exact Hr|]. split; [exact (H1 _ Hr)|].
  apply (H2 _ _ _ _ "bob" "x"); [reflexivity | reflexivity |].
  vm_compute. right. left. reflexivity.
Defined.

(** X6.  In every reachable store every transaction, budget and goal
    belongs to a user of the store. *)
Theorem rows_have_owners (st : store) : reachable st -> rows_owned st.
Proof.
  induction 1 as [|today st r _ IH].
  - repeat split; constructor.
  - now apply step_rows_owned.
Qed.

Lemma rows_have_owners_witness : rows_owned two_users_store.
Proof.
  apply rows_have_owners. apply reachable_run. constructor.
Defined.

(** ** Who can write what *)

Section Isolation.

Lemma store_eq (st st' : store) :
  users st' = users st -> transactions st' = transactions st ->
  budgets st' = budgets st -> goals st' = goals st -> st' = st.
Proof.
  destruct st, st'; simpl; intros; subst; reflexivity.
Qed.

Lemma same_key_same_row (A : Type) (key : A -> Z) (l : list A) (x y : A) :
  NoDup (map key l) -> In x l -> In y l -> key x = key y -> x = y.
Proof.
  induction l as [|z l IH]; simpl; intros Hnd Hx Hy E; [tauto|].
  inversion Hnd as [|? ? Hnotin Hnd']; subst.
  destruct Hx as [->|Hx], Hy as [->|Hy]; auto.
  - exfalso. apply Hnotin. rewrite E. now apply in_map.
  - exfalso. apply Hnotin. rewrite <- E. now apply in_map.
Qed.

Lemma filter_filter_absorb (A : Type) (p q : A -> bool) (l : list A) :
  (forall z, In z l -> p z = true -> q z = true) ->
  filter p (filter q l) = filter p l.
Proof.
  induction l as [|z l IH]; simpl; intro H; [reflexivity|].
  assert (IH' : filter p (filter q l) = filter p l)
    by (apply IH; intros; apply H; auto).
  destruct (q z) eqn:Eq; simpl.
  - now rewrite IH'.
  - destruct (p z) eqn:Ep; [|exact IH'].
    rewrite (H z (or_introl eq_refl) Ep) in Eq. discriminate.
Qed.

Lemma filter_map_update (A : Type) (p c : A -> bool) (assign : A -> A)
    (l : list A) :
  (forall z, In z l -> c z = true -> p z = false /\ p (assign z) = false) ->
  filter p (map (fun z => if c z then assign z else z) l) = filter p l.
Proof.
  induction l as [|z l IH]; simpl; intro H; [reflexivity|].
  assert (IH' : filter p (map (fun z => if c z then assign z else z) l)
                = filter p l)
    by (apply IH; intros; apply H; auto).
  destruct (c z) eqn:Ec.
  - destruct (H z (or_introl eq_refl) Ec) as [H1 H2].
    now rewrite H1, H2.
  - now rewrite IH'.
Qed.

Section ForeignRows.

Variables (A : Type) (key owner : A -> Z) (l : list A) (x : A) (uid : Z).
Hypothesis keys : NoDup (map key l).
Hypothesis x_in : In x l.
Hypothesis x_foreign : owner x <> uid.

Lemma filter_owner_added (y : A) :
  owner y <> uid ->
  filter (fun z => owner z =? uid) (l ++ [y])
  = filter (fun z => owner z =? uid) l.
Proof.
  intro H. rewrite filter_app. simpl.
  destruct (Z.eqb_spec (owner y) uid); [contradiction|]. apply app_nil_r.
Qed.

Lemma same_key_foreign (z : A) : In z l -> key z = key x -> owner z <> uid.
Proof.
  intros Hz E. now rewrite (same_key_same_row A key l z x keys Hz x_in E).
Qed.

Lemma filter_owner_removed :
  filter (fun z => owner z =? uid) (filter (fun z => negb (key z =? key x)) l)
  = filter (fun z => owner z =? uid) l.
Proof.
  apply filter_filter_absorb. intros z Hz Ho. apply Z.eqb_eq in Ho.
  apply negb_true_iff. apply Z.eqb_neq. intro E.
  now apply (same_key_foreign z Hz E).
Qed.

Lemma filter_owner_updated (assign : A -> A) :
  (forall z, owner (assign z) = owner z) ->
  filter (fun z => owner z =? uid)
         (map (fun z => if key z =? key x then assign z else z) l)
  = filter (fun z => owner z =? uid) l.
Proof.
  intro Ha. apply filter_map_update. intros z Hz E. apply Z.eqb_eq in E.
  rewrite Ha. split; apply Z.eqb_neq; now apply same_key_foreign.
Qed.

End ForeignRows.

End Isolation.

Section Interference.

Variables (today : date) (st : store) (r : request).

Lemma foreign_rows_kept (uid : Z) :
  keys_unique st ->
  (forall a, current_user st (request_session r) = Some a -> u_id a <> uid) ->
  rows_of (step today st r) uid = rows_of st uid.
Proof.
  intros (_ & Kt & Kb & Kg) Hother. unfold rows_of.
  assert (Et : user_transactions (step today st r) uid
               = user_transactions st uid).
  { unfold user_transactions.
    destruct (step_transactions today st r)
      as [->|(a & Ha & [(t & -> & Hu & _)|(tr & Hin & Hu & ->)])].
    - reflexivity.
    - apply (filter_owner_added _ t_user_id). rewrite Hu. now apply Hother.
    - apply (filter_owner_removed _ t_id t_user_id); auto.
      rewrite Hu. now apply Hother. }
  assert (Eb : user_budgets (step today st r) uid = user_budgets st uid).
  { unfold user_budgets.
    destruct (step_budgets today st r)
      as [->|(a & Ha & [(b & -> & Hu & _)|[(b & assign & Hin & Hu & Has & ->)
                                           |(b & Hin & Hu & ->)]])].
    - reflexivity.
    - apply (filter_owner_added _ b_user_id). rewrite Hu. now apply Hother.
    - apply (filter_owner_updated _ b_id b_user_id); auto.
      + rewrite Hu. now apply Hother.
      + intro z. apply (Has z).
    - apply (filter_owner_removed _ b_id b_user_id); auto.
      rewrite Hu. now apply Hother. }
  assert (Eg : user_goals (step today st r) uid = user_goals st uid).
  { unfold user_goals.
    destruct (step_goals today st r)
      as [->|(a & Ha & [(g & -> & Hu & _)|[(g & assign & Hin & Hu & Has & ->)
                                           |(g & Hin & Hu & ->)]])].
    - reflexivity.
    - apply (filter_owner_added _ g_user_id). rewrite Hu. now apply Hother.
    - apply (filter_owner_updated _ g_id g_user_id); auto.
      + rewrite Hu. now apply Hother.
      + intro z. apply (Has z).
    - apply (filter_owner_removed _ g_id g_user_id); auto.
      rewrite Hu. now apply Hother. }
  now rewrite Et, Eb, Eg.
Qed.

Lemma find_app_some (A : Type) (p : A -> bool) (l l' : list A) (x : A) :
  find p l = Some x -> find p (l ++ l') = Some x.
Proof.
  induction l as [|y l IH]; simpl; [discriminate|].
  destruct (p y); auto.
Qed.

Lemma current_user_step (sess : session) (me : User) :
  current_user st sess = Some me ->
  current_user (step today st r) sess = Some me.
Proof.
  unfold current_user. destruct sess as [[|c s]|]; try discriminate.
  destruct (step_users today st r) as [->|(f & hashed & u & _ & -> & _)];
    [auto | apply find_app_some].
Qed.

End Interference.

Section PagesDependOnOwnRows.

Variables (st st' : store) (sess : session) (me : User).
Hypothesis user_st : current_user st sess = Some me.
Hypothesis user_st' : current_user st' sess = Some me.
Hypothesis same_rows : rows_of st' (u_id me) = rows_of st (u_id me).

Lemma same_rows_parts :
  user_transactions st' (u_id me) = user_transactions st (u_id me)
  /\ user_budgets st' (u_id me) = user_budgets st (u_id me)
  /\ user_goals st' (u_id me) = user_goals st (u_id me).
Proof.
  unfold rows_of in same_rows. inversion same_rows. auto.
Qed.

Lemma filter_and (A : Type) (p q : A -> bool) (l : list A) :
  filter (fun x => p x && q x) l = filter q (filter p l).
Proof.
  induction l as [|x l IH]; simpl; [reflexivity|].
  destruct (p x); simpl; [destruct (q x)|]; now rewrite IH.
Qed.

Lemma dashboard_same (args : form) (today : date) :
  shown (dashboard st' sess args today) = shown (dashboard st sess args today).
Proof.
  destruct same_rows_parts as (Et & Eb & Eg).
  unfold dashboard, login_required. destruct sess as [name|]; [|reflexivity].
  unfold dashboard_view. rewrite user_st, user_st'.
  destruct (selected_period args today) as [[m y]|e]; [|reflexivity].
  cbn [bind user_id]. rewrite Et, Eb, Eg.
  destruct (daily_values_of _ _) as [vals|e]; [|reflexivity]. cbn [bind].
  destruct (map_res _ (py_range 1 13)) as [ml|e]; [|reflexivity]. cbn [bind].
  destruct (months_ua_item m) as [mn|e]; reflexivity.
Qed.

Lemma transactions_view_same (today : date) :
  transactions_view st' sess today = transactions_view st sess today.
Proof.
  destruct same_rows_parts as (Et & Eb & Eg).
  unfold transactions_view. rewrite user_st, user_st'. cbn [bind user_id].
  now rewrite Et, Eb.
Qed.

Lemma budget_same (today : date) :
  budget st' sess today = budget st sess today.
Proof.
  destruct same_rows_parts as (Et & Eb & Eg).
  unfold budget. rewrite user_st, user_st'. cbn [bind user_id].
  rewrite Eb, !filter_and. unfold user_transactions in Et. now rewrite Et.
Qed.

Lemma savings_same : savings st' sess = savings st sess.
Proof.
  destruct same_rows_parts as (Et & Eb & Eg).
  unfold savings. rewrite user_st, user_st'. cbn [bind user_id].
  now rewrite Eg.
Qed.

End PagesDependOnOwnRows.

(** X7.  A request whose session names no user of the store (no session, a
    stale or an empty name) leaves the store as it is, unless it is a
    registration. *)
Theorem unknown_user_writes_nothing (today : date) (st : store)
    (r : request) :
  current_user st (request_session r) = None ->
  step today st r = st \/ exists f hashed, r = Register f hashed.
Proof.
  intro Hn.
  destruct (step_users today st r) as [Hu|(f & hashed & _ & -> & _)];
    [|right; eauto].
  left. apply store_eq; [exact Hu| | |].
  - destruct (step_transactions today st r) as [H|(a & Ha & _)];
      [exact H | congruence].
  - destruct (step_budgets today st r) as [H|(a & Ha & _)];
      [exact H | congruence].
  - destruct (step_goals today st r) as [H|(a & Ha & _)];
      [exact H | congruence].
Qed.

Lemma unknown_user_writes_nothing_witness :
  current_user scenario_store (Some "mallory") = None
  /\ step may17 scenario_store
          (AddTransaction (Some "mallory")
             [("amount", "5"); ("type", "income")])
     = scenario_store.
Proof.
  assert (Hn : current_user scenario_store
                 (request_session
                    (AddTransaction (Some "mallory")
                       [("amount", "5"); ("type", "income")])) = None)
    by (vm_compute; reflexivity).
  split; [exact Hn|].
  destruct (unknown_user_writes_nothing may17 _ _ Hn)
    as [H|(f & hashed & H)]; [exact H | discriminate H].
Defined.

(** X8.  In a store with primary keys, a request of one user changes none
    of the rows of another: the transactions, budgets and goals of every
    user other than the one of the session are what they were, and none of
    them is lost. *)
Theorem requests_keep_foreign_rows (today : date) (st : store) (r : request)
    (uid : Z) :
  keys_unique st ->
  (forall a, current_user st (request_session r) = Some a -> u_id a <> uid) ->
  rows_of (step today st r) uid = rows_of st uid
  /\ (forall t, In t (transactions st) -> t_user_id t = uid ->
                In t (transactions (step today st r)))
  /\ (forall b, In b (budgets st) -> b_user_id b = uid ->
                In b (budgets (step today st r)))
  /\ (forall g, In g (goals st) -> g_user_id g = uid ->
                In g (goals (step today st r))).
Proof.
  intros Hk Hother.
  pose proof (foreign_rows_kept today st r uid Hk Hother) as H.
  split; [exact H|]. unfold rows_of in H. inversion H as [[Ht Hb Hg]].
  split; [|split].
  - intros t Hin Hu.
    assert (Hf : In t (user_transactions st uid))
      by (apply filter_In; split; [exact Hin | now apply Z.eqb_eq]).
    rewrite <- Ht in Hf. now apply filter_In in Hf.
  - intros b Hin Hu.
    assert (Hf : In b (user_budgets st uid))
      by (apply filter_In; split; [exact Hin | now apply Z.eqb_eq]).
    rewrite <- Hb in Hf. now apply filter_In in Hf.
  - intros g Hin Hu.
    assert (Hf : In g (user_goals st uid))
      by (apply filter_In; split; [exact Hin | now apply Z.eqb_eq]).
    rewrite <- Hg in Hf. now apply filter_In in Hf.
Qed.

Lemma requests_keep_foreign_rows_witness :
  rows_of (step may17 two_users_store (DeleteTransaction alice 1)) 2
  = rows_of two_users_store 2
  /\ rows_of (step may17 two_users_store
                (AddSavings alice [("name", "car"); ("target", "10")])) 2
     = rows_of two_users_store 2.
Proof.
  assert (Hk : keys_unique two_users_store)
    by (apply reachable_keys_unique, reachable_run; constructor).
  split; apply requests_keep_foreign_rows; try exact Hk;
    intros a Ha; vm_compute in Ha; inversion Ha; subst; discriminate.
Defined.

(** X9.  In a store with primary keys, a request of another user, or of
    nobody, changes nothing of what a user is shown: dashboard, list of
    transactions, budget page and goals page are the same before and after
    it. *)
Theorem pages_unchanged_by_others (today now : date) (st : store)
    (r : request) (sess : session) (me : User) (args : form) :
  keys_unique st ->
  current_user st sess = Some me ->
  (forall a, current_user st (request_session r) = Some a ->
             u_id a <> u_id me) ->
  shown (dashboard (step today st r) sess args now)
  = shown (dashboard st sess args now)
  /\ transactions_view (step today st r) sess now
     = transactions_view st sess now
  /\ budget (step today st r) sess now = budget st sess now
  /\ savings (step today st r) sess = savings st sess.
Proof.
  intros Hk Hme Hother.
  pose proof (current_user_step today st r sess me Hme) as Hme'.
  pose proof (foreign_rows_kept today st r (u_id me) Hk Hother) as Hrows.
  split; [now apply (dashboard_same st _ sess me)|].
  split; [now apply (transactions_view_same st _ sess me)|].
  split; [now apply (budget_same st _ sess me)|].
  now apply (savings_same st _ sess me).
Qed.

Lemma pages_unchanged_by_others_witness :
  shown (dashboard (step may17 two_users_store
                      (AddTransaction alice
                         [("amount", "7"); ("type", "expense")]))
                   bob [] may17)
  = shown (dashboard two_users_store bob [] may17).
Proof.
  assert (Hk : keys_unique two_users_store)
    by (apply reachable_keys_unique, reachable_run; constructor).
  apply (pages_unchanged_by_others may17 may17 two_users_store
           (AddTransaction alice [("amount", "7"); ("type", "expense")])
           bob (mkUser 2 "" "bob" "pbkdf2$2" "UAH" "2024-05-17") [] Hk).
  - vm_compute. reflexivity.
  - intros a Ha. vm_compute in Ha. inversion Ha; subst. discriminate.
Defined.

(** ** The outcomes of the dashboard *)

Section DashboardOutcomes.

Local Open Scope Q_scope.

Variables (st : store) (sess : session) (args : form) (today : date).

Lemma dashboard_no_session :
  sess = None ->
  dashboard st sess args today = Ok (mkReply st [] (Redirect ep_login)).
Proof. now intros ->. Qed.

Lemma dashboard_unknown_user :
  sess <> None -> current_user st sess = None ->
  dashboard st sess args today = Raise AttributeError.
Proof.
  intros Hs Hn. unfold dashboard, login_required.
  destruct sess as [name|]; [|congruence].
  unfold dashboard_view. rewrite Hn.
  destruct (selected_period_total args today) as (m & y & ->). reflexivity.
Qed.

End DashboardOutcomes.

(** X10.  The dashboard writes nothing and flashes nothing.  Without a
    session it redirects to the login page; with a session that names no
    user of the store (the empty name among them) it raises
    [AttributeError]; with a user it renders the page in the user's
    currency when the selected month is from 1 to 12. *)
Theorem dashboard_outcomes (st : store) (sess : session) (args : form)
    (today : date) :
  (forall rp, dashboard st sess args today = Ok rp ->
              r_store rp = st /\ r_flashes rp = [])
  /\ (sess = None ->
      dashboard st sess args today = Ok (mkReply st [] (Redirect ep_login)))
  /\ (sess <> None -> current_user st sess = None ->
      dashboard st sess args today = Raise AttributeError)
  /\ (sess = Some "" ->
      dashboard st sess args today = Raise AttributeError)
  /\ (forall u m y,
        current_user st sess = Some u ->
        selected_period args today = Ok (m, y) ->
        1 <= m <= 12 ->
        exists ctx,
          dashboard st sess args today
          = Ok (mkReply st [] (RenderDashboard ctx))
          /\ c_selected_month ctx = m /\ c_selected_year ctx = y
          /\ c_currency ctx = u_currency u).
Proof.
  split; [|split; [|split; [|split]]].
  - intros rp Hd. unfold dashboard, login_required in Hd.
    destruct sess as [name|]; [|inversion Hd; auto].
    unfold dashboard_view in Hd.
    destruct (selected_period args today) as [[m y]|e]; [|discriminate].
    cbn [bind] in Hd.
    destruct (user_id (current_user st (Some name))); [|discriminate].
    cbn [bind] in Hd.
    destruct (daily_values_of _ _); [|discriminate]. cbn [bind] in Hd.
    destruct (map_res _ (py_range 1 13)); [|discriminate]. cbn [bind] in Hd.
    destruct (months_ua_item m); [|discriminate]. cbn [bind] in Hd.
    destruct (current_user st (Some name)); [|discriminate].
    cbn [bind] in Hd. inversion Hd. auto.
  - apply dashboard_no_session.
  - apply dashboard_unknown_user.
  - intros ->. now apply dashboard_unknown_user.
  - intros u m y Hu Hp Hm.
    destruct (dashboard_renders st sess args today u m y Hu Hp Hm)
      as (ctx & Hd & Hcm & Hcy).
    exists ctx. repeat split; try assumption.
    destruct (dashboard_inv st sess args today _ ctx Hd eq_refl)
      as (u' & Hu' & _).
    unfold dashboard, login_required in Hd.
    destruct sess as [name|]; [|discriminate].
    unfold dashboard_view in Hd. rewrite Hp, Hu in Hd.
    cbn [bind user_id] in Hd.
    destruct (daily_values_of _ _); [|discriminate]. cbn [bind] in Hd.
    destruct (map_res _ (py_range 1 13)); [|discriminate]. cbn [bind] in Hd.
    destruct (months_ua_item m); [|discriminate]. cbn [bind] in Hd.
    inversion Hd. reflexivity.
Qed.

Lemma dashboard_outcomes_witness :
  dashboard scenario_store None [] may17
  = Ok (mkReply scenario_store [] (Redirect ep_login))
  /\ dashboard scenario_store (Some "mallory") [] may17 = Raise AttributeError
  /\ dashboard scenario_store (Some "") [] may17 = Raise AttributeError
  /\ exists ctx,
       dashboard scenario_store alice [("month", "4"); ("year", "2024")] may17
       = Ok (mkReply scenario_store [] (RenderDashboard ctx))
       /\ c_selected_month ctx = 4.
Proof.
  split; [apply (proj1 (proj2 (dashboard_outcomes _ None [] may17)));
          reflexivity|].
  split; [apply (proj1 (proj2 (proj2 (dashboard_outcomes _ _ [] may17))));
          [discriminate | vm_compute; reflexivity]|].
  split; [apply (proj1 (proj2 (proj2 (proj2
                    (dashboard_outcomes _ _ [] may17))))); reflexivity|].
  destruct (proj2 (proj2 (proj2 (proj2
              (dashboard_outcomes scenario_store alice
                 [("month", "4"); ("year", "2024")] may17))))
              (mkUser 1 "" "alice" "pbkdf2$1" "UAH" "2024-05-17") 4 2024)
    as (ctx & Hd & Hm & _);
    [vm_compute; reflexivity | vm_compute; reflexivity | lia |].
  exists ctx. auto.
Defined.

(** X11.  A period without transactions of the user renders zeros: income,
    expenses, balance and health score are 0 and the category breakdown
    and the daily series are empty. *)
Theorem empty_period_renders_zeros (st : store) (sess : session)
    (args : form) (today : date) (rp : reply) (ctx : dashboard_ctx)
    (u : User) :
  dashboard st sess args today = Ok rp ->
  r_page rp = RenderDashboard ctx ->
  current_user st sess = Some u ->
  period_transactions st (u_id u) (c_selected_year ctx) (c_selected_month ctx)
  = [] ->
  c_income ctx = 0%Q /\ c_expenses ctx = 0%Q /\ (c_balance ctx == 0)%Q
  /\ c_health ctx = 0%Q
  /\ c_exp_labels ctx = [] /\ c_exp_values ctx = []
  /\ c_daily_labels ctx = [] /\ c_daily_values ctx = [].
Proof.
  intros Hd Hp Hu He.
  destruct (dashboard_inv st sess args today rp ctx Hd Hp)
    as (u' & Hu' & _ & _ & _ & _ & H).
  rewrite Hu in Hu'. inversion Hu'; subst u'. cbv zeta in H.
  rewrite He in H.
  destruct H as (Hi & Hx & Hb & _ & Hh & Hl & Hv & Hdl & Hdv).
  rewrite Hdl in Hdv. cbn in Hdv. inversion Hdv as [Hdv'].
  rewrite Hh, Hb, Hi, Hx.
  repeat split; try assumption; reflexivity.
Qed.

Lemma empty_period_renders_zeros_witness :
  exists ctx,
    rendered (dashboard scenario_store alice
                [("month", "4"); ("year", "2024")] may17) = Some ctx
    /\ c_income ctx = 0%Q /\ c_health ctx = 0%Q /\ c_daily_labels ctx = [].
Proof.
  pose (u := mkUser 1 "" "alice" "pbkdf2$1" "UAH" "2024-05-17").
  destruct (dashboard scenario_store alice
              [("month", "4"); ("year", "2024")] may17) as [rp|e] eqn:Hd;
    [|vm_compute in Hd; discriminate].
  destruct (r_page rp) as [e|ctx] eqn:Hp;
    [vm_compute in Hd; inversion Hd; subst rp; discriminate|].
  assert (Hu : current_user scenario_store alice = Some u)
    by (vm_compute; reflexivity).
  assert (He : period_transactions scenario_store (u_id u)
                 (c_selected_year ctx) (c_selected_month ctx) = []).
  { vm_compute in Hd. inversion Hd; subst rp. cbn in Hp.
    inversion Hp; subst ctx. vm_compute. reflexivity. }
  destruct (empty_period_renders_zeros scenario_store alice _ may17 rp ctx u
              Hd Hp Hu He) as (H1 & _ & _ & H4 & _ & _ & H7 & _).
  exists ctx. cbn [rendered]. rewrite Hp. auto.
Defined.

(** ** Logging in *)

Section Login.

Variable check : string -> string -> bool.

Lemma find_snoc (A : Type) (p : A -> bool) (l : list A) (x : A) :
  find p l = None -> p x = true -> find p (l ++ [x]) = Some x.
Proof.
  intros Hn Hx. induction l as [|y l IH]; simpl in *.
  - now rewrite Hx.
  - destruct (p y); [discriminate | auto].
Qed.

Lemma login_found (st : store) (sess : session) (f : form)
    (name password : string) (user : User) :
  form_get f "username" = Some name ->
  form_get f "password" = Some password ->
  find (fun u => String.eqb (u_username u) name) (users st) = Some user ->
  check (u_password user) password = true ->
  login check st sess (Some f)
  = Ok (mkLoginReply (Some name) [msg_login_ok] (LoginRedirect ep_dashboard)).
Proof.
  intros Hn Hp Hf Hc. unfold login, form_item.
  change (dict_find f "username") with (form_get f "username").
  change (dict_find f "password") with (form_get f "password").
  rewrite Hn, Hp. cbn [bind]. rewrite Hf, Hc.
  apply find_some in Hf. destruct Hf as [_ E]. apply String.eqb_eq in E.
  now rewrite E.
Qed.

End Login.

(** X12.  A login attempt either fails, leaving the session as it was with
    one danger message on the login page, or it is for a user of the
    store whose stored hash the password checks against; then the session
    carries that user's name and, the name not being empty,
    [current_user] is that user. *)
Theorem login_outcomes (check : string -> string -> bool) (st : store)
    (sess : session) (f : form) (rp : login_reply) :
  login check st sess (Some f) = Ok rp ->
  (l_session rp = sess /\ l_flashes rp = [msg_login_failed]
   /\ l_page rp = RenderLogin)
  \/ (exists user password,
        In user (users st)
        /\ form_get f "username" = Some (u_username user)
        /\ form_get f "password" = Some password
        /\ check (u_password user) password = true
        /\ l_session rp = Some (u_username user)
        /\ l_flashes rp = [msg_login_ok]
        /\ l_page rp = LoginRedirect ep_dashboard
        /\ (u_username user <> "" ->
            current_user st (l_session rp) = Some user)).
Proof.
  unfold login, form_item.
  change (dict_find f "username") with (form_get f "username").
  change (dict_find f "password") with (form_get f "password").
  destruct (form_get f "username") as [name|]; [|discriminate].
  destruct (form_get f "password") as [password|]; [|discriminate].
  cbn [bind].
  destruct (find (fun u => String.eqb (u_username u) name) (users st))
    as [user|] eqn:Hf.
  2:{ intro H. inversion H. left. auto. }
  destruct (check (u_password user) password) eqn:Hc.
  2:{ intro H. inversion H. left. auto. }
  intro H. inversion H. right. exists user, password.
  pose proof (find_some _ _ Hf) as [Hin E]. apply String.eqb_eq in E.
  cbn [l_session l_flashes l_page]. subst name.
  repeat split; auto.
  intro Hne. unfold current_user.
  destruct (u_username user) as [|c s] eqn:En; [congruence|]. exact Hf.
Qed.

Lemma login_outcomes_witness :
  exists rp,
    login String.eqb scenario_store None
          (Some [("username", "alice"); ("password", "pbkdf2$1")]) = Ok rp
    /\ l_session rp = alice
    /\ login String.eqb scenario_store None
             (Some [("username", "alice"); ("password", "guess")])
       = Ok (mkLoginReply None [msg_login_failed] RenderLogin).
Proof.
  destruct (login String.eqb scenario_store None
              (Some [("username", "alice"); ("password", "pbkdf2$1")]))
    as [rp|e] eqn:Hl; [|vm_compute in Hl; discriminate].
  exists rp. split; [reflexivity|].
  destruct (login_outcomes String.eqb scenario_store None _ rp Hl)
    as [(Hs & Hf & _)|(user & password & _ & _ & _ & _ & Hs & _)].
  - vm_compute in Hl. inversion Hl; subst rp. discriminate Hf.
  - split; [|vm_compute; reflexivity].
    vm_compute in Hl. inversion Hl; subst rp. reflexivity.
Defined.

(** X13.  Registering a name that is free and then logging in with a
    password that the stored hash accepts works: the new user is added
    with that name and hash, and after the login [current_user] is the
    new user, provided the name is not empty. *)
Theorem register_then_login (check : string -> string -> bool) (st : store)
    (sess : session) (f : form) (hashed : string) (today : date)
    (name password : string) :
  form_get f "username" = Some name ->
  form_get f "password" = Some password ->
  ~ In name (map u_username (users st)) ->
  check hashed password = true ->
  name <> "" ->
  exists st' user,
    register st f hashed today
    = Ok (mkReply st' [msg_registered] (Redirect ep_login))
    /\ users st' = (users st ++ [user])%list
    /\ transactions st' = transactions st /\ budgets st' = budgets st
    /\ goals st' = goals st
    /\ u_username user = name /\ u_password user = hashed
    /\ login check st' sess (Some f)
       = Ok (mkLoginReply (Some name) [msg_login_ok]
                          (LoginRedirect ep_dashboard))
    /\ current_user st' (Some name) = Some user.
Proof.
  intros Hn Hp Hfree Hc Hne.
  assert (Hnone : find (fun u => String.eqb (u_username u) name) (users st)
                  = None).
  { destruct (find _ (users st)) as [x|] eqn:E; [|reflexivity].
    apply find_some in E. destruct E as [Hin E]. apply String.eqb_eq in E.
    exfalso. apply Hfree. rewrite <- E. now apply in_map. }
  set (user := mkUser (next_id (map u_id (users st)))
                 match form_get f "name" with Some s => s | None => "" end
                 name hashed
                 match form_get f "currency" with
                 | Some s => s
                 | None => "UAH"
                 end
                 (str_of_date today)).
  exists (mkStore (users st ++ [user]) (transactions st) (budgets st)
                  (goals st)), user.
  assert (Hfind : find (fun u => String.eqb (u_username u) name)
                       (users st ++ [user]) = Some user).
  { apply find_snoc; [exact Hnone | apply String.eqb_refl]. }
  split.
  { unfold register, form_item.
    change (dict_find f "username") with (form_get f "username").
    change (dict_find f "password") with (form_get f "password").
    rewrite Hn, Hp. cbn [bind]. rewrite Hnone. reflexivity. }
  cbn [users transactions budgets goals].
  repeat (split; [reflexivity|]).
  split.
  - now apply (login_found check _ sess f name password user).
  - unfold current_user. destruct name as [|c s]; [congruence|]. exact Hfind.
Qed.

Lemma register_then_login_witness :
  exists st' user,
    register scenario_store [("username", "carol"); ("password", "pw")]
             "pw" may17
    = Ok (mkReply st' [msg_registered] (Redirect ep_login))
    /\ login String.eqb st' None
             (Some [("username", "carol"); ("password", "pw")])
       = Ok (mkLoginReply (Some "carol") [msg_login_ok]
                          (LoginRedirect ep_dashboard))
    /\ current_user st' (Some "carol") = Some user.
Proof.
  destruct (register_then_login String.eqb scenario_store None
              [("username", "carol"); ("password", "pw")] "pw" may17
              "carol" "pw" eq_refl eq_refl)
    as (st' & user & Hr & _ & _ & _ & _ & _ & _ & Hl & Hu).
  - vm_compute. intros [H|[]]. discriminate H.
  - reflexivity.
  - discriminate.
  - exists st', user. auto.
Defined.

(** X14.  [register] accepts the empty user name, and a login with it
    succeeds, but the session then names no user: [current_user] is
    [None] and the dashboard raises [AttributeError]. *)
Theorem empty_username_account (check : string -> string -> bool)
    (st : store) (sess : session) (f : form) (hashed : string)
    (today : date) (password : string) (args : form) :
  form_get f "username" = Some "" ->
  form_get f "password" = Some password ->
  ~ In "" (map u_username (users st)) ->
  check hashed password = true ->
  exists st',
    register st f hashed today
    = Ok (mkReply st' [msg_registered] (Redirect ep_login))
    /\ login check st' sess (Some f)
       = Ok (mkLoginReply (Some "") [msg_login_ok]
                          (LoginRedirect ep_dashboard))
    /\ current_user st' (Some "") = None
    /\ dashboard st' (Some "") args today = Raise AttributeError.
Proof.
  intros Hn Hp Hfree Hc.
  assert (Hnone : find (fun u => String.eqb (u_username u) "") (users st)
                  = None).
  { destruct (find _ (users st)) as [x|] eqn:E; [|reflexivity].
    apply find_some in E. destruct E as [Hin E]. apply String.eqb_eq in E.
    exfalso. apply Hfree. rewrite <- E. now apply in_map. }
  set (user := mkUser (next_id (map u_id (users st)))
                 match form_get f "name" with Some s => s | None => "" end
                 "" hashed
                 match form_get f "currency" with
                 | Some s => s
                 | None => "UAH"
                 end
                 (str_of_date today)).
  exists (mkStore (users st ++ [user]) (transactions st) (budgets st)
                  (goals st)).
  assert (Hfind : find (fun u => String.eqb (u_username u) "")
                       (users st ++ [user]) = Some user).
  { apply find_snoc; [exact Hnone | reflexivity]. }
  split.
  { unfold register, form_item.
    change (dict_find f "username") with (form_get f "username").
    change (dict_find f "password") with (form_get f "password").
    rewrite Hn, Hp. cbn [bind]. rewrite Hnone. reflexivity. }
  split; [now apply (login_found check _ sess f "" password user)|].
  split; [reflexivity|].
  unfold dashboard, login_required, dashboard_view.
  destruct (selected_period_total args today) as (m & y & ->). reflexivity.
Qed.

Lemma empty_username_account_witness :
  exists st',
    register empty_store [("username", ""); ("password", "pw")] "pw" may17
    = Ok (mkReply st' [msg_registered] (Redirect ep_login))
    /\ login String.eqb st' None (Some [("username", ""); ("password", "pw")])
       = Ok (mkLoginReply (Some "") [msg_login_ok]
                          (LoginRedirect ep_dashboard))
    /\ dashboard st' (Some "") [] may17 = Raise AttributeError.
Proof.
  destruct (empty_username_account String.eqb empty_store None
              [("username", ""); ("password", "pw")] "pw" may17 "pw" []
              eq_refl eq_refl)
    as (st' & Hr & Hl & _ & Hd).
  - intros [].
  - reflexivity.
  - exists st'. auto.
Defined.

(** ** Adding and deleting rows *)

Section AddDelete.

Lemma filter_keep_all (A : Type) (p : A -> bool) (l : list A) :
  (forall x, In x l -> p x = true) -> filter p l = l.
Proof.
  induction l as [|x l IH]; simpl; intro H; [reflexivity|].
  rewrite (H x) by now left. f_equal. apply IH. intros; apply H; now right.
Qed.

Lemma filter_drop_new (A : Type) (key : A -> Z) (l : list A) (x : A) :
  key x = next_id (map key l) ->
  filter (fun y => negb (key y =? key x)) (l ++ [x]) = l.
Proof.
  intro E. rewrite filter_app. simpl. rewrite Z.eqb_refl. simpl.
  rewrite app_nil_r. apply filter_keep_all. intros y Hy.
  apply negb_true_iff, Z.eqb_neq. rewrite E.
  assert (key y < next_id (map key l)) by (apply next_id_above; now apply in_map).
  lia.
Qed.

Lemma find_new (A : Type) (key : A -> Z) (l : list A) (x : A) :
  key x = next_id (map key l) ->
  find (fun y => key y =? key x) (l ++ [x]) = Some x.
Proof.
  intro E.
  assert (G : forall l', (forall z, In z l' -> key z <> key x) ->
              find (fun y => key y =? key x) (l' ++ [x]) = Some x).
  { induction l' as [|z l' IH']; simpl; intro Hl'.
    - now rewrite Z.eqb_refl.
    - destruct (Z.eqb_spec (key z) (key x)) as [Ez|_].
      + exfalso. now apply (Hl' z); [left|].
      + apply IH'. intros; apply Hl'; now right. }
  apply G. intros z Hz. rewrite E.
  assert (key z < next_id (map key l))
    by (apply next_id_above; now apply in_map).
  lia.
Qed.

Lemma store_eta (st : store) :
  mkStore (users st) (transactions st) (budgets st) (goals st) = st.
Proof. now destruct st. Qed.

Lemma find_removed (A : Type) (key : A -> Z) (l : list A) (k : Z) :
  find (fun y => key y =? k) (filter (fun y => negb (key y =? k)) l) = None.
Proof.
  induction l as [|y l IH]; simpl; [reflexivity|].
  destruct (Z.eqb_spec (key y) k) as [E|E]; simpl; [exact IH|].
  destruct (Z.eqb_spec (key y) k); [contradiction | exact IH].
Qed.

Lemma in_removed (A : Type) (key : A -> Z) (l : list A) (x y : A) :
  NoDup (map key l) -> In x l ->
  (In y (filter (fun z => negb (key z =? key x)) l) <-> In y l /\ y <> x).
Proof.
  intros Hnd Hx. rewrite filter_In, negb_true_iff, Z.eqb_neq. split.
  - intros [Hy Hk]. split; [exact Hy | congruence].
  - intros [Hy Hne]. split; [exact Hy|]. intro E. apply Hne.
    now apply (same_key_same_row A key l y x).
Qed.

End AddDelete.

(** X15.  A transaction added by a user is stored under a fresh id with
    the user as owner and the parsed amount, and is found by that id;
    deleting it again gives back the store as it was before. *)
Theorem add_then_delete_transaction (st : store) (sess : session) (u : User)
    (f : form) (today : date) (raw type : string) (amount : Q) :
  current_user st sess = Some u ->
  form_get f "amount" = Some raw ->
  parse_number (PStr raw) = Ok amount ->
  form_get f "type" = Some type ->
  exists st' tr,
    add_transaction st sess f today
    = Ok (mkReply st' [msg_tr_added] (Redirect ep_transactions_view))
    /\ transactions st' = (transactions st ++ [tr])%list
    /\ ~ In (t_id tr) (map t_id (transactions st))
    /\ t_user_id tr = u_id u /\ t_amount tr = amount /\ t_type tr = type
    /\ t_date tr = str_or (form_get f "date") (str_of_date today)
    /\ get_transaction st' (t_id tr) = Some tr
    /\ delete_transaction st' sess (t_id tr)
       = Ok (mkReply st [msg_tr_deleted] (Redirect ep_transactions_view)).
Proof.
  intros Hu Ha Hp Ht.
  destruct (session_present st sess u Hu) as [name ->].
  set (tr := mkTransaction (next_id (map t_id (transactions st))) (u_id u)
               type
               (Some (str_or (form_get f "category_select")
                             (str_or (form_get f "category") "Інше")))
               amount
               (Some match form_get f "payment" with
                     | Some s => s
                     | None => "Cash"
                     end)
               (str_or (form_get f "date") (str_of_date today))
               (Some (str_or (form_get f "description") ""))).
  set (st' := mkStore (users st) (transactions st ++ [tr]) (budgets st)
                      (goals st)).
  assert (Hget : get_transaction st' (t_id tr) = Some tr)
    by (unfold get_transaction; apply find_new; reflexivity).
  exists st', tr. split.
  { unfold add_transaction, login_required, add_transaction_view.
    rewrite (form_item_get _ _ _ Ha), (form_item_get _ _ _ Ht).
    cbn [bind]. rewrite Hp, Hu. reflexivity. }
  split; [reflexivity|]. split; [apply next_id_fresh|].
  repeat (split; [reflexivity|]). split; [exact Hget|].
  unfold delete_transaction, login_required, delete_transaction_view.
  rewrite Hget. change (current_user st' (Some name))
    with (current_user st (Some name)). rewrite Hu.
  cbn [user_id bind t_user_id tr]. rewrite Z.eqb_refl.
  cbn [users transactions budgets goals st'].
  rewrite (filter_drop_new _ t_id) by reflexivity.
  now rewrite store_eta.
Qed.

Lemma add_then_delete_transaction_witness :
  exists st' tr,
    add_transaction scenario_store alice
      [("amount", "9,99"); ("type", "expense")] may17
    = Ok (mkReply st' [msg_tr_added] (Redirect ep_transactions_view))
    /\ t_amount tr = (999 # 100)%Q
    /\ get_transaction st' (t_id tr) = Some tr
    /\ delete_transaction st' alice (t_id tr)
       = Ok (mkReply scenario_store [msg_tr_deleted]
                     (Redirect ep_transactions_view)).
Proof.
  destruct (add_then_delete_transaction scenario_store alice
              (mkUser 1 "" "alice" "pbkdf2$1" "UAH" "2024-05-17")
              [("amount", "9,99"); ("type", "expense")] may17
              "9,99" "expense" (999 # 100))
    as (st' & tr & Ha & _ & _ & _ & Hamt & _ & _ & Hg & Hd);
    [vm_compute; reflexivity | reflexivity | vm_compute; reflexivity
     | reflexivity |].
  exists st', tr. auto.
Defined.

(** X16.  In a store with primary keys, the owner's [delete_transaction]
    and [delete_goal] remove exactly the row with that id: it is no longer
    found, every other row stays, and the other tables are untouched. *)
Theorem owner_delete_removes_row (st : store) (sess : session) (u : User) :
  keys_unique st ->
  current_user st sess = Some u ->
  (forall tr,
     In tr (transactions st) -> t_user_id tr = u_id u ->
     exists st',
       delete_transaction st sess (t_id tr)
       = Ok (mkReply st' [msg_tr_deleted] (Redirect ep_transactions_view))
       /\ get_transaction st' (t_id tr) = None
       /\ (forall t, In t (transactions st') <->
                     In t (transactions st) /\ t <> tr)
       /\ users st' = users st /\ budgets st' = budgets st
       /\ goals st' = goals st)
  /\ (forall g,
        In g (goals st) -> g_user_id g = u_id u ->
        exists st',
          delete_goal st sess (g_id g)
          = Ok (mkReply st' [msg_goal_deleted] (Redirect ep_savings))
          /\ get_goal st' (g_id g) = None
          /\ (forall g', In g' (goals st') <-> In g' (goals st) /\ g' <> g)
          /\ users st' = users st /\ transactions st' = transactions st
          /\ budgets st' = budgets st).
Proof.
  intros (_ & Kt & _ & Kg) Hu.
  destruct (session_present st sess u Hu) as [name ->]. split.
  - intros tr Hin Hown. eexists. split.
    + unfold delete_transaction, login_required, delete_transaction_view.
      unfold get_transaction. rewrite (find_by_key _ t_id _ tr Kt Hin), Hu.
      cbn [user_id bind]. rewrite Hown, Z.eqb_refl. reflexivity.
    + cbn [users transactions budgets goals]. split.
      * unfold get_transaction. cbn [transactions]. apply find_removed.
      * split; [|auto]. intro t. now apply in_removed.
  - intros g Hin Hown. eexists. split.
    + unfold delete_goal, login_required, delete_goal_view.
      unfold get_goal. rewrite (find_by_key _ g_id _ g Kg Hin), Hu.
      cbn [user_id bind]. rewrite Hown, Z.eqb_refl. reflexivity.
    + cbn [users transactions budgets goals]. split.
      * unfold get_goal. cbn [goals]. apply find_removed.
      * split; [|auto]. intro g'. now apply in_removed.
Qed.

Lemma owner_delete_removes_row_witness :
  exists st',
    delete_transaction scenario_store alice 2
    = Ok (mkReply st' [msg_tr_deleted] (Redirect ep_transactions_view))
    /\ get_transaction st' 2 = None.
Proof.
  assert (Hk : keys_unique scenario_store)
    by (apply reachable_keys_unique, scenario_store_reachable).
  destruct (proj1 (owner_delete_removes_row scenario_store alice
                     (mkUser 1 "" "alice" "pbkdf2$1" "UAH" "2024-05-17")
                     Hk ltac:(vm_compute; reflexivity))
              (mkTransaction 2 1 "expense" (Some "food") 200 (Some "Cash")
                             "2024-05-02" (Some "")))
    as (st' & Hd & Hg & _);
    [vm_compute; auto | reflexivity |].
  exists st'. auto.
Defined.

(** ** Deleting and renaming budgets *)

Section BudgetRows.

Lemma filter_length_le (A : Type) (p q : A -> bool) (l : list A) :
  (List.length (filter p (filter q l)) <= List.length (filter p l))%nat.
Proof.
  induction l as [|x l IH]; simpl; [lia|].
  destruct (q x); destruct (p x) eqn:Ep; simpl; rewrite ?Ep; simpl; lia.
Qed.

Lemma filter_comm (A : Type) (p q : A -> bool) (l : list A) :
  filter p (filter q l) = filter q (filter p l).
Proof.
  induction l as [|x l IH]; simpl; [reflexivity|].
  destruct (q x) eqn:Eq, (p x) eqn:Ep; simpl; rewrite ?Eq, ?Ep, IH;
    reflexivity.
Qed.

Lemma update_untouched (A : Type) (key : A -> Z) (k : Z) (assign : A -> A)
    (l : list A) :
  ~ In k (map key l) ->
  map (fun z => if key z =? k then assign z else z) l = l.
Proof.
  induction l as [|x l IH]; simpl; intro H; [reflexivity|].
  destruct (Z.eqb_spec (key x) k) as [E|_]; [tauto|].
  f_equal. apply IH. tauto.
Qed.

(** Updating the row with a key changes the number of rows that satisfy
    a test by what the updated row gains or loses. *)
Lemma update_count (A : Type) (key : A -> Z) (p : A -> bool)
    (assign : A -> A) (l : list A) (x : A) :
  NoDup (map key l) -> In x l ->
  (List.length
     (filter p (map (fun z => if (key z =? key x)%Z then assign z else z) l))
   + (if p x then 1 else 0)
   = List.length (filter p l) + (if p (assign x) then 1 else 0))%nat.
Proof.
  induction l as [|y l IH]; simpl; intros Hnd Hin; [tauto|].
  inversion Hnd as [|? ? Hnotin Hnd']; subst.
  destruct Hin as [->|Hin].
  - rewrite Z.eqb_refl, (update_untouched _ key (key x) assign l Hnotin).
    destruct (p x), (p (assign x)); simpl; lia.
  - destruct (Z.eqb_spec (key y) (key x)) as [E|_].
    + exfalso. apply Hnotin. rewrite E. now apply in_map.
    + specialize (IH Hnd' Hin). destruct (p y); simpl; lia.
Qed.

Lemma find_updated (A : Type) (key : A -> Z) (k : Z) (assign : A -> A)
    (l : list A) (x : A) :
  (forall z, key (assign z) = key z) ->
  find (fun z => key z =? k) l = Some x ->
  find (fun z => key z =? k)
       (map (fun z => if key z =? k then assign z else z) l)
  = Some (assign x).
Proof.
  intro Ha. induction l as [|y l IH]; simpl; [discriminate|].
  destruct (Z.eqb_spec (key y) k) as [E|E].
  - intro H. inversion H; subst. rewrite Ha, Z.eqb_refl. reflexivity.
  - destruct (Z.eqb_spec (key y) k); [contradiction|]. exact IH.
Qed.

Lemma find_in_filter (A : Type) (p : A -> bool) (l : list A) (x : A) :
  find p l = Some x -> In x (filter p l).
Proof.
  intro H. apply find_some in H. now apply filter_In.
Qed.

Lemma find_filter_head (A : Type) (p : A -> bool) (l : list A) :
  find p l = hd_error (filter p l).
Proof.
  induction l as [|x l IH]; simpl; [reflexivity|].
  destruct (p x); [reflexivity | exact IH].
Qed.

End BudgetRows.

(** X17.  [delete_budget] of a category the user has no row for writes
    nothing and flashes a failure.  Otherwise it succeeds; it keeps the
    budgets at one row per user and category, after it the user has no
    row for the category, and with primary keys exactly the row found is
    gone. *)
Theorem delete_budget_outcomes (st : store) (sess : session) (u : User)
    (cat : string) :
  current_user st sess = Some u ->
  (first_budget st (u_id u) cat = None ->
   delete_budget st sess cat
   = Ok (mkReply st [msg_cat_not_deleted] (Redirect ep_budget)))
  /\ (forall b,
        first_budget st (u_id u) cat = Some b ->
        exists st',
          delete_budget st sess cat
          = Ok (mkReply st' [msg_cat_deleted] (Redirect ep_budget))
          /\ users st' = users st /\ transactions st' = transactions st
          /\ goals st' = goals st
          /\ (budgets_one_to_one st ->
              budgets_one_to_one st'
              /\ first_budget st' (u_id u) cat = None)
          /\ (keys_unique st ->
              forall b', In b' (budgets st') <->
                         In b' (budgets st) /\ b' <> b)).
Proof.
  intro Hu. destruct (session_present st sess u Hu) as [name ->]. split.
  - intro Hn. unfold delete_budget, login_required, delete_budget_view.
    rewrite Hu. cbn [user_id bind]. now rewrite Hn.
  - intros b Hb. eexists. split.
    + unfold delete_budget, login_required, delete_budget_view.
      rewrite Hu. cbn [user_id bind]. rewrite Hb. reflexivity.
    + cbn [users transactions budgets goals].
      repeat (split; [reflexivity|]). split.
      * intro Hinv. split.
        -- intros uid c. unfold budget_rows. cbn [budgets].
           eapply Nat.le_trans; [apply filter_length_le | apply Hinv].
        -- unfold first_budget in *. cbn [budgets].
           rewrite find_filter_head, filter_comm.
           pose proof (Hinv (u_id u) cat) as Hone. unfold budget_rows in Hone.
           pose proof (find_in_filter _ _ _ _ Hb) as Hin.
           destruct (filter _ (budgets st)) as [|x [|y l]] eqn:E;
             [destruct Hin | | simpl in Hone; lia].
           destruct Hin as [->|[]]. simpl. now rewrite Z.eqb_refl.
      * intros (_ & _ & Kb & _) b'. apply in_removed; [exact Kb|].
        now apply first_budget_found in Hb.
Qed.

Lemma delete_budget_outcomes_witness :
  delete_budget two_budgets_store alice "travel"
  = Ok (mkReply two_budgets_store [msg_cat_not_deleted] (Redirect ep_budget))
  /\ exists st',
       delete_budget two_budgets_store alice "food"
       = Ok (mkReply st' [msg_cat_deleted] (Redirect ep_budget))
       /\ users st' = users two_budgets_store.
Proof.
  destruct (delete_budget_outcomes two_budgets_store alice
              (mkUser 1 "" "alice" "pbkdf2$1" "UAH" "2024-05-17") "travel")
    as [H1 _]; [vm_compute; reflexivity|].
  destruct (delete_budget_outcomes two_budgets_store alice
              (mkUser 1 "" "alice" "pbkdf2$1" "UAH" "2024-05-17") "food")
    as [_ H2]; [vm_compute; reflexivity|].
  split; [apply H1; vm_compute; reflexivity|].
  destruct (H2 (mkBudget 1 1 "food" 250)) as (st' & Hd & Hus & _);
    [vm_compute; reflexivity|].
  exists st'. auto.
Defined.

(** X18.  In a store with primary keys and one budget row per user and
    category, [update_budget] keeps that invariant when the new category
    is the old one or one the user has no row for; afterwards the row is
    found under the new category with the new amount. *)
Theorem update_budget_keeps_one_to_one (st : store) (sess : session)
    (u : User) (f : form) (old raw_new raw_amount : string) (amount : Q)
    (b : Budget) :
  keys_unique st ->
  budgets_one_to_one st ->
  current_user st sess = Some u ->
  form_get f "old_category" = Some old ->
  form_get f "category" = Some raw_new ->
  form_get f "amount" = Some raw_amount ->
  parse_number (PStr raw_amount) = Ok amount ->
  first_budget st (u_id u) old = Some b ->
  strip raw_new = old \/ first_budget st (u_id u) (strip raw_new) = None ->
  exists st',
    update_budget st sess f
    = Ok (mkReply st' [msg_cat_updated] (Redirect ep_budget))
    /\ budgets_one_to_one st'
    /\ List.length (budgets st') = List.length (budgets st)
    /\ first_budget st' (u_id u) (strip raw_new)
       = Some (mkBudget (b_id b) (b_user_id b) (strip raw_new) amount).
Proof.
  intros (_ & _ & Kb & _) Hinv Hu Ho Hc Ha Hp Hb Hfree.
  destruct (session_present st sess u Hu) as [name ->].
  destruct (first_budget_found _ _ _ _ Hb) as (Hin & Hbu & Hbc).
  set (assign := fun b' : Budget =>
                   mkBudget (b_id b') (b_user_id b') (strip raw_new) amount).
  assert (Hcount : forall uid c,
    (List.length (budget_rows
       (mkStore (users st) (transactions st)
                (update_budget_row (b_id b) assign (budgets st)) (goals st))
       uid c) <= 1)%nat).
  { intros uid c. unfold budget_rows, update_budget_row. cbn [budgets].
    pose proof (update_count _ b_id
                  (fun x => (b_user_id x =? uid)
                            && String.eqb (b_category x) c)
                  assign (budgets st) b Kb Hin) as Hcnt.
    cbv beta in Hcnt. cbn [assign b_user_id b_category] in Hcnt.
    pose proof (Hinv uid c) as Hle. unfold budget_rows in Hle.
    destruct ((b_user_id b =? uid) && String.eqb (strip raw_new) c) eqn:En;
      [|destruct ((b_user_id b =? uid) && String.eqb (b_category b) c); lia].
    apply andb_true_iff in En. destruct En as [E1 E2].
    apply Z.eqb_eq in E1. apply String.eqb_eq in E2.
    destruct Hfree as [Hsame|Hnone].
    - rewrite Hbc, <- Hsame, E2, E1, Z.eqb_refl, String.eqb_refl in Hcnt.
      simpl in Hcnt. lia.
    - apply first_budget_none in Hnone. unfold budget_rows in Hnone.
      rewrite <- E1, <- E2, Hbu in *. rewrite Hnone in Hcnt. simpl in Hcnt.
      destruct ((u_id u =? u_id u) && String.eqb (b_category b) (strip raw_new));
        lia. }
  eexists. split.
  { unfold update_budget, login_required, update_budget_view.
    rewrite (form_item_get _ _ _ Ho), (form_item_get _ _ _ Hc),
      (form_item_get _ _ _ Ha). cbn [bind]. rewrite Hp, Hu.
    cbn [try_except user_id bind]. rewrite Hb. reflexivity. }
  split; [exact Hcount|]. cbn [budgets].
  split; [apply update_budget_row_length|].
  unfold first_budget. cbn [budgets]. fold assign.
  rewrite find_filter_head.
  pose proof (Hcount (u_id u) (strip raw_new)) as Hone.
  unfold budget_rows in Hone. cbn [budgets] in Hone.
  assert (Hmem : In (assign b)
            (filter (fun b0 => (b_user_id b0 =? u_id u)
                               && String.eqb (b_category b0) (strip raw_new))
                    (update_budget_row (b_id b) assign (budgets st)))).
  { apply filter_In. split.
    - unfold update_budget_row. apply in_map_iff. exists b.
      now rewrite Z.eqb_refl.
    - cbn [assign b_user_id b_category].
      now rewrite Hbu, Z.eqb_refl, String.eqb_refl. }
  destruct (filter _ (update_budget_row _ _ _)) as [|x [|y l]];
    [destruct Hmem | | simpl in Hone; lia].
  destruct Hmem as [->|[]]. reflexivity.
Qed.

Lemma update_budget_keeps_one_to_one_witness :
  exists st',
    update_budget two_budgets_store alice
      [("old_category", "food"); ("category", " groceries ");
       ("amount", "300")]
    = Ok (mkReply st' [msg_cat_updated] (Redirect ep_budget))
    /\ budgets_one_to_one st'
    /\ first_budget st' 1 "groceries" = Some (mkBudget 1 1 "groceries" 300).
Proof.
  assert (Hk : keys_unique two_budgets_store)
    by (apply reachable_keys_unique, two_budgets_store_reachable).
  assert (Hinv : budgets_one_to_one two_budgets_store).
  { unfold two_budgets_store, two_budgets_requests. cbn [run].
    do 2 apply save_budget_one_to_one. intros uid cat. vm_compute. lia. }
  destruct (update_budget_keeps_one_to_one two_budgets_store alice
              (mkUser 1 "" "alice" "pbkdf2$1" "UAH" "2024-05-17")
              [("old_category", "food"); ("category", " groceries ");
               ("amount", "300")]
              "food" " groceries " "300" 300 (mkBudget 1 1 "food" 250)
              Hk Hinv)
    as (st' & Hr & Hone & _ & Hf);
    try (vm_compute; reflexivity).
  - right. vm_compute. reflexivity.
  - exists st'. auto.
Defined.

(** ** Updating a goal and showing its progress *)

(** X19.  The owner's [update_goal] with both amounts present and numeric
    rewrites the goal under its id, leaving the ids and the owner alone:
    target and current are the parsed values, the name is the form's or,
    when the field is absent, the stored one, and the deadline is the
    form's, so that a form without a deadline (or with an empty one)
    clears the stored deadline. *)
Theorem update_goal_sets_fields (st : store) (sess : session) (u : User)
    (gid : Z) (g : Goal) (f : form) (raw_target raw_current : string)
    (target current : Q) :
  current_user st sess = Some u ->
  get_goal st gid = Some g -> g_user_id g = u_id u ->
  form_get f "target" = Some raw_target ->
  parse_number (PStr raw_target) = Ok target ->
  form_get f "current" = Some raw_current ->
  parse_number (PStr raw_current) = Ok current ->
  exists st',
    update_goal st sess gid f
    = Ok (mkReply st' [msg_goal_updated] (Redirect ep_savings))
    /\ get_goal st' gid
       = Some (mkGoal gid (g_user_id g)
                 match form_get f "name" with
                 | Some s => s
                 | None => g_name g
                 end
                 target current (opt_str_or_none (form_get f "deadline")))
    /\ (form_get f "deadline" = None \/ form_get f "deadline" = Some "" ->
        exists g', get_goal st' gid = Some g' /\ g_deadline g' = None)
    /\ map g_id (goals st') = map g_id (goals st)
    /\ users st' = users st /\ transactions st' = transactions st
    /\ budgets st' = budgets st.
Proof.
  intros Hu Hg Hown Ht Hpt Hc Hpc.
  destruct (session_present st sess u Hu) as [name ->].
  assert (Hid : g_id g = gid).
  { unfold get_goal in Hg. apply find_some in Hg. destruct Hg as [_ E].
    now apply Z.eqb_eq in E. }
  eexists. split.
  { unfold update_goal, login_required, update_goal_view.
    rewrite Hg, Hu. cbn [user_id bind]. rewrite Hown, Z.eqb_refl.
    cbn [negb]. unfold form_get_or. rewrite Ht, Hc, Hpt. cbn [bind].
    rewrite Hpc. reflexivity. }
  cbn [users transactions budgets goals].
  assert (Hfound : get_goal
            (mkStore (users st) (transactions st) (budgets st)
               (update_goal_row (g_id g)
                  (fun g' => mkGoal (g_id g') (g_user_id g')
                     match form_get f "name" with
                     | Some s => s
                     | None => g_name g
                     end target current
                     (opt_str_or_none (form_get f "deadline")))
                  (goals st))) gid
          = Some (mkGoal gid (g_user_id g)
                    match form_get f "name" with
                    | Some s => s
                    | None => g_name g
                    end
                    target current (opt_str_or_none (form_get f "deadline")))).
  { unfold get_goal, update_goal_row. cbn [goals]. rewrite Hid.
    rewrite (find_updated _ g_id gid _ (goals st) g); [|reflexivity|exact Hg].
    now rewrite Hid. }
  split; [exact Hfound|]. split.
  - intros Hd. eexists. split; [exact Hfound|]. cbn [g_deadline].
    destruct Hd as [-> | ->]; reflexivity.
  - split; [now apply update_goal_row_ids | auto].
Qed.

Lemma update_goal_sets_fields_witness :
  exists st' g',
    update_goal scenario_store alice 1
      [("target", "6000"); ("current", "150,5")]
    = Ok (mkReply st' [msg_goal_updated] (Redirect ep_savings))
    /\ get_goal st' 1 = Some g'
    /\ g_name g' = "car" /\ g_deadline g' = None.
Proof.
  destruct (update_goal_sets_fields scenario_store alice
              (mkUser 1 "" "alice" "pbkdf2$1" "UAH" "2024-05-17") 1
              (mkGoal 1 1 "car" 5000 100 None)
              [("target", "6000"); ("current", "150,5")]
              "6000" "150,5" 6000 (301 # 2))
    as (st' & Hr & Hg & _);
    try (vm_compute; reflexivity).
  eexists st', _. split; [exact Hr|]. split; [exact Hg|].
  split; reflexivity.
Defined.

Section GoalProgress.

Local Open Scope Q_scope.

Lemma float_or_zero_eq (x : Q) : float_or_zero x == x.
Proof.
  unfold float_or_zero. destruct (Qeq_bool x 0) eqn:E; [|reflexivity].
  apply Qeq_bool_iff in E. now rewrite E.
Qed.

Lemma goal_percent_no_target (g : Goal) :
  g_target g <= 0 -> goal_percent g = 0.
Proof.
  intro H. unfold goal_percent.
  rewrite (proj2 (Qltb_ge 0 (float_or_zero (g_target g)))); [reflexivity|].
  now rewrite float_or_zero_eq.
Qed.

Lemma goal_percent_target (g : Goal) :
  0 < g_target g ->
  goal_percent g == g_current g / g_target g * 100.
Proof.
  intro H. unfold goal_percent.
  rewrite (proj2 (Qltb_lt 0 (float_or_zero (g_target g))));
    [|now rewrite float_or_zero_eq].
  now rewrite !float_or_zero_eq.
Qed.

Lemma goal_percent_times_target (g : Goal) :
  0 < g_target g -> goal_percent g * g_target g == g_current g * 100.
Proof.
  intro H. rewrite (goal_percent_target g H). field.
  intro E. rewrite E in H. now apply Qlt_irrefl in H.
Qed.

End GoalProgress.

(** X20.  The goals page lists the user's goals in order, each with its id
    and its progress, in the user's currency.  The progress is 0 when the
    target is not positive, and for a positive target it is
    current / target * 100.  It is not capped at 100: a goal with a target
    of 100 that holds 250 is shown with a progress of 250. *)
Theorem goals_page_progress :
  (forall st sess u,
     current_user st sess = Some u ->
     exists ctx,
       savings st sess = Ok (ViewRender ctx)
       /\ sv_currency ctx = u_currency u
       /\ map (fun e => snd (fst e)) (sv_goals ctx) = user_goals st (u_id u)
       /\ Forall
            (fun e =>
               let g := snd (fst e) in
               let percent := snd e in
               fst (fst e) = g_id g /\ g_user_id g = u_id u
               /\ (g_target g <= 0 -> percent = 0)%Q
               /\ (0 < g_target g ->
                   percent == g_current g / g_target g * 100)%Q)
            (sv_goals ctx))
  /\ (exists ctx,
        reachable over_goal_store
        /\ savings over_goal_store alice = Ok (ViewRender ctx)
        /\ Forall2 (fun e p => snd e == p)%Q (sv_goals ctx) [250%Q]).
Proof.
  split.
  - intros st sess u Hu.
    destruct (session_present st sess u Hu) as [name ->].
    eexists. split.
    { unfold savings, login_required_view. rewrite Hu. reflexivity. }
    cbn [sv_currency sv_goals]. split; [reflexivity|]. split.
    { rewrite map_map. cbn [fst snd]. apply map_id. }
    apply Forall_forall. intros e He. apply in_map_iff in He.
    destruct He as [g [<- Hg]]. cbn [fst snd]. cbv zeta.
    unfold user_goals in Hg. apply filter_In in Hg. destruct Hg as [_ Ho].
    apply Z.eqb_eq in Ho.
    split; [reflexivity|]. split; [exact Ho|].
    split; [apply goal_percent_no_target | apply goal_percent_target].
  - eexists. split; [apply reachable_run; constructor|].
    split; [vm_compute; reflexivity|].
    cbn [sv_goals]. repeat constructor.
Qed.

Lemma goals_page_progress_witness :
  exists ctx,
    savings scenario_store alice = Ok (ViewRender ctx)
    /\ map (fun e => Qred (snd e)) (sv_goals ctx) = [2%Q].
Proof.
  destruct (proj1 goals_page_progress scenario_store alice
              (mkUser 1 "" "alice" "pbkdf2$1" "UAH" "2024-05-17"))
    as (ctx & Hs & _); [vm_compute; reflexivity|].
  exists ctx. split; [exact Hs|].
  vm_compute in Hs. inversion Hs. reflexivity.
Defined.

(** ** The budget page *)

Section BudgetPage.

Local Open Scope Q_scope.

Lemma opt_str_eqb_eq (a b : option string) : opt_str_eqb a b = true <-> a = b.
Proof.
  destruct a as [x|], b as [y|]; simpl; try (split; congruence).
  rewrite String.eqb_eq. split; congruence.
Qed.

Lemma kdict_get_set (K : Type) (key_eqb : K -> K -> bool)
    (d : list (K * Q)) (k k' : K) (v : Q) :
  (forall a b, key_eqb a b = true <-> a = b) ->
  kdict_get key_eqb (kdict_set key_eqb d k v) k' 0
  = if key_eqb k k' then v else kdict_get key_eqb d k' 0.
Proof.
  intro Heq. unfold kdict_get.
  induction d as [|[k0 v0] d IH]; simpl.
  - destruct (key_eqb k k'); reflexivity.
  - destruct (key_eqb k0 k) eqn:E0; simpl.
    + apply Heq in E0. subst k0. destruct (key_eqb k k'); reflexivity.
    + destruct (key_eqb k0 k') eqn:E1.
      * apply Heq in E1. subst k'.
        destruct (key_eqb k k0) eqn:E2; [|reflexivity].
        apply Heq in E2. subst k0.
        rewrite (proj2 (Heq _ _) eq_refl) in E0. discriminate.
      * exact IH.
Qed.

(** What the budget page shows as spent for a category is the sum of the
    amounts of the rows of that category whose date starts with the
    prefix. *)
Lemma spending_of_value (expenses : list Transaction) (prefix : string)
    (k : option string) :
  kdict_get opt_str_eqb (spending_of expenses prefix) k 0
  == Qsum (map t_amount
             (filter (fun t => startswith (t_date t) prefix
                               && opt_str_eqb (t_category t) k)
                     expenses)).
Proof.
  unfold spending_of.
  assert (G : forall acc,
    kdict_get opt_str_eqb
      (fold_left
         (fun spending t =>
            if startswith (t_date t) prefix then
              kdict_set opt_str_eqb spending (t_category t)
                (kdict_get opt_str_eqb spending (t_category t) 0 + t_amount t)
            else spending)
         expenses acc) k 0
    == kdict_get opt_str_eqb acc k 0
       + Qsum (map t_amount
                 (filter (fun t => startswith (t_date t) prefix
                                   && opt_str_eqb (t_category t) k)
                         expenses))).
  { induction expenses as [|t trs IH]; intro acc; simpl; [ring|].
    rewrite IH. destruct (startswith (t_date t) prefix); simpl; [|ring].
    rewrite kdict_get_set by apply opt_str_eqb_eq.
    destruct (opt_str_eqb (t_category t) k) eqn:E; simpl.
    - apply opt_str_eqb_eq in E. rewrite E. ring.
    - ring. }
  rewrite G. unfold kdict_get. simpl. ring.
Qed.

Lemma strftime_is_month_prefix (today : date) :
  (1000 <= d_year today <= 9999)%Z ->
  strftime_year_month today = month_prefix (d_year today) (d_month today).
Proof.
  intro H. unfold strftime_year_month, month_prefix.
  now rewrite (proj1 (four_digit_year _ H)).
Qed.

Lemma filter_ext_Forall (A : Type) (P : A -> Prop) (p q : A -> bool)
    (l : list A) :
  Forall P l -> (forall x, P x -> p x = q x) -> filter p l = filter q l.
Proof.
  intros H Hpq. induction H as [|x l Hx _ IH]; simpl; [reflexivity|].
  now rewrite (Hpq x Hx), IH.
Qed.

Lemma has_category_eqb (t : Transaction) (c : string) :
  has_category t ->
  opt_str_eqb (t_category t) (Some c)
  = String.eqb (str_or (t_category t) "Інше") c.
Proof.
  intros (a & s & E). rewrite E. reflexivity.
Qed.

End BudgetPage.

(** X21.  In a reachable store, on a day of a four-digit year, the budget
    page shows for every category the amount that the dashboard of the
    current month shows for it in its category breakdown, and the same
    budget limits that the health score is computed from. *)
Theorem budget_page_matches_dashboard (st : store) (sess : session)
    (today : date) (u : User) :
  reachable st ->
  1000 <= d_year today <= 9999 -> 1 <= d_month today <= 12 ->
  current_user st sess = Some u ->
  exists bctx dctx,
    budget st sess today = Ok (ViewRender bctx)
    /\ dashboard st sess [] today = Ok (mkReply st [] (RenderDashboard dctx))
    /\ bv_currency bctx = c_currency dctx
    /\ bv_budgets bctx = budget_map_of (user_budgets st (u_id u))
    /\ forall c,
         (kdict_get opt_str_eqb (bv_spending_by_cat bctx) (Some c) 0
          == dict_get (combine (c_exp_labels dctx) (c_exp_values dctx)) c 0)%Q.
Proof.
  intros Hreach Hy Hm Hu.
  assert (Hsel : selected_period [] today = Ok (d_month today, d_year today))
    by reflexivity.
  destruct (dashboard_renders st sess [] today u _ _ Hu Hsel Hm)
    as (dctx & Hd & Hcm & Hcy).
  destruct (dashboard_inv st sess [] today _ dctx Hd eq_refl)
    as (u' & Hu' & _ & _ & _ & _ & H).
  rewrite Hu in Hu'. inversion Hu'; subst u'. cbv zeta in H.
  destruct H as (_ & _ & _ & _ & _ & Hl & Hv & _).
  rewrite Hcm, Hcy in Hl, Hv.
  destruct (session_present st sess u Hu) as [name ->].
  eexists. exists dctx. split.
  { unfold budget, login_required_view. rewrite Hu. reflexivity. }
  split; [exact Hd|]. cbn [bv_currency bv_budgets bv_spending_by_cat].
  split.
  { unfold dashboard, login_required, dashboard_view in Hd.
    rewrite Hsel, Hu in Hd. cbn [bind user_id] in Hd.
    destruct (daily_values_of _ _); [|discriminate]. cbn [bind] in Hd.
    destruct (map_res _ (py_range 1 13)); [|discriminate]. cbn [bind] in Hd.
    destruct (months_ua_item (d_month today)); [|discriminate].
    cbn [bind] in Hd. inversion Hd. reflexivity. }
  split; [reflexivity|]. intro c.
  rewrite Hl, Hv, dict_combine, spending_of_value, exp_by_cat_of_value.
  rewrite (strftime_is_month_prefix today Hy).
  unfold period_transactions, month_transactions, user_transactions.
  rewrite <- !filter_and.
  erewrite (filter_ext_Forall _ has_category); [reflexivity | |].
  - now apply reachable_has_category.
  - intros t Ht. cbv beta. rewrite (has_category_eqb t c Ht).
    destruct (t_user_id t =? u_id u), (String.eqb (t_type t) "expense"),
      (startswith (t_date t) (month_prefix (d_year today) (d_month today))),
      (String.eqb (str_or (t_category t) "Інше") c); reflexivity.
Qed.

Lemma budget_page_matches_dashboard_witness :
  exists bctx dctx,
    budget scenario_store alice may17 = Ok (ViewRender bctx)
    /\ dashboard scenario_store alice [] may17
       = Ok (mkReply scenario_store [] (RenderDashboard dctx))
    /\ (kdict_get opt_str_eqb (bv_spending_by_cat bctx) (Some "food") 0
        == dict_get (combine (c_exp_labels dctx) (c_exp_values dctx))
                    "food" 0)%Q.
Proof.
  destruct (budget_page_matches_dashboard scenario_store alice may17
              (mkUser 1 "" "alice" "pbkdf2$1" "UAH" "2024-05-17")
              scenario_store_reachable)
    as (bctx & dctx & Hb & Hd & _ & _ & Hs);
    [simpl; lia | simpl; lia | vm_compute; reflexivity |].
  exists bctx, dctx. auto.
Defined.

(** ** The list of transactions *)

Section TransactionsPage.

Lemma insert_by_date_desc_perm (t : Transaction) (l : list Transaction) :
  Permutation (insert_by_date_desc t l) (t :: l).
Proof.
  induction l as [|t' l IH]; simpl; [reflexivity|].
  destruct (String.leb (t_date t') (t_date t)); [reflexivity|].
  rewrite IH. apply perm_swap.
Qed.

Lemma order_by_date_desc_perm (l : list Transaction) :
  Permutation (order_by_date_desc l) l.
Proof.
  induction l as [|t l IH]; simpl; [reflexivity|].
  rewrite insert_by_date_desc_perm. now constructor.
Qed.

Lemma insert_by_date_desc_sorted (t : Transaction) (l : list Transaction) :
  StronglySorted newer_first l ->
  StronglySorted newer_first (insert_by_date_desc t l).
Proof.
  induction 1 as [|t' l Hs IH Hall]; simpl.
  - repeat constructor.
  - destruct (String.leb (t_date t') (t_date t)) eqn:E.
    + constructor; [now constructor|]. constructor; [exact E|].
      eapply Forall_impl; [|exact Hall]. intros z Hz.
      unfold newer_first in *. eapply str_le_trans; eauto.
    + constructor; [exact IH|].
      assert (Ht : newer_first t' t).
      { destruct (str_le_total (t_date t) (t_date t')) as [H|H];
          [exact H | unfold str_le in H; congruence]. }
      apply Forall_forall. intros z Hz.
      apply (Permutation_in _ (insert_by_date_desc_perm t l)) in Hz.
      destruct Hz as [<-|Hz]; [exact Ht|].
      rewrite Forall_forall in Hall. now apply Hall.
Qed.

Lemma order_by_date_desc_sorted (l : list Transaction) :
  StronglySorted newer_first (order_by_date_desc l).
Proof.
  induction l as [|t l IH]; simpl; [constructor|].
  now apply insert_by_date_desc_sorted.
Qed.

Lemma kdict_set_fresh (V : Type) (d : list (Z * V)) (k : Z) (v : V) :
  ~ In k (map fst d) -> kdict_set Z.eqb d k v = (d ++ [(k, v)])%list.
Proof.
  induction d as [|[k' v'] d IH]; simpl; intro H; [reflexivity|].
  destruct (Z.eqb_spec k' k) as [->|_]; [tauto|].
  rewrite IH by tauto. reflexivity.
Qed.

(** A dict comprehension over rows with distinct keys keeps every row, in
    the order of the rows. *)
Lemma dict_by_id (l : list Transaction) :
  NoDup (map t_id l) ->
  fold_left (fun d t => kdict_set Z.eqb d (t_id t) t) l []
  = map (fun t => (t_id t, t)) l.
Proof.
  assert (G : forall acc : list Transaction,
    NoDup (map t_id (acc ++ l)) ->
    fold_left (fun d t => kdict_set Z.eqb d (t_id t) t) l
      (map (fun t => (t_id t, t)) acc)
    = map (fun t => (t_id t, t)) (acc ++ l)).
  { induction l as [|t l IH]; intros acc Hnd; simpl.
    - now rewrite app_nil_r.
    - rewrite kdict_set_fresh.
      + change [(t_id t, t)] with (map (fun t => (t_id t, t)) [t]).
        rewrite <- map_app, IH; rewrite <- app_assoc; [reflexivity|exact Hnd].
      + rewrite map_map. simpl. rewrite map_app in Hnd. simpl in Hnd.
        apply NoDup_remove_2 in Hnd. rewrite in_app_iff in Hnd. tauto. }
  intro Hnd. apply (G [] Hnd).
Qed.

(** The rows that a query selects from a table with distinct keys have
    distinct keys. *)
Lemma selected_rows_distinct (R K : Type) (key : R -> K) (keep : R -> bool)
    (rows : list R) :
  NoDup (map key rows) -> NoDup (map key (filter keep rows)).
Proof.
  induction rows as [|r rows IH]; simpl; intro H; [constructor|].
  inversion H as [|? ? Hn Hnd]; subst.
  destruct (keep r); simpl; [|now apply IH].
  constructor; [|now apply IH].
  rewrite in_map_iff in *. intros (y & Hy & Hin).
  apply Hn. exists y. split; [exact Hy|].
  apply filter_In in Hin. tauto.
Qed.

End TransactionsPage.

(** X22.  With distinct row ids, the list of transactions shows exactly
    the rows of the user, each under its own id, ordered so that no row
    comes before a row of a later date, with the currency of the user and
    the categories of the user's budgets. *)
Theorem transactions_page_lists_own_rows (st : store) (sess : session)
    (today : date) (u : User) :
  keys_unique st ->
  current_user st sess = Some u ->
  exists ctx,
    transactions_view st sess today = Ok (ViewRender ctx)
    /\ tv_transactions ctx
       = map (fun t => (t_id t, t)) (map snd (tv_transactions ctx))
    /\ Permutation (map snd (tv_transactions ctx))
                   (user_transactions st (u_id u))
    /\ StronglySorted newer_first (map snd (tv_transactions ctx))
    /\ tv_currency ctx = u_currency u
    /\ tv_categories ctx = map b_category (user_budgets st (u_id u)).
Proof.
  intros (_ & Hnd & _) Hu.
  destruct (session_present st sess u Hu) as [name ->].
  eexists. split.
  { unfold transactions_view, login_required_view. rewrite Hu. reflexivity. }
  cbn [tv_transactions tv_currency tv_categories].
  assert (Hd : fold_left (fun d t => kdict_set Z.eqb d (t_id t) t)
                 (order_by_date_desc (user_transactions st (u_id u))) []
               = map (fun t => (t_id t, t))
                   (order_by_date_desc (user_transactions st (u_id u)))).
  { apply dict_by_id.
    apply (Permutation_NoDup
             (l := map t_id (user_transactions st (u_id u)))).
    - apply Permutation_map. symmetry. apply order_by_date_desc_perm.
    - now apply selected_rows_distinct. }
  rewrite Hd, !map_map. cbn [snd]. rewrite map_id.
  split; [reflexivity|]. split; [apply order_by_date_desc_perm|].
  split; [apply order_by_date_desc_sorted|]. split; reflexivity.
Qed.

Lemma transactions_page_lists_own_rows_witness :
  exists ctx,
    transactions_view scenario_store alice may17 = Ok (ViewRender ctx)
    /\ Permutation (map snd (tv_transactions ctx))
                   (user_transactions scenario_store 1).
Proof.
  destruct (transactions_page_lists_own_rows scenario_store alice may17
              (mkUser 1 "" "alice" "pbkdf2$1" "UAH" "2024-05-17")
              (reachable_keys_unique _ scenario_store_reachable))
    as (ctx & Hv & _ & Hp & _); [vm_compute; reflexivity|].
  exists ctx. split; [exact Hv | exact Hp].
Defined.

(** X23.  A new goal.  For a known user, a form without a name or without
    a target aborts the request and writes nothing.  With a name, a target
    that parses and no field for the saved amount, one goal is appended
    under a fresh id, for that user, with the name and the target of the
    form, nothing saved, no deadline when the field is absent or empty,
    and a progress of 0. *)
Theorem add_savings_outcomes (st : store) (sess : session) (f : form)
    (u : User) :
  current_user st sess = Some u ->
  (form_get f "name" = None \/ form_get f "target" = None ->
   add_savings st sess f = Raise BadRequestKeyError)
  /\ (forall name raw target,
        form_get f "name" = Some name ->
        form_get f "target" = Some raw ->
        parse_number (PStr raw) = Ok target ->
        form_get f "current" = None ->
        exists g,
          add_savings st sess f
          = Ok (mkReply (mkStore (users st) (transactions st) (budgets st)
                           (goals st ++ [g])%list)
                  [msg_goal_added] (Redirect ep_savings))
          /\ ~ In (g_id g) (map g_id (goals st))
          /\ g_user_id g = u_id u /\ g_name g = name /\ g_target g = target
          /\ (g_current g == 0)%Q
          /\ g_deadline g = opt_str_or_none (form_get f "deadline")
          /\ (goal_percent g == 0)%Q).
Proof.
  intro Hu. destruct (session_present st sess u Hu) as [uname ->].
  unfold add_savings, login_required, add_savings_view. rewrite Hu.
  split.
  - unfold form_get, form_item.
    intros [-> | Ht]; [reflexivity|].
    destruct (dict_find f "name"); [|reflexivity].
    cbn [bind]. rewrite Ht. reflexivity.
  - intros name raw target Hn Ht Hp Hc.
    rewrite (form_item_get _ _ _ Hn), (form_item_get _ _ _ Ht), Hc.
    cbn [bind]. rewrite Hp. cbn [bind].
    destruct (parse_number (PStr "0")) as [zero|e] eqn:Ez;
      [|vm_compute in Ez; discriminate].
    assert (Hz : (zero == 0)%Q)
      by (vm_compute in Ez; inversion Ez; reflexivity).
    cbn [try_except bind user_id].
    eexists. split; [reflexivity|]. cbn [g_id g_user_id g_name g_target
      g_current g_deadline].
    split; [apply next_id_fresh|].
    do 4 (split; [reflexivity || exact Hz|]).
    split; [reflexivity|].
    set (g := mkGoal _ _ _ _ _ _).
    destruct (Qlt_le_dec 0 (g_target g)) as [Hpos|Hneg].
    + pose proof (goal_percent_times_target g Hpos) as Hm.
      change (g_current g) with zero in Hm. rewrite Hz in Hm.
      assert (H0 : (goal_percent g * g_target g == 0)%Q)
        by (rewrite Hm; ring).
      apply Qmult_integral in H0. destruct H0 as [H0|H0]; [exact H0|].
      rewrite H0 in Hpos. now apply Qlt_irrefl in Hpos.
    + now rewrite (goal_percent_no_target g Hneg).
Qed.

Lemma add_savings_outcomes_witness :
  add_savings scenario_store alice [("name", "bike")]
  = Raise BadRequestKeyError
  /\ exists g,
       add_savings scenario_store alice [("name", "bike"); ("target", "1,5")]
       = Ok (mkReply (mkStore (users scenario_store)
                        (transactions scenario_store)
                        (budgets scenario_store)
                        (goals scenario_store ++ [g])%list)
               [msg_goal_added] (Redirect ep_savings))
       /\ g_name g = "bike" /\ g_target g = (3 # 2)%Q.
Proof.
  split.
  - apply (proj1 (add_savings_outcomes scenario_store alice
                    [("name", "bike")]
                    (mkUser 1 "" "alice" "pbkdf2$1" "UAH" "2024-05-17")
                    eq_refl)).
    right. reflexivity.
  - destruct (proj2 (add_savings_outcomes scenario_store alice
                       [("name", "bike"); ("target", "1,5")]
                       (mkUser 1 "" "alice" "pbkdf2$1" "UAH" "2024-05-17")
                       eq_refl)
                "bike" "1,5" (3 # 2)%Q eq_refl eq_refl eq_refl eq_refl)
      as (g & Hg & _ & _ & Hn & Ht & _).
    exists g. auto.
Defined.
